(* ===== verification/_CoqProject ===== *)
-Q . S2P
Prelude.v
Layout.v
PyDict.v
Tensor.v
Torch.v
Interp.v
Embedding.v
ControlNet.v
Shapes.v
V3.v
V3Shapes.v
V3Modes.v
