(* ===== verification/Prelude.v ===== *)
(** * HelloMeme ControlNet variants: a verified model of src/hellomeme/models/hm_control.py

    (Header of the whole development; this file is its root.)

    ** The program

    [src/hellomeme/models/hm_control.py] declares five conditioning networks
    ("ControlNets") of a face-animation diffusion pipeline:
    [HMControlNet] (lines 23-88), [HMControlNet2] (90-146),
    [HMV2ControlNet] (148-213), [HMV3ControlNet] (216-305) and
    [HMV2ControlNet2] (308-364).  Each one has an [__init__] that builds its
    sub-modules from a configuration (a first convolution [conv_in], sinusoidal
    [Timesteps] encoders, [TimestepEmbedding] projections and a chain of
    [SKCrossAttention] fusion blocks, one per consecutive pair of
    [block_out_channels]), and a [forward] that
    - unpacks [condition.shape] into [bs, _, video_length, h, w];
    - folds frames into the batch ([rearrange "b c f h w -> (b f) c h w"]),
      downsamples by [scale_factor] with [F.interpolate] and applies [conv_in];
    - builds the driving embedding: coefficients scaled by [500.] (expression)
      or [20.] (emotion), flattened, embedded by [Timesteps], reshaped and, in
      the expression path, concatenated with the projected face-part features
      along the region axis before the last projection;
    - runs the fusion chain and stores each stage's output, with frames
      unfolded again ([rearrange "(b f) c h w -> b c f h w"]), in a Python
      dict under a key made from the stage index ([down_i], [down2_i],
      [up_v2_i], [up3_i]/[down3_i], [up2_v2_i]).
    [HMV3ControlNet] chooses at run time between the expression path and the
    emotion path (line 264), cross-wires stages 2 and 1 through two 1x1
    convolutions into [down3_0]/[down3_1], and aliases the last stage's
    output under [down3_2] and [down3_3].

    ** The development (library root S2P, files in dependency order)

    - [Prelude] (this file): the Python exceptions [pyerr], the result
      monad [res] with its notations in [res_scope], the relation [res_rel]
      every refinement proof uses, the shape-arithmetic lemmas and the
      tactics [shape_rw]/[shape_simpl], and the hint databases [hm], [hm_rw].
    - [Layout]: row-major buffers ([numel], [chunks], [transpose_mat],
      [rows]) and the regrouping lemmas the tensor files share.
    - [PyDict]: Python's insertion-ordered [dict] ([dict_set], [dict_get],
      [dict_getitem] raising [KeyError]), its refinement to stdpp's [gmap]
      and the setoid [dict_equiv] with its [Proper] instances; the f-string
      keys ([py_str_nat], [key_of]); the V3 output dict as a store of
      objects with identities ([pyref], [py_store_new], [py_store_alias]).
    - [Tensor]: tensors as [shape] and row-major [data]; the six einops
      patterns of the forwards with einops' errors, [torch.cat] on dim 2,
      scalar multiplication; the frame/channel swap [swap_axes12] with its
      reference [swap_axes12_ref] (index formula), the equivalence of the
      two and the round trips of the frame axis.
    - [Torch]: [F.interpolate], [nn.Conv2d], [Timesteps] (written out from
      diffusers' [get_timestep_embedding]), [TimestepEmbedding] and
      [SKCrossAttention] against the class [Kernels] (numerical kernels and
      their length laws), each with a shape semantics and a refinement lemma.
    - [Interp]: the interface [TensorOps] the forwards are written against,
      its data instance [data_ops] and shape instance [shape_ops], the
      simulation lemmas [ops_*_rel] and the tactic [rel_solve].
    - [Embedding]: the expression and emotion driving embeddings (lines
      67-80, 133-138 and their copies), their shapes and the tokens they
      compute ([exp_drive_embedding_tokens], [emo_drive_embedding_tokens]).
    - [ControlNet]: Modules [HMControlNet], [HMControlNet2],
      [HMV2ControlNet], [HMV2ControlNet2] (state record [t], [init],
      [forward]) over the shared [make_blocks], [forward_stem], [run_blocks];
      the simulation of each forward's pieces by their shape semantics
      (lemmas used by [Shapes]), output keys, the [__init__] error and the
      face-parts regrouping.
    - [Shapes]: the exact output shapes of the four single-mode forwards on
      inputs of the documented shapes (spec section 8).
    - [V3]: Module [HMV3ControlNet] ([init], [drive_embedding_of], [stage3],
      [run_blocks3], [forward]); branch independence, the missing-input
      error, object identities and the aliases [down3_2]/[down3_3], the
      output keys for any number of blocks, and the simulation lemmas used
      by [V3Shapes].
    - [V3Shapes]: the hard-wired 1280-channel adapters: [RuntimeError] for
      any other width at stage [up3_2], and the exact output shapes,
      [down3_*] included, when the widths fit.
    - [V3Modes]: composition of the variants: built from the same
      configuration and weights, [HMV3ControlNet] in the emotion mode
      computes under [up3_k] what [HMV2ControlNet2] computes under
      [up2_v2_k], and in the expression mode what [HMV2ControlNet] computes
      under [up_v2_k].

    ** What the theorems show

    Functional theorems give each forward's result on every branch, errors
    as [Err e] where the code raises [e]; the output-shape theorems give,
    for networks built by [__init__], the exact keys and shapes every
    forward returns (proved on the shape semantics and carried to tensors
    by the simulation lemmas of [Interp], which are tools, not claims);
    invariants cover the V3 store (fresh identities, aliasing); the
    refinement theorems of [V3Modes] relate V3 to the single-mode
    networks; the layout theorems show the einops data movement correct
    (index formula, round trip).  Each theorem with hypotheses has a
    witness on the reference instance [int_kernels] evaluated by
    [vm_compute] or [reflexivity].

    ** Bounds and fuel

    None are needed: every loop of the code is a [for] over a finite list
    ([block_out_channels], [blocks_down], a range) and is modelled by
    structural recursion or [map] over that list.  Sizes are unbounded
    [nat]; the code has no fixed-width integers (shapes are Python ints).
    Termination is therefore not stated as a theorem of its own: the
    kernel accepts every definition as a total function, and the
    theorems on success ([*_output_shapes]) state when a forward returns
    a dict rather than an exception.

    ** Not modelled

    diffusers' [ModelMixin]/[ConfigMixin]/[register_to_config] (config
    serialisation, inherited library code); dtype casts [.to(dtype=...)]
    (no effect on shapes, keys or control flow); the numerics of
    convolution, bilinear interpolation and the linear layers (parameters
    of [Kernels], only their output lengths are assumed); the internals of
    [SKCrossAttention] (hm_blocks.py is not under src/; its shape contract
    is modelled from the spec, its spatial map and acceptance condition are
    parameters). *)

From stdpp Require Export base list.
From Stdlib Require Export Lia ArithRing.

(** ** Python exceptions raised by the modelled code and its libraries *)

Inductive pyerr :=
| ValueError          (* unpacking a shape of the wrong rank; F.interpolate size/rank mismatch *)
| TypeError           (* arithmetic on [None] *)
| RuntimeError        (* torch shape checks (conv, linear, cat, interpolate) *)
| EinopsError         (* einops pattern/shape mismatch *)
| ZeroDivisionError   (* Python [//] or einops division by zero *)
| AssertionError      (* diffusers' [assert] in get_timestep_embedding *)
| KeyError            (* reading an absent dict key *)
| IndexError.         (* indexing a list out of range *)

#[export] Instance pyerr_eq_dec : EqDecision pyerr.
Proof. solve_decision. Defined.

(** ** The result monad *)

Inductive res (A : Type) : Type :=
| Ok (a : A)
| Err (e : pyerr).
Arguments Ok {A} a.
Arguments Err {A} e.

Definition res_bind {A B} (m : res A) (k : A -> res B) : res B :=
  match m with Ok a => k a | Err e => Err e end.

Definition res_map {A B} (f : A -> B) (m : res A) : res B :=
  match m with Ok a => Ok (f a) | Err e => Err e end.

(** [check b e] raises [e] unless [b] holds. *)
Definition check (b : bool) (e : pyerr) : res unit :=
  if b then Ok tt else Err e.

Declare Scope res_scope.
Delimit Scope res_scope with res.
Notation "x <- m ;; k" := (res_bind m (fun x => k))
  (at level 60, m at next level, right associativity) : res_scope.
Notation "'check!' b 'else' e ;; k" := (res_bind (check b e) (fun _ => k))
  (at level 60, b at next level, e at next level, right associativity)
  : res_scope.

(** [res_rel R] relates two computations that fail with the same exception
    or succeed with [R]-related values: the simulation relation of the
    refinement proofs. *)
Definition res_rel {A B} (R : A -> B -> Prop) (m1 : res A) (m2 : res B) : Prop :=
  match m1, m2 with
  | Ok a, Ok b => R a b
  | Err e1, Err e2 => e1 = e2
  | _, _ => False
  end.

Create HintDb hm discriminated.
Create Rewrite HintDb hm_rw.

Section ResLemmas.
Context {A B C D : Type}.

Lemma res_bind_ok (a : A) (k : A -> res B) : res_bind (Ok a) k = k a.
Proof. reflexivity. Qed.

Lemma res_bind_err (e : pyerr) (k : A -> res B) : res_bind (Err e) k = Err e.
Proof. reflexivity. Qed.

Lemma res_bind_Ok_inv (m : res A) (k : A -> res B) (b : B) :
  res_bind m k = Ok b -> exists a, m = Ok a /\ k a = Ok b.
Proof. destruct m; simpl; [eauto | discriminate]. Qed.

Lemma res_rel_bind (R : A -> B -> Prop) (S : C -> D -> Prop)
      m1 m2 (k1 : A -> res C) (k2 : B -> res D) :
  res_rel R m1 m2 ->
  (forall a b, R a b -> res_rel S (k1 a) (k2 b)) ->
  res_rel S (res_bind m1 k1) (res_bind m2 k2).
Proof. destruct m1, m2; simpl; intuition. Qed.

Lemma res_rel_Ok (R : A -> B -> Prop) a b : R a b -> res_rel R (Ok a) (Ok b).
Proof. done. Qed.

Lemma res_rel_Err (R : A -> B -> Prop) e : res_rel R (Err e) (Err e).
Proof. done. Qed.

Lemma res_rel_check (R : A -> B -> Prop) b e (k1 : res A) (k2 : res B) :
  res_rel R k1 k2 ->
  res_rel R (res_bind (check b e) (fun _ => k1)) (res_bind (check b e) (fun _ => k2)).
Proof. destruct b; simpl; done. Qed.

Lemma res_rel_Ok_inv (R : A -> B -> Prop) m1 b :
  res_rel R m1 (Ok b) -> exists a, m1 = Ok a /\ R a b.
Proof. destruct m1; simpl; [eauto | done]. Qed.

Lemma res_rel_eq_refl (m : res A) : res_rel eq m m.
Proof. by destruct m. Qed.

Lemma res_rel_Err_inv (R : A -> B -> Prop) m1 e :
  res_rel R m1 (Err e) -> m1 = Err e.
Proof. destruct m1; simpl; [done | by intros ->]. Qed.

End ResLemmas.

#[export] Hint Resolve res_rel_Ok res_rel_Err res_rel_check res_rel_eq_refl : hm.
#[export] Hint Rewrite @res_bind_ok @res_bind_err : hm_rw.

(** [rel_step] peels one bind of a [res_rel] goal, leaving the relation of
    the two first computations and of the continuations. *)
Ltac rel_step :=
  match goal with
  | |- res_rel _ (res_bind (check ?b ?e) _) (res_bind (check ?b ?e) _) =>
      apply res_rel_check
  | |- res_rel _ (res_bind _ _) (res_bind _ _) =>
      eapply res_rel_bind; [ | intros ???; cbv beta ]
  end.

(** ** Shape arithmetic

    The shape semantics computes with [*], [/] and [mod] on the axis
    lengths; these cancellations settle the einops divisibility checks
    when an axis was produced by the matching fold. *)

Lemma mul_mod_cancel_l n a : (n * a) mod n = 0.
Proof. rewrite Nat.mul_comm. apply Nat.Div0.mod_mul. Qed.

Lemma mul_mod_cancel_r a n : (a * n) mod n = 0.
Proof. apply Nat.Div0.mod_mul. Qed.

Lemma mul_div_cancel_l n a : n <> 0 -> n * a / n = a.
Proof. intros. rewrite Nat.mul_comm. by apply Nat.div_mul. Qed.

Lemma mul_div_cancel_r a n : n <> 0 -> a * n / n = a.
Proof. apply Nat.div_mul. Qed.

Lemma eqb_0_pos n : 0 < n -> (n =? 0) = false.
Proof. intros. apply Nat.eqb_neq. lia. Qed.

Lemma div_pos_num a q : 0 < a / q -> 0 < a.
Proof. destruct a; [by rewrite Nat.Div0.div_0_l | lia]. Qed.

Lemma div_pos_den a q : 0 < a / q -> 0 < q.
Proof. destruct q; [done | lia]. Qed.

#[export] Hint Rewrite mul_mod_cancel_l mul_mod_cancel_r Nat.eqb_refl : hm_rw.

(** [shape_rw] performs one rewrite that settles a check of the shape
    semantics: a cancellation, a comparison with zero, or a [<=?]; its
    side conditions go to [nia]. *)
Ltac shape_rw :=
  first [ rewrite Nat.eqb_refl | rewrite mul_mod_cancel_l | rewrite mul_mod_cancel_r
        | rewrite mul_div_cancel_l by nia | rewrite mul_div_cancel_r by nia
        | rewrite eqb_0_pos by nia
        | match goal with |- context [?a <=? ?b] => rewrite (proj2 (Nat.leb_le a b)) by lia end ].

(** [shape_simpl] evaluates a program of the shape semantics on symbolic
    axis lengths, settling each check it meets with [shape_rw]. *)
Ltac shape_simpl :=
  repeat first [ shape_rw | progress (cbn -[Nat.mul Nat.div Nat.modulo Nat.leb]) ].
