(* ===== verification/Layout.v ===== *)
(** * Row-major layout

    The buffer view of tensors shared by the tensor files: [numel], the
    cutting of a flat buffer into rows ([chunks]), matrix transposition
    ([transpose_mat]), the rectangularity predicate [rows], and their
    lemmas: lengths, indexing ([nth_chunks], [nth_concat_rows]), the
    inverse pairs [concat]/[chunks], the involution of transposition, and
    the regrouping of per-row kernels along an outer axis.  Also the list
    lemmas on [seq] and [NoDup] used for the output keys. *)

From S2P Require Import Prelude.

(** ** Row-major layout helpers *)

(** [numel s] is the number of elements of a tensor of shape [s]. *)
Definition numel (s : list nat) : nat := foldr Nat.mul 1 s.

(** [chunks k n l] cuts the first [k * n] elements of [l] into [k] rows of
    [n] elements: the view of a contiguous buffer as a [k x n] matrix. *)
Fixpoint chunks {A} (k n : nat) (l : list A) : list (list A) :=
  match k with
  | 0 => []
  | S k' => take n l :: chunks k' n (drop n l)
  end.

(** [transpose_mat d f m] transposes a matrix given by its rows [m], each of
    [f] entries ([d] fills missing entries, never read on rectangular
    matrices). *)
Definition transpose_mat {A} (d : A) (f : nat) (m : list (list A)) : list (list A) :=
  map (fun j => map (fun r => nth j r d) m) (seq 0 f).

(** [rows n m]: every row of [m] has [n] entries. *)
Definition rows {A} (n : nat) (m : list (list A)) : Prop :=
  Forall (fun r => length r = n) m.

(** A map that is injective on [[a, a + n)] has no duplicates there. *)
Lemma NoDup_map_seq {B} (g : nat -> B) a n :
  (forall i j, a <= i < a + n -> a <= j < a + n -> g i = g j -> i = j) ->
  NoDup (map g (seq a n)).
Proof.
  revert a; induction n as [|n IH]; intros a Hg; simpl; constructor.
  - intros Hin. apply list_elem_of_In, in_map_iff in Hin as (j & Hj & Hin).
    apply in_seq in Hin. assert (a = j) by (apply Hg; [lia | lia | congruence]). lia.
  - apply IH. intros i j ??. apply Hg; lia.
Qed.

(** No duplicates in a concatenation of blocks that are each duplicate-free
    and pairwise disjoint. *)
Lemma NoDup_concat_map {A B} (f : A -> list B) l :
  NoDup l -> (forall x, NoDup (f x)) ->
  (forall x y b, b ∈ f x -> b ∈ f y -> x = y) ->
  NoDup (concat (map f l)).
Proof.
  intros Hl Hf Hd. induction Hl as [|a l Ha Hl IH]; simpl; [constructor|].
  apply NoDup_app. split; [done|]. split; [|done].
  intros b Hb Hb'. apply list_elem_of_In, in_concat in Hb' as (fy & Hfy & Hbfy).
  apply in_map_iff in Hfy as (y & <- & Hy).
  assert (a = y) as -> by (eapply Hd; [exact Hb | by apply list_elem_of_In]).
  by apply Ha, list_elem_of_In.
Qed.

(** Counting down over a range is the reverse of counting up. *)
Lemma map_seq_rev {B} (g : nat -> B) n :
  map (fun i => g (n - i - 1)) (seq 0 n) = rev (map g (seq 0 n)).
Proof.
  induction n as [|n IH]; [done|].
  transitivity (g n :: rev (map g (seq 0 n))).
  - cbn [seq map]. replace (S n - 0 - 1) with n by lia. f_equal.
    rewrite <- seq_shift, map_map, <- IH. by apply map_ext.
  - by rewrite seq_S, map_app, rev_app_distr.
Qed.

Lemma concat_rev_singletons {A B} (f : A -> B) l :
  concat (rev (map (fun x => [f x]) l)) = rev (map f l).
Proof.
  induction l as [|x l IH]; [done|]. simpl.
  by rewrite concat_app, IH.
Qed.

(** A row-major index [i * m + j] of a [n x m] layout is in range. *)
Lemma row_major_lt i n j m : i < n -> j < m -> i * m + j < n * m.
Proof. intros. nia. Qed.

(** Splitting a flat index along an axis of length [x]. *)
Lemma div_mod_split i x : 0 < x -> i = i / x * x + i mod x /\ i mod x < x.
Proof. intros. split; [rewrite Nat.mul_comm; apply Nat.div_mod; lia | apply Nat.mod_upper_bound; lia]. Qed.

(** A row-major index determines its row and column. *)
Lemma row_major_inj a r a' r' m : r < m -> r' < m -> a * m + r = a' * m + r' -> a = a' /\ r = r'.
Proof.
  intros Hr Hr' H.
  assert (Ha : (a * m + r) / m = a) by (rewrite Nat.div_add_l by lia; rewrite Nat.div_small; lia).
  assert (Ha' : (a' * m + r') / m = a') by (rewrite Nat.div_add_l by lia; rewrite Nat.div_small; lia).
  assert (a = a') by congruence. subst. lia.
Qed.

Lemma nth_map_seq {A} (g : nat -> A) n i d : i < n -> nth i (map g (seq 0 n)) d = g i.
Proof.
  intros Hi. rewrite (nth_indep _ d (g 0)) by (rewrite length_map, length_seq; lia).
  by rewrite map_nth, seq_nth.
Qed.

(** A list is the list of its elements read by index. *)
Lemma map_nth_seq_self {A} (l : list A) d : map (fun j => nth j l d) (seq 0 (length l)) = l.
Proof.
  apply nth_ext with (d := d) (d' := d); [by rewrite length_map, length_seq|].
  intros i Hi. rewrite length_map, length_seq in Hi. by rewrite nth_map_seq.
Qed.

Section ListLemmas.
Context {A : Type}.
Implicit Types (l : list A) (m : list (list A)).

Lemma lookup_nth_lt l i d : i < length l -> l !! i = Some (nth i l d).
Proof.
  intros Hi. destruct (lookup_lt_is_Some_2 l i Hi) as [x Hx].
  rewrite Hx. f_equal. symmetry. by apply nth_lookup_Some.
Qed.

Lemma numel_cons n s : numel (n :: s) = n * numel s.
Proof. reflexivity. Qed.

Lemma length_chunks k n l : length (chunks k n l) = k.
Proof. revert l; induction k; intros; simpl; auto. Qed.

Lemma chunks_rows k n l : k * n <= length l -> rows n (chunks k n l).
Proof.
  revert l; induction k as [|k IH]; intros l Hl; simpl; constructor.
  - rewrite length_take; lia.
  - apply IH. rewrite length_drop. lia.
Qed.

Lemma concat_chunks k n l : length l = k * n -> concat (chunks k n l) = l.
Proof.
  revert l; induction k as [|k IH]; intros l Hl; simpl.
  - destruct l; simpl in *; [done | lia].
  - rewrite IH; [apply take_drop | rewrite length_drop; lia].
Qed.

Lemma length_concat_rows n m : rows n m -> length (concat m) = length m * n.
Proof. induction 1; simpl; rewrite ?length_app; lia. Qed.

Lemma chunks_concat k n m :
  rows n m -> length m = k -> chunks k n (concat m) = m.
Proof.
  intros Hr. revert k; induction Hr as [|r m Hr Hm IH]; intros k Hk;
    destruct k; simpl in *; try lia; [done|].
  rewrite take_app_length' by done.
  rewrite drop_app_length' by done. f_equal. apply IH. lia.
Qed.

Lemma nth_chunks k n l i j d :
  i < k -> j < n -> nth j (nth i (chunks k n l) []) d = nth (i * n + j) l d.
Proof.
  revert l i; induction k as [|k IH]; intros l i Hi Hj; [lia|].
  destruct i as [|i]; simpl.
  - rewrite !nth_lookup, lookup_take_lt by lia. done.
  - rewrite IH by lia. rewrite !nth_lookup, lookup_drop.
    f_equal; f_equal; lia.
Qed.

Lemma length_transpose_mat d f m : length (transpose_mat d f m) = f.
Proof. unfold transpose_mat. by rewrite length_map, length_seq. Qed.

Lemma transpose_mat_rows d f m : rows (length m) (transpose_mat d f m).
Proof.
  unfold transpose_mat, rows. apply Forall_forall. intros r Hr.
  apply list_elem_of_In, in_map_iff in Hr as (j & <- & _). by rewrite length_map.
Qed.

Lemma nth_transpose_mat d f m i j :
  i < f -> j < length m ->
  nth j (nth i (transpose_mat d f m) []) d = nth i (nth j m []) d.
Proof.
  intros Hi Hj. unfold transpose_mat.
  rewrite (nth_lookup (map _ _) i), list_lookup_fmap, lookup_seq_lt by lia. simpl.
  rewrite (nth_lookup (map _ _) j), list_lookup_fmap.
  destruct (lookup_lt_is_Some_2 m j Hj) as [r Hr]. rewrite Hr. simpl.
  by rewrite (nth_lookup_Some m j [] r Hr).
Qed.

Lemma rows_nth n m i : rows n m -> i < length m -> length (nth i m []) = n.
Proof. intros Hr Hi. unfold rows in Hr. rewrite Forall_forall in Hr. apply Hr, list_elem_of_In, nth_In, Hi. Qed.

(** Transposing twice gives back a rectangular matrix. *)
Lemma transpose_mat_involutive d f m :
  rows f m -> transpose_mat d (length m) (transpose_mat d f m) = m.
Proof.
  intros Hr. apply nth_ext with (d := []) (d' := []).
  { by rewrite length_transpose_mat. }
  intros j Hj. rewrite length_transpose_mat in Hj.
  apply nth_ext with (d := d) (d' := d).
  - rewrite (rows_nth (length (transpose_mat d f m))) by
      (apply transpose_mat_rows || by rewrite length_transpose_mat).
    rewrite length_transpose_mat. symmetry. by apply rows_nth.
  - intros i Hi.
    rewrite (rows_nth (length (transpose_mat d f m))) in Hi by
      (apply transpose_mat_rows || by rewrite length_transpose_mat).
    rewrite length_transpose_mat in Hi.
    rewrite nth_transpose_mat by (rewrite ?length_transpose_mat; lia).
    rewrite nth_transpose_mat by lia. done.
Qed.

Lemma Forall_concat_2 (P : A -> Prop) m : Forall (Forall P) m -> Forall P (concat m).
Proof. induction 1; simpl; [constructor | apply Forall_app; auto]. Qed.

Lemma Forall_chunks (P : A -> Prop) k n l : Forall P l -> Forall (Forall P) (chunks k n l).
Proof.
  revert l; induction k; intros l H; simpl; constructor;
    auto using Forall_take, Forall_drop.
Qed.

Lemma Forall_transpose_mat (P : A -> Prop) d f m :
  rows f m -> Forall (Forall P) m -> Forall (Forall P) (transpose_mat d f m).
Proof.
  intros Hr HP. unfold transpose_mat. apply Forall_forall. intros r Hr'.
  apply list_elem_of_In, in_map_iff in Hr' as (i & <- & Hi). apply in_seq in Hi.
  apply Forall_forall. intros x Hx.
  apply list_elem_of_In, in_map_iff in Hx as (row & <- & Hrow).
  apply list_elem_of_In in Hrow.
  unfold rows in Hr. rewrite Forall_forall in HP, Hr. specialize (HP row Hrow).
  rewrite (Forall_nth P d) in HP. apply HP. rewrite Hr by done. lia.
Qed.

Lemma nth_concat_rows n m i j d :
  rows n m -> i < length m -> j < n ->
  nth (i * n + j) (concat m) d = nth j (nth i m []) d.
Proof.
  intros Hr. revert i; induction Hr as [|r m Hr Hm IH]; intros [|i] Hi Hj;
    simpl in *; try lia.
  - rewrite app_nth1 by lia. done.
  - rewrite app_nth2 by lia.
    replace (n + i * n + j - length r) with (i * n + j) by lia. apply IH; lia.
Qed.

Lemma rows_zip_with {B C} (g : list A -> list B -> list C) n k o m1 (m2 : list (list B)) :
  rows n m1 -> rows k m2 -> length m1 = length m2 ->
  (forall a b, length a = n -> length b = k -> length (g a b) = o) ->
  rows o (zip_with g m1 m2) /\ length (zip_with g m1 m2) = length m1.
Proof.
  intros H1. revert m2; induction H1 as [|r1 m1 Hr1 Hm1 IH]; intros m2 H2 Hl Hg;
    inversion H2 as [|r2 m2' Hr2 Hm2]; subst; simpl in *; try lia.
  - split; [constructor | done].
  - destruct (IH m2' Hm2 ltac:(lia) Hg) as [IHr IHl]. split.
    + constructor; [by apply Hg | done].
    + by rewrite IHl.
Qed.

Lemma rows_map {B} (g : list A -> list B) n o m :
  rows n m -> (forall a, length a = n -> length (g a) = o) -> rows o (map g m).
Proof. intros Hm Hg. apply Forall_fmap. eapply Forall_impl; [exact Hm|]. apply Hg. Qed.

End ListLemmas.

(** Applying a per-row kernel of output length [o] to the [k] rows of a
    buffer gives [k * o] elements. *)
Lemma length_concat_map_chunks {A B} (g : list A -> list B) k n o l :
  (forall a, length a = n -> length (g a) = o) -> k * n <= length l ->
  length (concat (map g (chunks k n l))) = k * o.
Proof.
  intros Hg Hl. rewrite (length_concat_rows o).
  - by rewrite length_map, length_chunks.
  - eapply rows_map; [apply chunks_rows, Hl | exact Hg].
Qed.

(** ** Regrouping along an outer axis

    The einops folds [(b f) c d <-> b f c d] leave the buffer alone; what
    changes is how the buffer is cut into rows.  These lemmas move a
    per-row kernel across such a regrouping. *)

Section Regroup.
Context {A B : Type}.
Implicit Types (l : list A).

Lemma chunks_add k1 k2 n l :
  chunks (k1 + k2) n l = chunks k1 n l ++ chunks k2 n (drop (k1 * n) l).
Proof.
  revert l. induction k1 as [|k1 IH]; intros l; simpl; [by rewrite drop_0|].
  by rewrite IH, drop_drop.
Qed.

Lemma chunks_take k n m l : k * n <= m -> chunks k n (take m l) = chunks k n l.
Proof.
  revert m l. induction k as [|k IH]; intros m l Hm; simpl; [done|].
  rewrite take_take, Nat.min_l by lia. f_equal.
  replace m with (n + (m - n)) by lia. rewrite <- take_drop_commute. apply IH. lia.
Qed.

(** Cutting [a * b] rows into [a] groups of [b]. *)
Lemma chunks_chunks a b n l :
  chunks a b (chunks (a * b) n l) = map (chunks b n) (chunks a (b * n) l).
Proof.
  revert l. induction a as [|a IH]; intros l; simpl; [done|].
  rewrite chunks_add, take_app_length' by (by rewrite length_chunks).
  rewrite drop_app_length' by (by rewrite length_chunks).
  rewrite chunks_take by lia. f_equal. by rewrite <- IH.
Qed.

(** A kernel applied element by element, grouped by [b] elements. *)
Lemma chunks_concat_map (g : A -> list B) a b o l :
  Forall (fun x => length (g x) = o) l -> length l = a * b ->
  chunks a (b * o) (concat (map g l)) = map (fun blk => concat (map g blk)) (chunks a b l).
Proof.
  revert l. induction a as [|a IH]; intros l Hg Hl; simpl; [done|].
  rewrite <- (take_drop b l) at 1 2. rewrite map_app, concat_app.
  assert (Ht : length (concat (map g (take b l))) = b * o).
  { rewrite (length_concat_rows o); [by rewrite length_map, length_take, Nat.min_l by lia|].
    apply Forall_fmap. by apply Forall_take. }
  rewrite take_app_length', drop_app_length' by done. f_equal.
  apply IH; [by apply Forall_drop | rewrite length_drop; lia].
Qed.

End Regroup.

(** A kernel applied row by row to [a * b] rows of [n], grouped by [b]
    rows. *)
Lemma chunks_concat_map_chunks {A B} (g : list A -> list B) a b n o l :
  (forall r, length r = n -> length (g r) = o) -> length l = a * (b * n) ->
  chunks a (b * o) (concat (map g (chunks (a * b) n l)))
  = map (fun blk => concat (map g (chunks b n blk))) (chunks a (b * n) l).
Proof.
  intros Hg Hl. rewrite chunks_concat_map, chunks_chunks, map_map; [done| |by rewrite length_chunks].
  eapply Forall_impl; [apply chunks_rows; lia | exact Hg].
Qed.

(** [torch.cat] along an inner axis, seen on the buffers: concatenating
    the groups pairwise is concatenating the paired rows. *)
Lemma concat_zip_with_app_map {A C D} (F : C -> list (list A)) (G : D -> list (list A)) X Y :
  concat (zip_with app (map (fun x => concat (F x)) X) (map (fun y => concat (G y)) Y))
  = concat (concat (zip_with app (map F X) (map G Y))).
Proof.
  revert Y. induction X as [|r X IH]; intros [|t Y]; simpl; [done..|].
  by rewrite IH, !concat_app.
Qed.

Lemma Forall_zip_with_app {A} (P : A -> Prop) (X Y : list (list A)) :
  Forall P (concat X) -> Forall P (concat Y) -> Forall P (concat (zip_with app X Y)).
Proof.
  revert Y. induction X as [|r X IH]; intros [|t Y] H1 H2; simpl in *; [constructor..|].
  apply Forall_app in H1 as [? ?], H2 as [? ?].
  apply Forall_app; split; [by apply Forall_app | by apply IH].
Qed.

#[export] Hint Resolve chunks_rows transpose_mat_rows : hm.
#[export] Hint Rewrite @length_chunks @length_transpose_mat : hm_rw.
