(* ===== verification/PyDict.v ===== *)
(** * Python dicts and the f-string keys of the forward outputs

    Every forward of hm_control.py returns [ret_dict], a Python [dict] built by
    assignments [ret_dict[key] = value] in a loop.  A Python dict remembers
    insertion order and an assignment to a present key replaces the value in
    place; [pydict] is the association list with that behaviour ([dict_set]),
    [dict_getitem] is [d[key]] (raising [KeyError] on a missing key), and
    [dict_to_map] maps a dict to the stdpp [gmap] it denotes, so that
    dicts with the same lookups ([dict_equiv]) can be rewritten with each
    other.

    The keys are f-strings [f'down_{idx}'] ...: [py_str_nat] is Python's
    [str] on a non-negative [int] (decimal, no leading zeros), and
    [key_of prefix i] is the f-string. *)

From S2P Require Import Prelude.
From stdpp Require Import strings gmap.
From Stdlib Require Import DecimalString DecimalNat.

(** ** Dicts *)

Section PyDict.
Context {V : Type}.

Definition pydict : Type := list (string * V).

(** [d[k] = v]: replace in place, or append a new entry. *)
Fixpoint dict_set (k : string) (v : V) (d : pydict) : pydict :=
  match d with
  | [] => [(k, v)]
  | (k', v') :: d' => if decide (k = k') then (k, v) :: d' else (k', v') :: dict_set k v d'
  end.

Fixpoint dict_get (d : pydict) (k : string) : option V :=
  match d with
  | [] => None
  | (k', v') :: d' => if decide (k = k') then Some v' else dict_get d' k
  end.

(** [d[k]] as an expression: [KeyError] when [k] is absent. *)
Definition dict_getitem (d : pydict) (k : string) : res V :=
  match dict_get d k with Some v => Ok v | None => Err KeyError end.

Definition dict_keys (d : pydict) : list string := map fst d.

Definition dict_to_map (d : pydict) : gmap string V :=
  foldr (fun kv m => <[kv.1 := kv.2]> m) ∅ d.

Lemma dict_get_set k v d k' :
  dict_get (dict_set k v d) k' = if decide (k' = k) then Some v else dict_get d k'.
Proof.
  induction d as [|[k0 v0] d IH]; simpl.
  - by repeat case_decide.
  - repeat (case_decide; simpl; subst; try done); rewrite ?IH; by repeat case_decide.
Qed.

Lemma dict_get_set_eq k v d : dict_get (dict_set k v d) k = Some v.
Proof. rewrite dict_get_set. by case_decide. Qed.

Lemma dict_get_set_ne k v d k' : k' <> k -> dict_get (dict_set k v d) k' = dict_get d k'.
Proof. intros. rewrite dict_get_set. by case_decide. Qed.

Lemma lookup_dict_to_map d k : dict_to_map d !! k = dict_get d k.
Proof.
  induction d as [|[k0 v0] d IH]; simpl; [done|].
  case_decide; subst; [by rewrite lookup_insert_eq | by rewrite lookup_insert_ne].
Qed.

(** Key order: a new key goes last, a present key keeps its place. *)
Lemma dict_keys_set k v d :
  dict_keys (dict_set k v d) = if decide (k ∈ dict_keys d) then dict_keys d else dict_keys d ++ [k].
Proof.
  unfold dict_keys. induction d as [|[k0 v0] d IH]; cbn [dict_set map fst].
  - by rewrite decide_False by apply not_elem_of_nil.
  - destruct (decide (k = k0)) as [->|Hk]; cbn [map fst].
    + by rewrite decide_True by (apply elem_of_cons; by left).
    + rewrite IH. destruct (decide (k ∈ map fst d)) as [Hin|Hin].
      * by rewrite decide_True by (apply elem_of_cons; by right).
      * rewrite decide_False; [done|]. by intros [?|?]%elem_of_cons.
Qed.

Lemma dict_keys_set_fresh k v d :
  k ∉ dict_keys d -> dict_keys (dict_set k v d) = dict_keys d ++ [k].
Proof. intros H. rewrite dict_keys_set. by case_decide. Qed.
(** Assigning a key that is not present appends it. *)
Lemma dict_set_fresh k v d : k ∉ dict_keys d -> dict_set k v d = d ++ [(k, v)].
Proof.
  unfold dict_keys. induction d as [|[k0 v0] d IH]; intros Hk; [done|].
  cbn [dict_set]. rewrite decide_False by (intros ->; apply Hk; left).
  cbn. f_equal. apply IH. intros ?. apply Hk. by right.
Qed.

(** A loop assigning pairwise different fresh keys builds the list of its
    assignments, in order. *)
Lemma foldl_dict_set_fresh (l d : pydict) :
  NoDup (dict_keys (d ++ l)) ->
  foldl (fun acc kv => dict_set kv.1 kv.2 acc) d l = d ++ l.
Proof.
  revert d. induction l as [|[k v] l IH]; intros d Hnd; simpl; [by rewrite app_nil_r|].
  rewrite dict_set_fresh.
  - rewrite IH; [by rewrite <- app_assoc|]. by rewrite <- app_assoc.
  - unfold dict_keys in *. rewrite map_app in Hnd. apply NoDup_app in Hnd as (_ & Hdis & _).
    intros Hk. apply (Hdis k Hk). left.
Qed.
End PyDict.
Arguments pydict : clear implicits.

(** ** Dicts as maps

    Two dicts are equivalent when every key looks up the same value: the
    order of the entries, which Python remembers, is forgotten.  This is
    exactly equality of the [gmap]s they denote ([dict_equiv_map]), it is
    respected by assignment and lookup (the [Proper] instances), and
    assignments to different keys commute up to it. *)

Definition dict_equiv {V} (d1 d2 : pydict V) : Prop := forall k, dict_get d1 k = dict_get d2 k.

Section DictEquiv.
Context {V : Type}.
Implicit Types (d : pydict V).

#[export] Instance dict_equiv_Equivalence : Equivalence (@dict_equiv V).
Proof. split; repeat intro; congruence. Qed.

#[export] Instance dict_set_Proper k v : Proper (dict_equiv ==> dict_equiv) (@dict_set V k v).
Proof. intros d1 d2 Hd k'. rewrite !dict_get_set. by case_decide. Qed.

#[export] Instance dict_get_Proper : Proper (dict_equiv ==> eq ==> eq) (@dict_get V).
Proof. intros d1 d2 Hd k ? <-. apply Hd. Qed.

#[export] Instance dict_to_map_Proper : Proper (dict_equiv ==> eq) (@dict_to_map V).
Proof. intros d1 d2 Hd. apply map_eq. intros k. by rewrite !lookup_dict_to_map. Qed.

(** The order-insensitive view of a dict is the finite map it denotes. *)
Theorem dict_equiv_map d1 d2 : dict_equiv d1 d2 <-> dict_to_map d1 = dict_to_map d2.
Proof.
  split; [apply dict_to_map_Proper|].
  intros H k. by rewrite <- !lookup_dict_to_map, H.
Qed.

(** Assignments to different keys commute, up to the order of entries. *)
Lemma dict_set_comm k1 k2 v1 v2 d :
  k1 <> k2 -> dict_equiv (dict_set k1 v1 (dict_set k2 v2 d)) (dict_set k2 v2 (dict_set k1 v1 d)).
Proof. intros Hk k. rewrite !dict_get_set. by repeat case_decide; subst. Qed.

(** A second assignment to a key overrides the first. *)
Lemma dict_set_set k v v' d : dict_equiv (dict_set k v (dict_set k v' d)) (dict_set k v d).
Proof. intros k'. rewrite !dict_get_set. by case_decide. Qed.
End DictEquiv.

(** ** Python's [str] on natural numbers and the f-string keys *)

Definition py_str_nat (n : nat) : string := NilEmpty.string_of_uint (Nat.to_uint n).

(** [int(s)] on a string of decimal digits. *)
Definition py_int_of_digits (s : string) : option nat :=
  option_map Nat.of_uint (NilEmpty.uint_of_string s).

Lemma py_int_of_digits_str n : py_int_of_digits (py_str_nat n) = Some n.
Proof. unfold py_int_of_digits, py_str_nat. rewrite NilEmpty.usu. simpl. by rewrite DecimalNat.Unsigned.of_to. Qed.

Lemma py_str_nat_inj n m : py_str_nat n = py_str_nat m -> n = m.
Proof.
  intros H. apply (f_equal py_int_of_digits) in H. rewrite !py_int_of_digits_str in H. congruence.
Qed.

(** [f'{prefix}{i}']. *)
Definition key_of (prefix : string) (i : nat) : string := String.append prefix (py_str_nat i).

Lemma string_app_cancel_l (p s1 s2 : string) : String.append p s1 = String.append p s2 -> s1 = s2.
Proof. induction p; simpl; [done|]. intros H. injection H. auto. Qed.

Lemma key_of_inj p i j : key_of p i = key_of p j -> i = j.
Proof. unfold key_of. intros H. by apply py_str_nat_inj, (string_app_cancel_l p). Qed.

#[export] Hint Resolve key_of_inj : hm.

(** ** Python object identity

    A dict value is a reference to a Python object.  [ref_id] numbers the
    objects a computation creates, in creation order, so that two dict entries
    hold the same object exactly when their ids are equal (the [is]
    relation); [py_store_new] stores a freshly created object,
    [py_store_alias] stores the object already held under another key. *)

Record pyref (T : Type) := mkref { ref_id : nat; ref_val : T }.
Arguments mkref {T} ref_id ref_val.
Arguments ref_id {T} p.
Arguments ref_val {T} p.

Section Store.
Context {T : Type}.

(** A dict being filled and the id of the next object created. *)
Definition store : Type := pydict (pyref T) * nat.

(** [d[k] = <new object v>]. *)
Definition py_store_new (k : string) (v : T) (st : store) : store :=
  (dict_set k (mkref st.2 v) st.1, S st.2).

(** [d[k] = d[src]]: the same object under a second key. *)
Definition py_store_alias (k src : string) (st : store) : res store :=
  match dict_getitem st.1 src with
  | Ok r => Ok (dict_set k r st.1, st.2)
  | Err e => Err e
  end.

Lemma py_store_new_keys k v st :
  k ∉ dict_keys st.1 -> dict_keys (py_store_new k v st).1 = dict_keys st.1 ++ [k].
Proof. intros. by apply dict_keys_set_fresh. Qed.

Lemma py_store_alias_keys k src st st' :
  py_store_alias k src st = Ok st' -> k ∉ dict_keys st.1 ->
  dict_keys st'.1 = dict_keys st.1 ++ [k].
Proof.
  unfold py_store_alias. destruct (dict_getitem st.1 src); intros [= <-] ?.
  by apply dict_keys_set_fresh.
Qed.
(** The values a dict of references holds, forgetting the identities. *)
Definition store_vals (d : pydict (pyref T)) : pydict T := map (fun kv => (kv.1, ref_val kv.2)) d.

Lemma store_vals_set k r d : store_vals (dict_set k r d) = dict_set k (ref_val r) (store_vals d).
Proof.
  unfold store_vals. induction d as [|[k0 r0] d IH]; simpl; [done|].
  case_decide; simpl; [done|]. by rewrite IH.
Qed.

Lemma dict_get_store_vals d k : dict_get (store_vals d) k = option_map ref_val (dict_get d k).
Proof. unfold store_vals. induction d as [|[k0 r0] d IH]; simpl; [done|]. by case_decide. Qed.
End Store.
Arguments store : clear implicits.
