(* ===== verification/Tensor.v ===== *)
(** * Tensors and the einops rearrangements of hm_control.py

    A torch tensor is modelled as its [shape] and its contiguous row-major
    [data].  The six einops patterns that the forwards of
    [src/hellomeme/models/hm_control.py] apply are modelled as they act on
    shape and data, with the errors einops raises (wrong rank, an axis that
    does not split by the given lengths, a zero known length).  The two
    patterns that move data ([b c f h w <-> (b f) c h w]) are a transposition
    of the channel and frame axes inside each batch entry ([swap_axes12]);
    the others only regroup axes and keep the data.  [cat_dim2] is
    [torch.cat(..., dim=2)] on 4-D tensors. *)

From S2P Require Import Prelude Layout.
Local Open Scope res_scope.

Record tensor (A : Type) := mkT { shape : list nat; data : list A }.
Arguments mkT {A} shape data.
Arguments shape {A} t.
Arguments data {A} t.

Section Tensor.
Context {A : Type}.
Implicit Types (t : tensor A) (l : list A).

(** The buffer holds exactly as many elements as the shape says. *)
Definition wf t : Prop := length (data t) = numel (shape t).

Definition tensor_map (g : A -> A) t : tensor A := mkT (shape t) (map g (data t)).

(** The block of [x] contiguous elements at (batch, channel, frame) moves
    from position ((b c) f) to ((b f) c): a transposition of the [c x f]
    matrix of blocks inside each batch entry. *)
Definition swap_block (c f x : nat) (blk : list A) : list A :=
  concat (concat (transpose_mat [] f (chunks c f (chunks (c * f) x blk)))).

Definition swap_axes12 (b c f x : nat) l : list A :=
  concat (map (swap_block c f x) (chunks b (c * f * x) l)).

(** The reference meaning of the swap, as einops defines it: output
    element [i], read as the row-major index of [(bi, fi, ci, p)] in a
    [b x f x c x x] array, is the input element at the row-major index of
    [(bi, ci, fi, p)] in the [b x c x f x x] source. *)
Definition swap_src_index (c f x i : nat) : nat :=
  let p := i mod x in let q := i / x in
  let ci := q mod c in let q2 := q / c in
  let fi := q2 mod f in let bi := q2 / f in
  ((bi * c + ci) * f + fi) * x + p.

Definition swap_axes12_ref (d : A) (b c f x : nat) (l : list A) : list A :=
  map (fun i => nth (swap_src_index c f x i) l d) (seq 0 (b * (c * f * x))).

(** [rearrange(t, "b c f h w -> (b f) c h w")] (lines 60, 126, 185, 257, 344). *)
Definition rearrange_bcfhw_to_bfchw t : res (tensor A) :=
  match shape t with
  | [b; c; f; h; w] => Ok (mkT [b * f; c; h; w] (swap_axes12 b c f (h * w) (data t)))
  | _ => Err EinopsError
  end.

(** [rearrange(t, "(b f) c h w -> b c f h w", f=fr)] (lines 85-87 and the
    other output stores).  einops infers [b] as [n // fr]; [n % fr] raises
    [ZeroDivisionError] when [fr = 0]. *)
Definition rearrange_bfchw_to_bcfhw (fr : nat) t : res (tensor A) :=
  match shape t with
  | [n; c; h; w] =>
      check! negb (fr =? 0) else ZeroDivisionError ;;
      check! (n mod fr =? 0) else EinopsError ;;
      Ok (mkT [n / fr; c; fr; h; w] (swap_axes12 (n / fr) fr c (h * w) (data t)))
  | _ => Err EinopsError
  end.

(** [rearrange(t, "b f c -> (b f c)")] (lines 67, 133, ...). *)
Definition rearrange_bfc_to_flat t : res (tensor A) :=
  match shape t with
  | [b; f; c] => Ok (mkT [b * f * c] (data t))
  | _ => Err EinopsError
  end.

(** [rearrange(t, "(b f c) d -> b f c d", b=bs, f=fr, d=dd)] (lines 69-70, ...):
    the first axis is split by the known product [bs * fr], then the last
    axis is checked against [dd]. *)
Definition rearrange_flat_to_bfcd (bs fr dd : nat) t : res (tensor A) :=
  match shape t with
  | [n; d] =>
      check! negb (bs * fr =? 0) else ZeroDivisionError ;;
      check! (n mod (bs * fr) =? 0) else EinopsError ;;
      check! (d =? dd) else EinopsError ;;
      Ok (mkT [bs; fr; n / (bs * fr); d] (data t))
  | _ => Err EinopsError
  end.

(** [rearrange(t, "b f c d -> (b f) c d")] (lines 72, 78, ...). *)
Definition rearrange_bfcd_to_bfcd_flat t : res (tensor A) :=
  match shape t with
  | [b; f; c; d] => Ok (mkT [b * f; c; d] (data t))
  | _ => Err EinopsError
  end.

(** [rearrange(t, "(b f) c d -> b f c d", f=fr)] (line 75, ...). *)
Definition rearrange_bfcd_flat_to_bfcd (fr : nat) t : res (tensor A) :=
  match shape t with
  | [n; c; d] =>
      check! negb (fr =? 0) else ZeroDivisionError ;;
      check! (n mod fr =? 0) else EinopsError ;;
      Ok (mkT [n / fr; fr; c; d] (data t))
  | _ => Err EinopsError
  end.

(** [torch.cat([a, b], dim=2)] on 4-D tensors (lines 77, 202, 282): every
    other dimension must agree, else torch raises [RuntimeError]; each
    (batch, frame) slice of the result is the slice of [a] followed by the
    slice of [b]. *)
Definition cat_dim2 (a b : tensor A) : res (tensor A) :=
  match shape a, shape b with
  | [b1; f1; c1; d1], [b2; f2; c2; d2] =>
      check! ((b1 =? b2) && (f1 =? f2) && (d1 =? d2)) else RuntimeError ;;
      Ok (mkT [b1; f1; c1 + c2; d1]
              (concat (zip_with app (chunks (b1 * f1) (c1 * d1) (data a))
                                    (chunks (b1 * f1) (c2 * d1) (data b)))))
  | _, _ => Err RuntimeError
  end.
End Tensor.

Section SwapLemmas.
Context {A : Type}.
Implicit Types (l blk : list A).

(** The [c x f] matrix of [x]-blocks seen in a batch entry. *)
Lemma block_matrix_shape c f x blk :
  length blk = c * f * x ->
  let M := chunks c f (chunks (c * f) x blk) in
  length M = c /\ rows f M /\ Forall (rows x) M.
Proof.
  intros Hl M. split; [apply length_chunks|]. split.
  - apply chunks_rows. rewrite length_chunks. lia.
  - apply Forall_chunks, chunks_rows. lia.
Qed.

Lemma swap_block_spec c f x blk :
  length blk = c * f * x ->
  let T := transpose_mat [] f (chunks c f (chunks (c * f) x blk)) in
  swap_block c f x blk = concat (concat T) /\ length T = f /\ rows c T
  /\ Forall (rows x) T.
Proof.
  intros Hl T. destruct (block_matrix_shape c f x blk Hl) as (Hc & Hf & Hx).
  split; [done|]. split; [apply length_transpose_mat|]. split.
  - rewrite <- Hc. apply transpose_mat_rows.
  - by apply Forall_transpose_mat.
Qed.

Lemma length_swap_block c f x blk :
  length blk = c * f * x -> length (swap_block c f x blk) = c * f * x.
Proof.
  intros Hl. destruct (swap_block_spec c f x blk Hl) as (-> & HT & Hr & Hx).
  rewrite (length_concat_rows x).
  - rewrite (length_concat_rows c _ Hr). lia.
  - by apply Forall_concat_2.
Qed.

(** Swapping the two axes back restores the block. *)
Lemma swap_block_involutive c f x blk :
  length blk = c * f * x -> swap_block f c x (swap_block c f x blk) = blk.
Proof.
  intros Hl. destruct (swap_block_spec c f x blk Hl) as (-> & HT & Hr & Hx).
  destruct (block_matrix_shape c f x blk Hl) as (Hc & Hf & Hxm).
  unfold swap_block.
  rewrite chunks_concat with (k := f * c).
  2: by apply Forall_concat_2.
  2: by rewrite (length_concat_rows c _ Hr), HT.
  rewrite chunks_concat with (k := f) by done.
  rewrite <- Hc at 1. rewrite transpose_mat_involutive by done.
  rewrite concat_chunks by (rewrite length_chunks; lia).
  apply concat_chunks. lia.
Qed.

Lemma rows_map_swap_block b c f x l :
  length l = b * (c * f * x) ->
  rows (c * f * x) (map (swap_block c f x) (chunks b (c * f * x) l)).
Proof.
  intros Hl. apply Forall_fmap. eapply Forall_impl.
  - apply chunks_rows. lia.
  - intros blk Hblk. simpl. by apply length_swap_block.
Qed.

Lemma chunks_swap_axes12 b c f x l :
  length l = b * (c * f * x) ->
  chunks b (f * c * x) (swap_axes12 b c f x l)
  = map (swap_block c f x) (chunks b (c * f * x) l).
Proof.
  intros Hl. apply chunks_concat.
  - replace (f * c * x) with (c * f * x) by lia. by apply rows_map_swap_block.
  - by rewrite length_map, length_chunks.
Qed.

Lemma length_swap_axes12 b c f x l :
  length l = b * (c * f * x) -> length (swap_axes12 b c f x l) = b * (c * f * x).
Proof.
  intros Hl. unfold swap_axes12.
  rewrite (length_concat_rows _ _ (rows_map_swap_block b c f x l Hl)).
  by rewrite length_map, length_chunks.
Qed.

Lemma swap_axes12_involutive b c f x l :
  length l = b * (c * f * x) -> swap_axes12 b f c x (swap_axes12 b c f x l) = l.
Proof.
  intros Hl. unfold swap_axes12 at 1. rewrite chunks_swap_axes12 by done.
  rewrite map_map, (map_ext_in _ id).
  - rewrite map_id. apply concat_chunks. lia.
  - intros blk Hblk. apply swap_block_involutive.
    assert (Hr : rows (c * f * x) (chunks b (c * f * x) l)) by (apply chunks_rows; lia).
    unfold rows in Hr. rewrite Forall_forall in Hr. apply Hr, list_elem_of_In, Hblk.
Qed.

(** element-level meaning of the swap: the element at
    (batch [bi], frame [fi], channel [ci], offset [p]) of the result is the
    element at (batch [bi], channel [ci], frame [fi], offset [p]) of the
    source, both in row-major order. *)
Lemma nth_swap_axes12 b c f x l bi ci fi p d :
  length l = b * (c * f * x) -> bi < b -> ci < c -> fi < f -> p < x ->
  nth (((bi * f + fi) * c + ci) * x + p) (swap_axes12 b c f x l) d
  = nth (((bi * c + ci) * f + fi) * x + p) l d.
Proof.
  intros Hl Hb Hc Hf Hp. unfold swap_axes12.
  replace (((bi * f + fi) * c + ci) * x + p)
    with (bi * (c * f * x) + ((fi * c + ci) * x + p)) by ring.
  assert (Hfc : fi * c + ci < f * c) by (apply row_major_lt; lia).
  assert (Hfcx : (fi * c + ci) * x + p < f * c * x) by (apply row_major_lt; lia).
  assert (Hcf : ci * f + fi < c * f) by (apply row_major_lt; lia).
  rewrite (nth_concat_rows _ _ _ _ _ (rows_map_swap_block b c f x l Hl))
    by (rewrite ?length_map, ?length_chunks; lia).
  rewrite (nth_indep _ _ (swap_block c f x [])) by (rewrite length_map, length_chunks; lia).
  rewrite map_nth.
  set (blk := nth bi (chunks b (c * f * x) l) []).
  assert (Hblk : length blk = c * f * x).
  { apply rows_nth; [apply chunks_rows; lia | rewrite length_chunks; lia]. }
  destruct (swap_block_spec c f x blk Hblk) as (-> & HT & Hr & Hx).
  destruct (block_matrix_shape c f x blk Hblk) as (HMc & HMf & HMx).
  rewrite (nth_concat_rows x) by (try apply Forall_concat_2; auto;
    rewrite (length_concat_rows c _ Hr); lia).
  rewrite (nth_concat_rows c) by (auto; lia).
  rewrite nth_transpose_mat by lia.
  rewrite nth_chunks by lia.
  rewrite nth_chunks by (try apply row_major_lt; lia).
  unfold blk. rewrite nth_chunks by (try apply row_major_lt; lia). f_equal. ring.
Qed.
(** A flat index of a [b x f x c x x] array and its four coordinates. *)
Lemma swap_index_decomp b c f x i :
  i < b * (c * f * x) ->
  i = ((i / x / c / f * f + i / x / c mod f) * c + i / x mod c) * x + i mod x
  /\ i / x / c / f < b /\ i / x / c mod f < f /\ i / x mod c < c /\ i mod x < x.
Proof.
  intros Hi.
  assert (0 < x /\ 0 < c /\ 0 < f) as (Hx & Hc & Hf) by (repeat split; nia).
  destruct (div_mod_split i x Hx) as [Hi1 Hp].
  destruct (div_mod_split (i / x) c Hc) as [Hq1 Hci].
  destruct (div_mod_split (i / x / c) f Hf) as [Hq2 Hfi].
  assert (Hbi : i / x / c / f < b).
  { rewrite !Nat.Div0.div_div. apply Nat.Div0.div_lt_upper_bound; nia. }
  repeat split; try done. nia.
Qed.

(** The swap reads element [i] of its output at [swap_src_index c f x i]. *)
Lemma nth_swap_axes12_src d b c f x l i :
  length l = b * (c * f * x) -> i < b * (c * f * x) ->
  nth i (swap_axes12 b c f x l) d = nth (swap_src_index c f x i) l d.
Proof.
  intros Hl Hi. destruct (swap_index_decomp b c f x i Hi) as (Hi' & Hb & Hf & Hc & Hp).
  unfold swap_src_index. rewrite Hi' at 1. by apply nth_swap_axes12.
Qed.

(** C4: the chunk-and-transpose implementation of the frame/channel swap
    equals its index-map reference on every well-sized buffer. *)
Theorem swap_axes12_ref_equiv d b c f x l :
  length l = b * (c * f * x) -> swap_axes12 b c f x l = swap_axes12_ref d b c f x l.
Proof.
  intros Hl. apply nth_ext with (d := d) (d' := d).
  { unfold swap_axes12_ref. by rewrite length_swap_axes12, length_map, length_seq. }
  intros i Hi. rewrite length_swap_axes12 in Hi by done.
  unfold swap_axes12_ref. rewrite nth_map_seq by done. by apply nth_swap_axes12_src.
Qed.

End SwapLemmas.

(** ** Shape semantics of the tensor operations

    The same operations on shapes alone: each one succeeds or raises exactly
    when its data version does (the [_refines] lemmas below). *)

Definition rearrange_bcfhw_to_bfchw_shape (s : list nat) : res (list nat) :=
  match s with
  | [b; c; f; h; w] => Ok [b * f; c; h; w]
  | _ => Err EinopsError
  end.

Definition rearrange_bfchw_to_bcfhw_shape (fr : nat) (s : list nat) : res (list nat) :=
  match s with
  | [n; c; h; w] =>
      check! negb (fr =? 0) else ZeroDivisionError ;;
      check! (n mod fr =? 0) else EinopsError ;;
      Ok [n / fr; c; fr; h; w]
  | _ => Err EinopsError
  end.

Definition rearrange_bfc_to_flat_shape (s : list nat) : res (list nat) :=
  match s with
  | [b; f; c] => Ok [b * f * c]
  | _ => Err EinopsError
  end.

Definition rearrange_flat_to_bfcd_shape (bs fr dd : nat) (s : list nat) : res (list nat) :=
  match s with
  | [n; d] =>
      check! negb (bs * fr =? 0) else ZeroDivisionError ;;
      check! (n mod (bs * fr) =? 0) else EinopsError ;;
      check! (d =? dd) else EinopsError ;;
      Ok [bs; fr; n / (bs * fr); d]
  | _ => Err EinopsError
  end.

Definition rearrange_bfcd_to_bfcd_flat_shape (s : list nat) : res (list nat) :=
  match s with
  | [b; f; c; d] => Ok [b * f; c; d]
  | _ => Err EinopsError
  end.

Definition rearrange_bfcd_flat_to_bfcd_shape (fr : nat) (s : list nat) : res (list nat) :=
  match s with
  | [n; c; d] =>
      check! negb (fr =? 0) else ZeroDivisionError ;;
      check! (n mod fr =? 0) else EinopsError ;;
      Ok [n / fr; fr; c; d]
  | _ => Err EinopsError
  end.

Definition cat_dim2_shape (s1 s2 : list nat) : res (list nat) :=
  match s1, s2 with
  | [b1; f1; c1; d1], [b2; f2; c2; d2] =>
      check! ((b1 =? b2) && (f1 =? f2) && (d1 =? d2)) else RuntimeError ;;
      Ok [b1; f1; c1 + c2; d1]
  | _, _ => Err RuntimeError
  end.

Section Refinement.
Context {A : Type}.
Implicit Types (t : tensor A).

(** [has_shape t s]: [t] is a well-formed tensor of shape [s]; the
    simulation relation between the data and the shape semantics. *)
Definition has_shape t (s : list nat) : Prop := wf t /\ shape t = s.

Definition refines1 (op : tensor A -> res (tensor A)) (op_s : list nat -> res (list nat)) :=
  forall t, wf t -> res_rel has_shape (op t) (op_s (shape t)).

Lemma has_shape_mkT s l : length l = numel s -> has_shape (mkT s l) s.
Proof. done. Qed.
End Refinement.

(** [tensor_case] destructs the shape of a tensor argument and the checks of
    an operation (already unfolded), leaving one goal per branch, with the
    well-formedness of the result unfolded to a length equation. *)
Ltac tensor_case :=
  repeat match goal with
  | t : tensor _ |- _ => destruct t as [?s ?l]
  end;
  unfold wf, has_shape, numel in *; simpl in *;
  repeat (case_match; simpl in *; subst; try done);
  repeat match goal with
  | |- context [check ?b _] => destruct b eqn:?; simpl; try done
  end;
  try (split; [unfold wf, numel; simpl | done]).

(** [mod_zero_split n q] replaces [n] by [n / q * q] given [n mod q = 0]. *)
Lemma mod_zero_split n q : (n mod q =? 0) = true -> n = n / q * q.
Proof.
  intros H. apply Nat.eqb_eq in H.
  rewrite (Nat.div_mod_eq n q) at 1. rewrite H. lia.
Qed.

Section OpRefinement.
Context {A : Type}.

Lemma rearrange_bcfhw_to_bfchw_refines :
  refines1 (@rearrange_bcfhw_to_bfchw A) rearrange_bcfhw_to_bfchw_shape.
Proof.
  intros t Ht. unfold rearrange_bcfhw_to_bfchw, rearrange_bcfhw_to_bfchw_shape.
  tensor_case. rewrite length_swap_axes12 by lia. lia.
Qed.

Lemma rearrange_bfchw_to_bcfhw_refines fr :
  refines1 (@rearrange_bfchw_to_bcfhw A fr) (rearrange_bfchw_to_bcfhw_shape fr).
Proof.
  intros t Ht. unfold rearrange_bfchw_to_bcfhw, rearrange_bfchw_to_bcfhw_shape.
  tensor_case. rewrite (mod_zero_split _ _ Heqb0) in Ht.
  rewrite length_swap_axes12 by lia. lia.
Qed.

Lemma rearrange_bfc_to_flat_refines :
  refines1 (@rearrange_bfc_to_flat A) rearrange_bfc_to_flat_shape.
Proof.
  intros t Ht. unfold rearrange_bfc_to_flat, rearrange_bfc_to_flat_shape.
  tensor_case. lia.
Qed.

Lemma rearrange_flat_to_bfcd_refines bs fr dd :
  refines1 (@rearrange_flat_to_bfcd A bs fr dd) (rearrange_flat_to_bfcd_shape bs fr dd).
Proof.
  intros t Ht. unfold rearrange_flat_to_bfcd, rearrange_flat_to_bfcd_shape.
  tensor_case. rewrite (mod_zero_split _ _ Heqb0) in Ht. lia.
Qed.

Lemma rearrange_bfcd_to_bfcd_flat_refines :
  refines1 (@rearrange_bfcd_to_bfcd_flat A) rearrange_bfcd_to_bfcd_flat_shape.
Proof.
  intros t Ht. unfold rearrange_bfcd_to_bfcd_flat, rearrange_bfcd_to_bfcd_flat_shape.
  tensor_case. lia.
Qed.

Lemma rearrange_bfcd_flat_to_bfcd_refines fr :
  refines1 (@rearrange_bfcd_flat_to_bfcd A fr) (rearrange_bfcd_flat_to_bfcd_shape fr).
Proof.
  intros t Ht. unfold rearrange_bfcd_flat_to_bfcd, rearrange_bfcd_flat_to_bfcd_shape.
  tensor_case. rewrite (mod_zero_split _ _ Heqb0) in Ht. lia.
Qed.

Lemma cat_dim2_refines (a b : tensor A) :
  wf a -> wf b -> res_rel has_shape (cat_dim2 a b) (cat_dim2_shape (shape a) (shape b)).
Proof.
  intros Ha Hb. unfold cat_dim2, cat_dim2_shape. tensor_case.
  repeat match goal with H : (_ && _) = true |- _ => apply andb_prop in H as [] end.
  repeat match goal with H : (_ =? _) = true |- _ => apply Nat.eqb_eq in H end. subst.
  match goal with
  | |- length (concat (zip_with app (chunks ?k ?n1 ?l1) (chunks ?k ?n2 ?l2))) = _ =>
      destruct (rows_zip_with app n1 n2 (n1 + n2) (chunks k n1 l1) (chunks k n2 l2))
        as [Hr Hl]; [apply chunks_rows; lia | apply chunks_rows; lia
                     | by rewrite !length_chunks | intros; rewrite length_app; lia |];
      rewrite (length_concat_rows _ _ Hr), Hl, length_chunks; lia
  end.
Qed.
End OpRefinement.

(** ** Round trips of the frame axis *)

Section RoundTrip.
Context {A : Type}.

(** C3: folding the frames into the batch ([b c f h w -> (b f) c h w], as at
    the start of every forward) and unfolding them again with the same
    frame count ([(b f) c h w -> b c f h w, f=video_length], as at every
    output store) gives back the tensor, data included. *)
Theorem frames_roundtrip (t : tensor A) b c f h w :
  wf t -> shape t = [b; c; f; h; w] -> 0 < f ->
  res_bind (rearrange_bcfhw_to_bfchw t) (rearrange_bfchw_to_bcfhw f) = Ok t.
Proof.
  destruct t as [s l]. unfold wf, numel. simpl. intros Hl -> Hf. simpl in Hl.
  unfold rearrange_bcfhw_to_bfchw, rearrange_bfchw_to_bcfhw. simpl.
  rewrite (proj2 (Nat.eqb_neq f 0)) by lia. simpl.
  rewrite Nat.Div0.mod_mul, Nat.div_mul by lia. simpl.
  rewrite swap_axes12_involutive by lia. done.
Qed.

(** C25: The other direction: a [(b f) c h w] feature map whose batch axis
    splits by [f] is unchanged by unfolding then folding the frames. *)
Theorem frames_roundtrip_rev (t : tensor A) n c h w f :
  wf t -> shape t = [n; c; h; w] -> 0 < f -> n mod f = 0 ->
  res_bind (rearrange_bfchw_to_bcfhw f t) rearrange_bcfhw_to_bfchw = Ok t.
Proof.
  destruct t as [s l]. unfold wf, numel. simpl. intros Hl -> Hf Hmod. simpl in Hl.
  unfold rearrange_bcfhw_to_bfchw, rearrange_bfchw_to_bcfhw. simpl.
  rewrite (proj2 (Nat.eqb_neq f 0)) by lia. simpl.
  rewrite (proj2 (Nat.eqb_eq _ 0) Hmod). simpl.
  assert (Hn : n = n / f * f) by (apply mod_zero_split, Nat.eqb_eq, Hmod).
  rewrite <- Hn. rewrite swap_axes12_involutive by (rewrite Hn in Hl; lia). done.
Qed.
End RoundTrip.

Lemma frames_roundtrip_witness :
  wf (mkT [1; 2; 3; 1; 1] [11; 12; 13; 21; 22; 23])
  /\ res_bind (rearrange_bcfhw_to_bfchw (mkT [1; 2; 3; 1; 1] [11; 12; 13; 21; 22; 23]))
       (rearrange_bfchw_to_bcfhw 3) = Ok (mkT [1; 2; 3; 1; 1] [11; 12; 13; 21; 22; 23]).
Proof.
  split; [reflexivity|].
  apply (frames_roundtrip _ 1 2 3 1 1); [reflexivity | reflexivity | lia].
Defined.

Lemma frames_roundtrip_rev_witness :
  res_bind (rearrange_bfchw_to_bcfhw 3 (mkT [3; 2; 1; 1] [11; 21; 12; 22; 13; 23]))
    rearrange_bcfhw_to_bfchw = Ok (mkT [3; 2; 1; 1] [11; 21; 12; 22; 13; 23]).
Proof.
  apply (frames_roundtrip_rev _ 3 2 1 1 3); [reflexivity | reflexivity | lia | reflexivity].
Defined.

Lemma swap_axes12_ref_equiv_witness :
  length [11; 12; 13; 21; 22; 23] = 1 * (2 * 3 * 1)
  /\ swap_axes12 1 2 3 1 [11; 12; 13; 21; 22; 23]
     = swap_axes12_ref 0 1 2 3 1 [11; 12; 13; 21; 22; 23].
Proof. split; [reflexivity | apply swap_axes12_ref_equiv; reflexivity]. Defined.

