(* ===== verification/Torch.v ===== *)
(** * The library primitives the networks call, and their shape semantics

    hm_control.py composes primitives it does not define: [F.interpolate]
    (bilinear, [align_corners=False]), [nn.Conv2d], diffusers' [Timesteps] and
    [TimestepEmbedding], and [SKCrossAttention] from [hm_blocks] (a file of
    this repository that is not among the sources; modelled from the spec).
    The class [Kernels] is the interface they promise: a scalar type with the
    float operations the sinusoidal embedding uses, a parameter type per
    learned module, and one per-sample kernel per module with its length law.
    [Timesteps] has no parameters and is modelled in full from diffusers'
    [get_timestep_embedding].  Around the kernels, the tensor-level
    operations check shapes as torch does and raise the same exceptions; each
    has a shape version, and [_refines] lemmas state that the data version
    succeeds or fails exactly as its shape version says. *)

From S2P Require Import Prelude Layout Tensor.
Local Open Scope res_scope.

(** ** Module configurations (the constructor arguments) *)

Record Conv2dCfg := {
  conv_in_channels : nat; conv_out_channels : nat;
  conv_kernel_size : nat; conv_padding : nat }.

Record TimestepsCfg := {
  ts_num_channels : nat; ts_flip_sin_to_cos : bool; ts_downscale_freq_shift : nat }.

Record TimestepEmbeddingCfg := { te_in_channels : nat; te_time_embed_dim : nat }.

Record SKCrossAttentionCfg := {
  sk_channel_in : nat; sk_channel_out : nat; sk_cross_attention_dim : nat;
  sk_num_positional_embeddings : nat; sk_num_positional_embeddings_hidden : nat }.

(** Output side of a convolution with stride 1: [h + 2 p - k + 1]. *)
Definition conv_out_dim (h k p : nat) : nat := h + 2 * p + 1 - k.

(** ** The interface of the primitives *)

Class Kernels := {
  scalar : Type;
  fzero : scalar;
  fadd : scalar -> scalar -> scalar;
  fsub : scalar -> scalar -> scalar;
  fmul : scalar -> scalar -> scalar;
  fdiv : scalar -> scalar -> scalar;
  fneg : scalar -> scalar;
  fexp : scalar -> scalar;
  fln : scalar -> scalar;
  fsin : scalar -> scalar;
  fcos : scalar -> scalar;
  f_of_nat : nat -> scalar;

  conv_params : Type;
  te_params : Type;
  sk_params : Type;

  (** one sample [(cin, h, w)] to [(cout, h', w')] *)
  conv_kernel : conv_params -> Conv2dCfg -> nat -> nat -> list scalar -> list scalar;
  conv_kernel_length p cfg h w x :
    length x = conv_in_channels cfg * (h * w) ->
    length (conv_kernel p cfg h w x) =
      conv_out_channels cfg * (conv_out_dim h (conv_kernel_size cfg) (conv_padding cfg)
                               * conv_out_dim w (conv_kernel_size cfg) (conv_padding cfg));

  (** bilinear resampling of one [h x w] plane to [oh x ow] *)
  interp_kernel : nat -> nat -> nat -> nat -> list scalar -> list scalar;
  interp_kernel_length h w oh ow x :
    length x = h * w -> length (interp_kernel h w oh ow x) = oh * ow;

  (** [linear_2(silu(linear_1(x)))] on one row of [te_in_channels] values *)
  te_kernel : te_params -> TimestepEmbeddingCfg -> list scalar -> list scalar;
  te_kernel_length p cfg x :
    length x = te_in_channels cfg -> length (te_kernel p cfg x) = te_time_embed_dim cfg;

  (** the fusion block: spatial size of its output, its own shape condition
      on (h, w, number of driving tokens), and its per-sample kernel *)
  sk_hw : SKCrossAttentionCfg -> nat -> nat -> nat * nat;
  sk_ok : SKCrossAttentionCfg -> nat -> nat -> nat -> bool;
  sk_kernel : sk_params -> SKCrossAttentionCfg -> nat -> nat -> nat ->
              list scalar -> list scalar -> list scalar;
  sk_kernel_length p cfg h w L x y :
    length x = sk_channel_in cfg * (h * w) ->
    length y = L * sk_cross_attention_dim cfg ->
    length (sk_kernel p cfg h w L x y) =
      sk_channel_out cfg * ((sk_hw cfg h w).1 * (sk_hw cfg h w).2)
}.

(** ** Modules: configuration and learned parameters *)

Section Modules.
Context `{K : Kernels}.

Record Conv2d := { conv_cfg : Conv2dCfg; conv_weight : conv_params }.
Record TimestepEmbedding := { te_cfg : TimestepEmbeddingCfg; te_weight : te_params }.
Record SKCrossAttention := { sk_cfg : SKCrossAttentionCfg; sk_weight : sk_params }.

End Modules.
Abbreviation stensor := (tensor scalar).
Arguments Conv2d : clear implicits.
Arguments TimestepEmbedding : clear implicits.
Arguments SKCrossAttention : clear implicits.

(** ** Tensor-level operations *)

Section Ops.
Context `{K : Kernels}.
Implicit Types (t : stensor).

(** [t * k.] for a float literal [k] (lines 67, 133, 192, 265, 272, 351). *)
Definition tensor_scale (k : nat) t : stensor := tensor_map (fun x => fmul x (f_of_nat k)) t.

(** diffusers [get_timestep_embedding], frequency [j]:
    [exp(-ln(10000) * j / (half_dim - downscale_freq_shift))]. *)
Definition timestep_freq (cfg : TimestepsCfg) (j : nat) : scalar :=
  fexp (fdiv (fmul (fneg (fln (f_of_nat 10000))) (f_of_nat j))
             (fsub (f_of_nat (ts_num_channels cfg / 2)) (f_of_nat (ts_downscale_freq_shift cfg)))).

(** The embedding of one timestep value: sines then cosines, swapped when
    [flip_sin_to_cos], padded with one zero when the width is odd. *)
Definition timestep_row (cfg : TimestepsCfg) (x : scalar) : list scalar :=
  let half := ts_num_channels cfg / 2 in
  let e := map (fun j => fmul x (timestep_freq cfg j)) (seq 0 half) in
  let emb := map fsin e ++ map fcos e in
  let emb := if ts_flip_sin_to_cos cfg then drop half emb ++ take half emb else emb in
  if Nat.odd (ts_num_channels cfg) then emb ++ [fzero] else emb.

(** [Timesteps.forward]: a 1-D tensor of [n] values to [n x num_channels];
    diffusers asserts the input is 1-D. *)
Definition timesteps (cfg : TimestepsCfg) t : res stensor :=
  match shape t with
  | [n] => Ok (mkT [n; ts_num_channels cfg] (concat (map (timestep_row cfg) (data t))))
  | _ => Err AssertionError
  end.

(** [F.interpolate(t, size=(oh, ow), mode='bilinear', align_corners=False)]:
    a 2-tuple size needs a 4-D input ([ValueError] otherwise); torch
    rejects empty planes and a zero output size ([RuntimeError]). *)
Definition interpolate (oh ow : nat) t : res stensor :=
  match shape t with
  | [n; c; h; w] =>
      check! negb (c * h * w =? 0) && negb (oh =? 0) && negb (ow =? 0) else RuntimeError ;;
      Ok (mkT [n; c; oh; ow]
              (concat (map (interp_kernel h w oh ow) (chunks (n * c) (h * w) (data t)))))
  | _ => Err ValueError
  end.

(** [nn.Conv2d.forward] with stride 1 on a batched input.  (Unbatched 3-D
    input, which torch accepts, never reaches a convolution here: it is
    always applied to the 4-D output of [interpolate] or of a block.) *)
Definition conv2d (m : Conv2d K) t : res stensor :=
  let cfg := conv_cfg m in
  match shape t with
  | [n; c; h; w] =>
      check! (c =? conv_in_channels cfg) else RuntimeError ;;
      check! (conv_kernel_size cfg <=? h + 2 * conv_padding cfg)
             && (conv_kernel_size cfg <=? w + 2 * conv_padding cfg) else RuntimeError ;;
      Ok (mkT [n; conv_out_channels cfg;
               conv_out_dim h (conv_kernel_size cfg) (conv_padding cfg);
               conv_out_dim w (conv_kernel_size cfg) (conv_padding cfg)]
              (concat (map (conv_kernel (conv_weight m) cfg h w) (chunks n (c * (h * w)) (data t)))))
  | _ => Err RuntimeError
  end.

(** [TimestepEmbedding.forward]: linear layers on the last axis, which must
    have [in_channels] entries. *)
Definition timestep_embedding (m : TimestepEmbedding K) t : res stensor :=
  let cfg := te_cfg m in
  match last (shape t) with
  | Some d =>
      check! (d =? te_in_channels cfg) else RuntimeError ;;
      Ok (mkT (removelast (shape t) ++ [te_time_embed_dim cfg])
              (concat (map (te_kernel (te_weight m) cfg)
                           (chunks (numel (removelast (shape t))) d (data t)))))
  | None => Err RuntimeError
  end.

(** [SKCrossAttention.forward(x, drive)] (spec 4.6): a [(n, cin, h, w)]
    feature map and an [(n, L, cross_attention_dim)] driving sequence give a
    [(n, cout, h', w')] feature map. *)
Definition sk_forward (m : SKCrossAttention K) (x y : stensor) : res stensor :=
  let cfg := sk_cfg m in
  match shape x, shape y with
  | [n; c; h; w], [n'; L; d] =>
      check! (c =? sk_channel_in cfg) && (n =? n') && (d =? sk_cross_attention_dim cfg)
             && sk_ok cfg h w L else RuntimeError ;;
      Ok (mkT [n; sk_channel_out cfg; (sk_hw cfg h w).1; (sk_hw cfg h w).2]
              (concat (zip_with (sk_kernel (sk_weight m) cfg h w L)
                                (chunks n (c * (h * w)) (data x)) (chunks n (L * d) (data y)))))
  | _, _ => Err RuntimeError
  end.
End Ops.

(** ** Shape semantics of the primitives *)

Section ShapeOps.
Context `{K : Kernels}.

Definition timesteps_shape (cfg : TimestepsCfg) (s : list nat) : res (list nat) :=
  match s with [n] => Ok [n; ts_num_channels cfg] | _ => Err AssertionError end.

Definition interpolate_shape (oh ow : nat) (s : list nat) : res (list nat) :=
  match s with
  | [n; c; h; w] =>
      check! negb (c * h * w =? 0) && negb (oh =? 0) && negb (ow =? 0) else RuntimeError ;;
      Ok [n; c; oh; ow]
  | _ => Err ValueError
  end.

Definition conv2d_shape (cfg : Conv2dCfg) (s : list nat) : res (list nat) :=
  match s with
  | [n; c; h; w] =>
      check! (c =? conv_in_channels cfg) else RuntimeError ;;
      check! (conv_kernel_size cfg <=? h + 2 * conv_padding cfg)
             && (conv_kernel_size cfg <=? w + 2 * conv_padding cfg) else RuntimeError ;;
      Ok [n; conv_out_channels cfg;
          conv_out_dim h (conv_kernel_size cfg) (conv_padding cfg);
          conv_out_dim w (conv_kernel_size cfg) (conv_padding cfg)]
  | _ => Err RuntimeError
  end.

Definition timestep_embedding_shape (cfg : TimestepEmbeddingCfg) (s : list nat) : res (list nat) :=
  match last s with
  | Some d =>
      check! (d =? te_in_channels cfg) else RuntimeError ;;
      Ok (removelast s ++ [te_time_embed_dim cfg])
  | None => Err RuntimeError
  end.

Definition sk_forward_shape (cfg : SKCrossAttentionCfg) (s1 s2 : list nat) : res (list nat) :=
  match s1, s2 with
  | [n; c; h; w], [n'; L; d] =>
      check! (c =? sk_channel_in cfg) && (n =? n') && (d =? sk_cross_attention_dim cfg)
             && sk_ok cfg h w L else RuntimeError ;;
      Ok [n; sk_channel_out cfg; (sk_hw cfg h w).1; (sk_hw cfg h w).2]
  | _, _ => Err RuntimeError
  end.
End ShapeOps.

Section OpsRefinement.
Context `{K : Kernels}.

Lemma half_odd n : 2 * (n / 2) + (if Nat.odd n then 1 else 0) = n.
Proof.
  destruct (Nat.odd n) eqn:Ho.
  - apply Nat.odd_spec in Ho. destruct Ho as [k ->].
    replace (2 * k + 1) with (1 + k * 2) by lia.
    rewrite Nat.div_add by lia. simpl. lia.
  - assert (He : Nat.even n = true) by (by rewrite <- Nat.negb_odd, Ho).
    apply Nat.even_spec in He. destruct He as [k ->].
    rewrite (Nat.mul_comm 2 k), Nat.div_mul by lia. lia.
Qed.

Lemma length_timestep_row cfg x : length (timestep_row cfg x) = ts_num_channels cfg.
Proof.
  unfold timestep_row. set (half := ts_num_channels cfg / 2).
  assert (Hn := half_odd (ts_num_channels cfg)). fold half in Hn.
  assert (He : length (map fsin (map (fun j => fmul x (timestep_freq cfg j)) (seq 0 half))
                       ++ map fcos (map (fun j => fmul x (timestep_freq cfg j)) (seq 0 half)))
               = 2 * half) by (rewrite length_app, !length_map, length_seq; lia).
  destruct (ts_flip_sin_to_cos cfg), (Nat.odd (ts_num_channels cfg));
    rewrite ?length_app, ?length_drop, ?length_take, ?He, ?length_map, ?length_seq;
    simpl; lia.
Qed.

Lemma timesteps_refines cfg :
  refines1 (timesteps cfg) (timesteps_shape cfg).
Proof.
  intros t Ht. unfold timesteps, timesteps_shape. tensor_case.
  rewrite (length_concat_rows (ts_num_channels cfg)); [rewrite length_map; lia|].
  apply Forall_fmap, Forall_forall. intros x _. apply length_timestep_row.
Qed.

Lemma interpolate_refines oh ow :
  refines1 (interpolate oh ow) (interpolate_shape oh ow).
Proof.
  intros t Ht. unfold interpolate, interpolate_shape. tensor_case.
  rewrite (length_concat_map_chunks _ _ _ _ _ (interp_kernel_length _ _ oh ow)) by lia. lia.
Qed.

Lemma conv2d_refines m :
  refines1 (conv2d m) (conv2d_shape (conv_cfg m)).
Proof.
  intros t Ht. unfold conv2d, conv2d_shape. tensor_case.
  apply Nat.eqb_eq in Heqb. subst.
  match goal with |- context [conv_kernel ?p ?c ?h ?w] =>
    rewrite (length_concat_map_chunks _ _ _ _ _ (conv_kernel_length p c h w)) by lia end.
  lia.
Qed.

Lemma numel_app_last s d : numel (s ++ [d]) = numel s * d.
Proof. unfold numel. rewrite foldr_app. simpl. induction s; simpl; lia. Qed.

Lemma timestep_embedding_refines m :
  refines1 (timestep_embedding m) (timestep_embedding_shape (te_cfg m)).
Proof.
  intros [s l] Ht. unfold wf in Ht; simpl in Ht.
  unfold timestep_embedding, timestep_embedding_shape; simpl.
  destruct (last s) as [d|] eqn:Hd; simpl; [|done].
  destruct (d =? te_in_channels (te_cfg m)) eqn:Hin; simpl; [|done].
  apply Nat.eqb_eq in Hin. subst d. apply last_Some in Hd as [s' ->].
  rewrite removelast_last. split; [|done]. unfold wf; simpl.
  rewrite numel_app_last in Ht |- *.
  rewrite (length_concat_map_chunks _ _ _ _ _ (te_kernel_length _ _)) by lia. lia.
Qed.

Lemma sk_forward_refines m x y :
  wf x -> wf y -> res_rel has_shape (sk_forward m x y) (sk_forward_shape (sk_cfg m) (shape x) (shape y)).
Proof.
  intros Hx Hy. unfold sk_forward, sk_forward_shape. tensor_case.
  repeat match goal with H : (_ && _) = true |- _ => apply andb_prop in H as [] end.
  repeat match goal with H : (_ =? _) = true |- _ => apply Nat.eqb_eq in H end. subst.
  match goal with
  | |- length (concat (zip_with (sk_kernel ?p ?c ?h ?w ?L) (chunks ?k ?n1 ?l1)
                                (chunks ?k ?n2 ?l2))) = _ =>
      destruct (rows_zip_with (sk_kernel p c h w L) n1 n2
                  (sk_channel_out c * ((sk_hw c h w).1 * (sk_hw c h w).2))
                  (chunks k n1 l1) (chunks k n2 l2))
        as [Hr Hl]; [apply chunks_rows; lia | apply chunks_rows; lia
                     | by rewrite !length_chunks | intros; apply sk_kernel_length; lia |];
      rewrite (length_concat_rows _ _ Hr), Hl, length_chunks; lia
  end.
Qed.

Lemma tensor_scale_shape k t : wf t -> has_shape (tensor_scale k t) (shape t).
Proof. unfold tensor_scale, tensor_map, has_shape, wf. simpl. by rewrite length_map. Qed.
End OpsRefinement.

(** ** A reference instance

    [int_kernels] discharges the interface with exact integer arithmetic
    standing for the float operations and zero-filled kernels of the right
    lengths: a model in which every shape law holds, used to evaluate the
    forwards on small concrete inputs in the examples. *)

From Stdlib Require Import ZArith.

Definition int_kernels : Kernels.
Proof.
  refine {|
    scalar := Z; fzero := 0%Z; fadd := Z.add; fsub := Z.sub; fmul := Z.mul; fdiv := Z.div;
    fneg := Z.opp; fexp := fun x => x; fln := fun x => x; fsin := fun x => x;
    fcos := fun _ => 1%Z; f_of_nat := Z.of_nat;
    conv_params := unit; te_params := unit; sk_params := unit;
    conv_kernel := fun _ cfg h w _ =>
      replicate (conv_out_channels cfg * (conv_out_dim h (conv_kernel_size cfg) (conv_padding cfg)
                                          * conv_out_dim w (conv_kernel_size cfg) (conv_padding cfg))) 0%Z;
    interp_kernel := fun _ _ oh ow _ => replicate (oh * ow) 0%Z;
    te_kernel := fun _ cfg _ => replicate (te_time_embed_dim cfg) 0%Z;
    sk_hw := fun _ h w => (h, w);
    sk_ok := fun _ _ _ _ => true;
    sk_kernel := fun _ cfg h w _ _ _ => replicate (sk_channel_out cfg * (h * w)) 0%Z |};
    intros; apply length_replicate.
Defined.
