(* ===== verification/Interp.v ===== *)
(** * One interface, two semantics: data and shapes

    The forwards of hm_control.py are written once, against the class
    [TensorOps T] of the tensor operations they call ([Embedding], [ControlNet]
    and [V3] are sections over it).  Two instances interpret them:
    - [data_ops] on [stensor] (shape and data; the operations of [Tensor] and
      [Torch]);
    - [shape_ops] on [list nat] (shapes only; the [_shape] operations).
    The lemmas [ops_*_rel] relate the two instances by [has_shape]: related
    arguments give computations that raise the same exception or succeed
    with related results.  [rel_solve] uses them to prove that a whole
    forward at the data instance is simulated by the same forward at the
    shape instance. *)

From S2P Require Import Prelude Layout PyDict Tensor Torch.
Local Open Scope res_scope.

Class TensorOps `{K : Kernels} (T : Type) := {
  t_shape : T -> list nat;
  ops_to_frames_batch : T -> res T;                 (* "b c f h w -> (b f) c h w" *)
  ops_from_frames_batch : nat -> T -> res T;        (* "(b f) c h w -> b c f h w" *)
  ops_flatten_bfc : T -> res T;                     (* "b f c -> (b f c)" *)
  ops_unflatten_bfcd : nat -> nat -> nat -> T -> res T; (* "(b f c) d -> b f c d" *)
  ops_fold_bf : T -> res T;                         (* "b f c d -> (b f) c d" *)
  ops_unfold_bf : nat -> T -> res T;                (* "(b f) c d -> b f c d" *)
  ops_cat_dim2 : T -> T -> res T;
  ops_scale : nat -> T -> T;
  ops_timesteps : TimestepsCfg -> T -> res T;
  ops_interpolate : nat -> nat -> T -> res T;
  ops_conv2d : Conv2d K -> T -> res T;
  ops_timestep_embedding : TimestepEmbedding K -> T -> res T;
  ops_sk : SKCrossAttention K -> T -> T -> res T
}.

Section Instances.
Context `{K : Kernels}.

#[export] Instance data_ops : TensorOps stensor := {|
  t_shape := shape;
  ops_to_frames_batch := rearrange_bcfhw_to_bfchw;
  ops_from_frames_batch := rearrange_bfchw_to_bcfhw;
  ops_flatten_bfc := rearrange_bfc_to_flat;
  ops_unflatten_bfcd := rearrange_flat_to_bfcd;
  ops_fold_bf := rearrange_bfcd_to_bfcd_flat;
  ops_unfold_bf := rearrange_bfcd_flat_to_bfcd;
  ops_cat_dim2 := cat_dim2;
  ops_scale := tensor_scale;
  ops_timesteps := timesteps;
  ops_interpolate := interpolate;
  ops_conv2d := conv2d;
  ops_timestep_embedding := timestep_embedding;
  ops_sk := sk_forward
|}.

#[export] Instance shape_ops : TensorOps (list nat) := {|
  t_shape := id;
  ops_to_frames_batch := rearrange_bcfhw_to_bfchw_shape;
  ops_from_frames_batch := rearrange_bfchw_to_bcfhw_shape;
  ops_flatten_bfc := rearrange_bfc_to_flat_shape;
  ops_unflatten_bfcd := rearrange_flat_to_bfcd_shape;
  ops_fold_bf := rearrange_bfcd_to_bfcd_flat_shape;
  ops_unfold_bf := rearrange_bfcd_flat_to_bfcd_shape;
  ops_cat_dim2 := cat_dim2_shape;
  ops_scale := fun _ s => s;
  ops_timesteps := timesteps_shape;
  ops_interpolate := interpolate_shape;
  ops_conv2d := fun m => conv2d_shape (conv_cfg m);
  ops_timestep_embedding := fun m => timestep_embedding_shape (te_cfg m);
  ops_sk := fun m => sk_forward_shape (sk_cfg m)
|}.
End Instances.

(** ** The two instances are related *)

Section Relation.
Context `{K : Kernels}.
Implicit Types (t : stensor) (s : list nat).

(** Lift a one-argument refinement to related arguments. *)
Lemma refines1_rel op op_s t s :
  refines1 op op_s -> has_shape t s -> res_rel has_shape (op t) (op_s s).
Proof. intros Hop [Hw <-]. by apply Hop. Qed.

Lemma ops_shape_rel t s : has_shape t s -> t_shape t = t_shape s.
Proof. intros [_ H]. exact H. Qed.

Lemma ops_to_frames_batch_rel t s : has_shape t s ->
  res_rel has_shape (ops_to_frames_batch t) (ops_to_frames_batch s).
Proof. apply refines1_rel, rearrange_bcfhw_to_bfchw_refines. Qed.

Lemma ops_from_frames_batch_rel f t s : has_shape t s ->
  res_rel has_shape (ops_from_frames_batch f t) (ops_from_frames_batch f s).
Proof. apply refines1_rel, rearrange_bfchw_to_bcfhw_refines. Qed.

Lemma ops_flatten_bfc_rel t s : has_shape t s ->
  res_rel has_shape (ops_flatten_bfc t) (ops_flatten_bfc s).
Proof. apply refines1_rel, rearrange_bfc_to_flat_refines. Qed.

Lemma ops_unflatten_bfcd_rel b f d t s : has_shape t s ->
  res_rel has_shape (ops_unflatten_bfcd b f d t) (ops_unflatten_bfcd b f d s).
Proof. apply refines1_rel, rearrange_flat_to_bfcd_refines. Qed.

Lemma ops_fold_bf_rel t s : has_shape t s ->
  res_rel has_shape (ops_fold_bf t) (ops_fold_bf s).
Proof. apply refines1_rel, rearrange_bfcd_to_bfcd_flat_refines. Qed.

Lemma ops_unfold_bf_rel f t s : has_shape t s ->
  res_rel has_shape (ops_unfold_bf f t) (ops_unfold_bf f s).
Proof. apply refines1_rel, rearrange_bfcd_flat_to_bfcd_refines. Qed.

Lemma ops_cat_dim2_rel t1 s1 t2 s2 : has_shape t1 s1 -> has_shape t2 s2 ->
  res_rel has_shape (ops_cat_dim2 t1 t2) (ops_cat_dim2 s1 s2).
Proof. intros [H1 <-] [H2 <-]. by apply cat_dim2_refines. Qed.

Lemma ops_scale_rel k t s : has_shape t s -> has_shape (ops_scale k t) (ops_scale k s).
Proof. intros [Hw <-]. by apply tensor_scale_shape. Qed.

Lemma ops_timesteps_rel cfg t s : has_shape t s ->
  res_rel has_shape (ops_timesteps cfg t) (ops_timesteps cfg s).
Proof. apply refines1_rel, timesteps_refines. Qed.

Lemma ops_interpolate_rel oh ow t s : has_shape t s ->
  res_rel has_shape (ops_interpolate oh ow t) (ops_interpolate oh ow s).
Proof. apply refines1_rel, interpolate_refines. Qed.

Lemma ops_conv2d_rel m t s : has_shape t s ->
  res_rel has_shape (ops_conv2d m t) (ops_conv2d m s).
Proof. apply refines1_rel, conv2d_refines. Qed.

Lemma ops_timestep_embedding_rel m t s : has_shape t s ->
  res_rel has_shape (ops_timestep_embedding m t) (ops_timestep_embedding m s).
Proof. apply refines1_rel, timestep_embedding_refines. Qed.

Lemma ops_sk_rel m t1 s1 t2 s2 : has_shape t1 s1 -> has_shape t2 s2 ->
  res_rel has_shape (ops_sk m t1 t2) (ops_sk m s1 s2).
Proof. intros [H1 <-] [H2 <-]. by apply sk_forward_refines. Qed.
End Relation.

#[export] Hint Resolve ops_to_frames_batch_rel ops_from_frames_batch_rel ops_flatten_bfc_rel
  ops_unflatten_bfcd_rel ops_fold_bf_rel ops_unfold_bf_rel ops_cat_dim2_rel ops_scale_rel
  ops_timesteps_rel ops_interpolate_rel ops_conv2d_rel ops_timestep_embedding_rel ops_sk_rel : hm.

(** [dict_rel R]: two dicts with the same keys in the same order and
    [R]-related values. *)
Definition dict_rel {A B} (R : A -> B -> Prop) (d1 : pydict A) (d2 : pydict B) : Prop :=
  Forall2 (fun kv1 kv2 => kv1.1 = kv2.1 /\ R kv1.2 kv2.2) d1 d2.

Lemma dict_rel_set {A B} (R : A -> B -> Prop) k v1 v2 d1 d2 :
  R v1 v2 -> dict_rel R d1 d2 -> dict_rel R (dict_set k v1 d1) (dict_set k v2 d2).
Proof.
  intros Hv Hd. induction Hd as [|[k1 a] [k2 b] d1 d2 [Hk Hab] Hd IH]; simpl in *; subst.
  - by repeat constructor.
  - case_decide; constructor; auto.
Qed.

#[export] Hint Resolve dict_rel_set : hm.

(** [rel_solve] proves a goal [res_rel R (prog at data_ops) (prog at shape_ops)]
    by stepping through both programs bind by bind. *)
Lemma dict_rel_nil {A B} (R : A -> B -> Prop) : dict_rel R [] [].
Proof. constructor. Qed.

#[export] Hint Resolve dict_rel_nil : hm.

Lemma dict_rel_get {A B} (R : A -> B -> Prop) d1 d2 k :
  dict_rel R d1 d2 -> option_Forall2 R (dict_get d1 k) (dict_get d2 k).
Proof.
  induction 1 as [|[k1 a] [k2 b] d1 d2 [Hk Hab] Hd IH]; simpl in *; subst; [constructor|].
  case_decide; [by constructor | exact IH].
Qed.

(** Related stores: the same keys in the same order holding objects with
    the same identities and related values, and the same next identity. *)
Definition ref_rel {A B} (R : A -> B -> Prop) (r1 : pyref A) (r2 : pyref B) : Prop :=
  ref_id r1 = ref_id r2 /\ R (ref_val r1) (ref_val r2).

Lemma dict_rel_store_vals {A B} (R : A -> B -> Prop) d1 d2 :
  dict_rel (ref_rel R) d1 d2 -> dict_rel R (store_vals d1) (store_vals d2).
Proof. induction 1 as [|[k1 a] [k2 b] d1 d2 [Hk [_ Hab]] Hd IH]; constructor; auto. Qed.

Definition store_rel {A B} (R : A -> B -> Prop) (st1 : store A) (st2 : store B) : Prop :=
  dict_rel (ref_rel R) st1.1 st2.1 /\ st1.2 = st2.2.

Lemma store_rel_nil {A B} (R : A -> B -> Prop) n : store_rel R ([], n) ([], n).
Proof. split; [constructor | done]. Qed.

Lemma py_store_new_rel {A B} (R : A -> B -> Prop) k v1 v2 st1 st2 :
  R v1 v2 -> store_rel R st1 st2 -> store_rel R (py_store_new k v1 st1) (py_store_new k v2 st2).
Proof.
  intros Hv [Hd Hn]. unfold py_store_new. split; simpl; [|by rewrite Hn].
  apply dict_rel_set; [split; simpl|]; auto.
Qed.

Lemma py_store_alias_rel {A B} (R : A -> B -> Prop) k src st1 st2 :
  store_rel R st1 st2 -> res_rel (store_rel R) (py_store_alias k src st1) (py_store_alias k src st2).
Proof.
  intros [Hd Hn]. unfold py_store_alias, dict_getitem.
  destruct (dict_rel_get _ _ _ src Hd) as [r1 r2 Hr|]; simpl; [|done].
  split; [by apply dict_rel_set | done].
Qed.

#[export] Hint Resolve store_rel_nil py_store_new_rel py_store_alias_rel : hm.

Ltac rel_solve :=
  repeat first
    [ progress rel_step
    | match goal with
      | H : has_shape ?t ?s |- context [t_shape ?t] => rewrite (ops_shape_rel t s H)
      | H : ?x = ?y |- _ => subst x
      | p : (_ * _)%type |- _ => destruct p
      | H : _ /\ _ |- _ => destruct H
      end
    | progress cbv beta iota
    | eauto with hm ].
