(* ===== verification/Embedding.v ===== *)
(** * The driving embeddings

    Two pipelines build the sequence of driving tokens that the fusion blocks
    attend to:
    - the expression path ([HMControlNet.forward] lines 67-80, repeated in
      [HMV2ControlNet] 192-205 and the [else] branch of [HMV3ControlNet]
      272-285): expression coefficients scaled by [500.], embedded by
      [Timesteps], concatenated per frame after the projected face-part
      features, then projected by [exp_proj];
    - the emotion path ([HMControlNet2.forward] lines 133-138, repeated in
      [HMV2ControlNet2] 351-356 and the first branch of [HMV3ControlNet]
      265-270): emotion coefficients scaled by [20.], embedded, projected by
      [emo_proj].
    Both are written against [TensorOps]; [exp_drive_embedding_refines] and
    [emo_drive_embedding_refines] relate their data and shape semantics, and
    [exp_drive_embedding_spec] / [emo_drive_embedding_spec] give the tokens
    they compute on the data semantics. *)

From S2P Require Import Prelude Layout PyDict Tensor Torch Interp.
Local Open Scope res_scope.

Section Pipelines.
Context `{K : Kernels} {T : Type} `{!TensorOps T}.

(** Lines 67-80: [exp_embedding] is a [Timesteps], [face_proj] and
    [exp_proj] are [TimestepEmbedding]s; [cad] is [cross_attention_dim],
    [bs] and [fr] the batch size and [video_length] read from the
    condition's shape. *)
Definition exp_drive_embedding (exp_embedding : TimestepsCfg)
           (face_proj exp_proj : TimestepEmbedding K) (cad bs fr : nat)
           (drive_coeff face_parts : T) : res T :=
  drive_coeff <- ops_flatten_bfc (ops_scale 500 drive_coeff) ;;
  drive_embedding <- ops_timesteps exp_embedding drive_coeff ;;
  drive_embedding <- ops_unflatten_bfcd bs fr cad drive_embedding ;;
  face_parts <- ops_fold_bf face_parts ;;
  face_embedding <- ops_timestep_embedding face_proj face_parts ;;
  face_embedding <- ops_unfold_bf fr face_embedding ;;
  drive_embedding <- ops_cat_dim2 face_embedding drive_embedding ;;
  drive_embedding <- ops_fold_bf drive_embedding ;;
  ops_timestep_embedding exp_proj drive_embedding.

(** Lines 133-138. *)
Definition emo_drive_embedding (emo_embedding : TimestepsCfg)
           (emo_proj : TimestepEmbedding K) (cad bs fr : nat) (emo : T) : res T :=
  drive_coeff <- ops_flatten_bfc (ops_scale 20 emo) ;;
  drive_embedding <- ops_timesteps emo_embedding drive_coeff ;;
  drive_embedding <- ops_unflatten_bfcd bs fr cad drive_embedding ;;
  drive_embedding <- ops_fold_bf drive_embedding ;;
  ops_timestep_embedding emo_proj drive_embedding.
End Pipelines.

Section Refinement.
Context `{K : Kernels}.

Lemma exp_drive_embedding_refines ts fp ep cad bs fr dc sdc fpt sfp :
  has_shape dc sdc -> has_shape fpt sfp ->
  res_rel has_shape (exp_drive_embedding ts fp ep cad bs fr dc fpt)
                    (exp_drive_embedding ts fp ep cad bs fr sdc sfp).
Proof. intros. unfold exp_drive_embedding. rel_solve. Qed.

Lemma emo_drive_embedding_refines ts ep cad bs fr e se :
  has_shape e se ->
  res_rel has_shape (emo_drive_embedding ts ep cad bs fr e)
                    (emo_drive_embedding ts ep cad bs fr se).
Proof. intros. unfold emo_drive_embedding. rel_solve. Qed.
End Refinement.

#[export] Hint Resolve exp_drive_embedding_refines emo_drive_embedding_refines : hm.

(** ** The shapes the pipelines compute

    On well-shaped inputs the pipelines succeed: with [k] coefficients
    and [p] face regions per frame the expression path yields [p + k]
    tokens of width [cross_attention_dim] per frame (face tokens first),
    the emotion path [k] tokens. *)

Section Shapes.
Context `{K : Kernels}.

Lemma exp_drive_embedding_shape (ts : TimestepsCfg) (fp ep : TimestepEmbedding K) cad b f k p :
  0 < b -> 0 < f -> ts_num_channels ts = cad ->
  te_cfg fp = {| te_in_channels := 1024; te_time_embed_dim := cad |} ->
  te_cfg ep = {| te_in_channels := cad; te_time_embed_dim := cad |} ->
  exp_drive_embedding (T:=list nat) ts fp ep cad b f [b; f; k] [b; f; p; 1024]
  = Ok [b * f; p + k; cad].
Proof.
  intros Hb Hf Hts Hfp Hep. unfold exp_drive_embedding. cbn -[Nat.mul Nat.div Nat.modulo].
  rewrite Hts, Hfp, Hep. by shape_simpl.
Qed.

Lemma emo_drive_embedding_shape (ts : TimestepsCfg) (ep : TimestepEmbedding K) cad b f k :
  0 < b -> 0 < f -> ts_num_channels ts = cad ->
  te_cfg ep = {| te_in_channels := cad; te_time_embed_dim := cad |} ->
  emo_drive_embedding (T:=list nat) ts ep cad b f [b; f; k] = Ok [b * f; k; cad].
Proof.
  intros Hb Hf Hts Hep. unfold emo_drive_embedding. cbn -[Nat.mul Nat.div Nat.modulo].
  rewrite Hts, Hep. by shape_simpl.
Qed.
End Shapes.

(** ** The tokens the pipelines compute

    On the data semantics: the driving sequence of frame [i] is the
    projection by [exp_proj] of the [p] face-part features of frame [i]
    (each projected by [face_proj]) followed by the sinusoidal embeddings
    of its [k] coefficients scaled by [500.]; in the emotion path each
    coefficient scaled by [20.] becomes one token through [emo_proj]. *)

Section Tokens.
Context `{K : Kernels}.

(** The rows fed to [exp_proj], frame by frame ([bf] frames). *)
Definition exp_tokens (ts : TimestepsCfg) (fp : TimestepEmbedding K) (bf k p : nat)
           (coeff face : list scalar) : list (list scalar) :=
  concat (zip_with app
    (map (fun ff => map (te_kernel (te_weight fp) (te_cfg fp)) (chunks p 1024 ff))
         (chunks bf (p * 1024) face))
    (map (map (fun x => timestep_row ts (fmul x (f_of_nat 500)))) (chunks bf k coeff))).

Lemma exp_tokens_rows ts (fp : TimestepEmbedding K) bf k p coeff face cad :
  length coeff = bf * k -> length face = bf * (p * 1024) -> ts_num_channels ts = cad ->
  te_cfg fp = {| te_in_channels := 1024; te_time_embed_dim := cad |} ->
  rows cad (exp_tokens ts fp bf k p coeff face)
  /\ length (exp_tokens ts fp bf k p coeff face) = bf * (p + k).
Proof.
  intros Hc Hf Hts Hfp. unfold exp_tokens. rewrite Hfp.
  set (X := map _ (chunks bf (p * 1024) face)).
  set (Y := map _ (chunks bf k coeff)).
  assert (HX : rows p X /\ Forall (rows cad) X).
  { assert (Hr : rows (p * 1024) (chunks bf (p * 1024) face)) by (apply chunks_rows; lia).
    split; apply Forall_fmap, Forall_forall; intros x Hx; unfold compose.
    - by rewrite length_map, length_chunks.
    - apply Forall_fmap. eapply Forall_impl; [apply chunks_rows |].
      + unfold rows in Hr. rewrite Forall_forall in Hr. rewrite (Hr x Hx). lia.
      + intros r Hr'. unfold compose. by rewrite te_kernel_length. }
  assert (HY : rows k Y /\ Forall (rows cad) Y).
  { assert (Hr : rows k (chunks bf k coeff)) by (apply chunks_rows; lia).
    split; [eapply rows_map; [exact Hr | intros; by rewrite length_map]|].
    apply Forall_fmap, Forall_forall. intros y _. apply Forall_fmap, Forall_forall.
    intros. unfold compose. by rewrite length_timestep_row. }
  destruct HX as [HXp HXc], HY as [HYk HYc].
  destruct (rows_zip_with app p k (p + k) X Y HXp HYk) as [HZ HZl];
    [unfold X, Y; by rewrite !length_map, !length_chunks | intros; rewrite length_app; lia |].
  split.
  - apply Forall_zip_with_app; by apply Forall_concat_2.
  - rewrite (length_concat_rows (p + k)) by done. rewrite HZl. unfold X.
    by rewrite length_map, length_chunks.
Qed.

(** C13: The expression path on tensors of the documented shapes yields,
    for each of the [b * f] frames in order, [p + k] tokens: the
    [exp_proj] projections of the frame's [p] projected face parts
    followed by those of the sinusoidal embeddings of its [k] coefficients
    times [500.]. *)
Theorem exp_drive_embedding_tokens ts (fp ep : TimestepEmbedding K) cad b f k p (dc fpt : stensor) :
  wf dc -> shape dc = [b; f; k] -> wf fpt -> shape fpt = [b; f; p; 1024] -> 0 < b -> 0 < f ->
  ts_num_channels ts = cad ->
  te_cfg fp = {| te_in_channels := 1024; te_time_embed_dim := cad |} ->
  te_cfg ep = {| te_in_channels := cad; te_time_embed_dim := cad |} ->
  exp_drive_embedding ts fp ep cad b f dc fpt
  = Ok (mkT [b * f; p + k; cad]
          (concat (map (te_kernel (te_weight ep) (te_cfg ep))
                       (exp_tokens ts fp (b * f) k p (data dc) (data fpt))))).
Proof.
  destruct dc as [s1 l1], fpt as [s2 l2]. unfold wf, numel; simpl.
  intros H1 -> H2 -> Hb Hf Hts Hfp Hep. cbn [foldr] in H1, H2.
  destruct (exp_tokens_rows ts fp (b * f) k p l1 l2 cad) as [Hr Hl]; try done; try nia.
  unfold exp_drive_embedding. cbn -[Nat.mul Nat.div Nat.modulo Nat.leb].
  rewrite Hts, Hfp. shape_simpl. rewrite ?Hep. shape_simpl. rewrite !Nat.mul_1_r, ?Hep.
  unfold exp_tokens in Hr, Hl |- *. rewrite Hfp in Hr, Hl |- *.
  rewrite (chunks_concat_map_chunks _ (b * f) p 1024 cad);
    [| intros r Hr'; by rewrite te_kernel_length | nia].
  rewrite map_map, (chunks_concat_map _ (b * f) k cad);
    [| apply Forall_forall; intros; by rewrite length_timestep_row | nia].
  by rewrite concat_zip_with_app_map, (chunks_concat (b * f * (p + k)) cad).
Qed.

(** C19: The emotion path yields one token per coefficient, frames in order:
    [emo_proj] of the sinusoidal embedding of the coefficient times
    [20.]. *)
Theorem emo_drive_embedding_tokens ts (ep : TimestepEmbedding K) cad b f k (e : stensor) :
  wf e -> shape e = [b; f; k] -> 0 < b -> 0 < f -> ts_num_channels ts = cad ->
  te_cfg ep = {| te_in_channels := cad; te_time_embed_dim := cad |} ->
  emo_drive_embedding ts ep cad b f e
  = Ok (mkT [b * f; k; cad]
          (concat (map (fun x => te_kernel (te_weight ep) (te_cfg ep)
                                   (timestep_row ts (fmul x (f_of_nat 20)))) (data e)))).
Proof.
  destruct e as [s l]. unfold wf, numel; simpl. intros H -> Hb Hf Hts Hep. cbn [foldr] in H.
  unfold emo_drive_embedding. cbn -[Nat.mul Nat.div Nat.modulo Nat.leb].
  rewrite Hts. shape_simpl. rewrite ?Hep. shape_simpl. rewrite !Nat.mul_1_r, ?Hep.
  rewrite (chunks_concat (b * f * k) cad).
  - by rewrite !map_map.
  - apply Forall_fmap, Forall_forall. intros. unfold compose. by rewrite length_timestep_row.
  - rewrite !length_map. nia.
Qed.

(** [face_parts] enters the expression path only through the fold
    ["b f c d -> (b f) c d"]: its own batch and frame axes are never
    compared with the condition's, only their product is.  A
    [(b', f', p, 1024)] tensor with [b' * f' = b * f] is re-split as
    [(b, f, p, 1024)]. *)
Lemma exp_drive_embedding_face_regroup ts (fp ep : TimestepEmbedding K) cad b f b' f' p
      (dc fpt : stensor) :
  shape fpt = [b'; f'; p; 1024] -> b' * f' = b * f ->
  exp_drive_embedding ts fp ep cad b f dc fpt
  = exp_drive_embedding ts fp ep cad b f dc (mkT [b; f; p; 1024] (data fpt)).
Proof.
  destruct fpt as [s l]. simpl. intros -> Hbf.
  unfold exp_drive_embedding. cbn [ops_fold_bf data_ops rearrange_bfcd_to_bfcd_flat shape data].
  by rewrite Hbf.
Qed.
End Tokens.

(** ** Examples on the reference instance *)

From Stdlib Require Import ZArith.

Section Examples.
#[local] Existing Instance int_kernels.

Definition ex_ts : TimestepsCfg :=
  {| ts_num_channels := 2; ts_flip_sin_to_cos := true; ts_downscale_freq_shift := 0 |}.
Definition ex_face_proj : TimestepEmbedding int_kernels :=
  {| te_cfg := {| te_in_channels := 1024; te_time_embed_dim := 2 |}; te_weight := tt |}.
Definition ex_proj : TimestepEmbedding int_kernels :=
  {| te_cfg := {| te_in_channels := 2; te_time_embed_dim := 2 |}; te_weight := tt |}.

(** One video of two frames, one coefficient and one face region per frame. *)
Definition ex_dc : stensor := mkT [1; 2; 1] [3; 4]%Z.
Definition ex_fp : stensor := mkT [1; 2; 1; 1024] (replicate 2048 1%Z).

Lemma exp_drive_embedding_tokens_witness :
  exp_drive_embedding ex_ts ex_face_proj ex_proj 2 1 2 ex_dc ex_fp
  = Ok (mkT [1 * 2; 1 + 1; 2]
          (concat (map (te_kernel (te_weight ex_proj) (te_cfg ex_proj))
                       (exp_tokens ex_ts ex_face_proj (1 * 2) 1 1 (data ex_dc) (data ex_fp))))).
Proof.
  apply exp_drive_embedding_tokens; first [reflexivity | vm_compute; reflexivity | lia].
Defined.

Lemma emo_drive_embedding_tokens_witness :
  emo_drive_embedding ex_ts ex_proj 2 1 2 ex_dc
  = Ok (mkT [1 * 2; 1; 2]
          (concat (map (fun x => te_kernel (te_weight ex_proj) (te_cfg ex_proj)
                                   (timestep_row ex_ts (fmul x (f_of_nat 20)))) (data ex_dc)))).
Proof. apply emo_drive_embedding_tokens; first [reflexivity | lia]. Defined.
End Examples.
