(* ===== verification/ControlNet.v ===== *)
(** * The single-mode ControlNets: HMControlNet, HMControlNet2, HMV2ControlNet, HMV2ControlNet2

    Each class of hm_control.py is a Module: its state (the attributes set
    by [__init__]) is the record [t], [init] is the constructor, [forward] the
    forward pass, written against [TensorOps] so that it has a data and a
    shape semantics.  The shared pieces, repeated verbatim in the source, are
    defined once:
    - [make_blocks]: the [for i in range(1, len(block_out_channels))] loop of
      every [__init__] that builds the fusion chain;
    - [forward_stem]: lines 58-65 (shape unpacking, frames into batch,
      downsampling, [conv_in]);
    - [run_blocks]: the output loop (lines 83-87), parameterised by the key
      of stage [idx] ([f'down_{idx}'], or [f'up_v2_{n - idx - 1}'] ...).
    Learned parameters are read from a [Weights] record indexed by the
    module path, as PyTorch names them in a state dict. *)

From S2P Require Import Prelude Layout PyDict Tensor Torch Interp Embedding.
From stdpp Require Import strings.
Local Open Scope res_scope.

(** The constructor arguments shared by the five classes. *)
Record ControlNetConfig := {
  cfg_embedding_channels : nat;
  cfg_input_channels : nat;
  cfg_scale_factor : nat;
  cfg_cross_attention_dim : nat;
  cfg_block_out_channels : list nat }.

(** Defaults of [HMControlNet]/[HMControlNet2] (lines 27-31, 94-98) and of
    the V2/V3 classes (lines 151-156, 218-223, 310-315). *)
Definition default_config_v1 : ControlNetConfig :=
  {| cfg_embedding_channels := 1280; cfg_input_channels := 3; cfg_scale_factor := 8;
     cfg_cross_attention_dim := 320; cfg_block_out_channels := [128; 320; 640; 1280] |}.

Definition default_config_v2 : ControlNetConfig :=
  {| cfg_embedding_channels := 1280; cfg_input_channels := 3; cfg_scale_factor := 4;
     cfg_cross_attention_dim := 320; cfg_block_out_channels := [128; 640; 1280; 1280; 1280] |}.

(** [xs[i]] on a Python list. *)
Definition list_getitem {A} (xs : list A) (i : nat) : res A :=
  match xs !! i with Some x => Ok x | None => Err IndexError end.

Section Construction.
Context `{K : Kernels}.

(** Learned parameters by module path ("conv_in", "blocks_down.0", ...). *)
Record Weights := {
  w_conv : string -> conv_params;
  w_te : string -> te_params;
  w_sk : string -> sk_params }.

(** [nn.Conv2d(cin, cout, kernel_size=k, padding=p, bias=False)]. *)
Definition mk_conv (w : Weights) (name : string) (cin cout k p : nat) : Conv2d K :=
  {| conv_cfg := {| conv_in_channels := cin; conv_out_channels := cout;
                    conv_kernel_size := k; conv_padding := p |};
     conv_weight := w_conv w name |}.

(** [Timesteps(cross_attention_dim, True, 0)]. *)
Definition mk_timesteps (cad : nat) : TimestepsCfg :=
  {| ts_num_channels := cad; ts_flip_sin_to_cos := true; ts_downscale_freq_shift := 0 |}.

(** [TimestepEmbedding(cin, dim)]. *)
Definition mk_te (w : Weights) (name : string) (cin dim : nat) : TimestepEmbedding K :=
  {| te_cfg := {| te_in_channels := cin; te_time_embed_dim := dim |};
     te_weight := w_te w name |}.

(** Lines 45-54, the body of the loop [for i in range(1, len(block_out_channels))]:
    block [i - 1] maps [block_out_channels[i-1]] channels to
    [block_out_channels[i]]; [npe_hidden] is
    [num_positional_embeddings_hidden] (64 in [HMControlNet], 1024 in the
    others). *)
Definition make_block (w : Weights) (cad npe_hidden : nat) (boc : list nat) (i : nat)
  : SKCrossAttention K :=
  {| sk_cfg := {| sk_channel_in := nth (i - 1) boc 0; sk_channel_out := nth i boc 0;
                  sk_cross_attention_dim := cad;
                  sk_num_positional_embeddings := 64;
                  sk_num_positional_embeddings_hidden := npe_hidden |};
     sk_weight := w_sk w (key_of "blocks_down."%string (i - 1)) |}.

(** Lines 43-55 (and 109-121, 168-180, 240-252, 327-339). *)
Definition make_blocks (w : Weights) (cad npe_hidden : nat) (boc : list nat)
  : list (SKCrossAttention K) :=
  map (make_block w cad npe_hidden boc) (seq 1 (length boc - 1)).
End Construction.
Arguments Weights : clear implicits.

Section Forward.
Context `{K : Kernels} {T : Type} `{!TensorOps T}.

(** [a, b, c, d, e = shape]: [ValueError] unless the rank is 5. *)
Definition unpack5 (s : list nat) : res (nat * nat * nat * nat * nat) :=
  match s with [a; b; c; d; e] => Ok (a, b, c, d, e) | _ => Err ValueError end.

(** Python's [a // b] on non-negative ints. *)
Definition py_floordiv (a b : nat) : res nat :=
  check! negb (b =? 0) else ZeroDivisionError ;; Ok (a / b).

(** Lines 58-65: returns [bs], [video_length] and the first feature map. *)
Definition forward_stem (scale_factor : nat) (conv_in : Conv2d K) (condition : T)
  : res (nat * nat * T) :=
  dims <- unpack5 (t_shape condition) ;;
  let '(bs, _, video_length, h, w) := dims in
  condition <- ops_to_frames_batch condition ;;
  oh <- py_floordiv h scale_factor ;;
  ow <- py_floordiv w scale_factor ;;
  conditioning <- ops_interpolate oh ow condition ;;
  embedding <- ops_conv2d conv_in conditioning ;;
  Ok (bs, video_length, embedding).

(** Lines 82-88: [for idx, block in enumerate(self.blocks_down)], each
    stage's output unfolded to [b c f h w] and stored under [key idx]. *)
Fixpoint run_blocks (key : nat -> string) (video_length : nat)
         (blocks : list (SKCrossAttention K)) (idx : nat) (embedding drive_embedding : T)
         (ret_dict : pydict T) : res (pydict T) :=
  match blocks with
  | [] => Ok ret_dict
  | block :: rest =>
      embedding <- ops_sk block embedding drive_embedding ;;
      out <- ops_from_frames_batch video_length embedding ;;
      run_blocks key video_length rest (S idx) embedding drive_embedding
                 (dict_set (key idx) out ret_dict)
  end.
End Forward.

(** ** The four networks *)

Module HMControlNet.
Section State.
Context `{K : Kernels}.

(** The attributes set by [__init__] (lines 33-55). *)
Record t := {
  scale_factor : nat; embedding_channels : nat; cross_attention_dim : nat;
  conv_in : Conv2d K; exp_embedding : TimestepsCfg;
  exp_proj : TimestepEmbedding K; face_proj : TimestepEmbedding K;
  blocks_down : list (SKCrossAttention K) }.

(** Lines 25-55. *)
Definition init (cfg : ControlNetConfig) (w : Weights K) : res t :=
  c0 <- list_getitem (cfg_block_out_channels cfg) 0 ;;
  let cad := cfg_cross_attention_dim cfg in
  Ok {| scale_factor := cfg_scale_factor cfg;
        embedding_channels := cfg_embedding_channels cfg;
        cross_attention_dim := cad;
        conv_in := mk_conv w "conv_in" (cfg_input_channels cfg) c0 3 1;
        exp_embedding := mk_timesteps cad;
        exp_proj := mk_te w "exp_proj" cad cad;
        face_proj := mk_te w "face_proj" 1024 cad;
        blocks_down := make_blocks w cad 64 (cfg_block_out_channels cfg) |}.
End State.
Arguments t : clear implicits.

Section Fwd.
Context `{K : Kernels} {T : Type} `{!TensorOps T}.

(** Lines 57-88. *)
Definition forward (net : t K) (condition drive_coeff face_parts : T) : res (pydict T) :=
  stem <- forward_stem (scale_factor net) (conv_in net) condition ;;
  let '(bs, video_length, embedding) := stem in
  drive_embedding <- exp_drive_embedding (exp_embedding net) (face_proj net) (exp_proj net)
                       (cross_attention_dim net) bs video_length drive_coeff face_parts ;;
  run_blocks (key_of "down_") video_length (blocks_down net) 0 embedding drive_embedding [].
End Fwd.
End HMControlNet.

Module HMControlNet2.
Section State.
Context `{K : Kernels}.

(** Lines 100-121. *)
Record t := {
  scale_factor : nat; embedding_channels : nat; cross_attention_dim : nat;
  conv_in : Conv2d K; exp_embedding : TimestepsCfg; emo_proj : TimestepEmbedding K;
  blocks_down : list (SKCrossAttention K) }.

(** Lines 92-121. *)
Definition init (cfg : ControlNetConfig) (w : Weights K) : res t :=
  c0 <- list_getitem (cfg_block_out_channels cfg) 0 ;;
  let cad := cfg_cross_attention_dim cfg in
  Ok {| scale_factor := cfg_scale_factor cfg;
        embedding_channels := cfg_embedding_channels cfg;
        cross_attention_dim := cad;
        conv_in := mk_conv w "conv_in" (cfg_input_channels cfg) c0 3 1;
        exp_embedding := mk_timesteps cad;
        emo_proj := mk_te w "emo_proj" cad cad;
        blocks_down := make_blocks w cad 1024 (cfg_block_out_channels cfg) |}.
End State.
Arguments t : clear implicits.

Section Fwd.
Context `{K : Kernels} {T : Type} `{!TensorOps T}.

(** Lines 123-146. *)
Definition forward (net : t K) (condition emo_embedding : T) : res (pydict T) :=
  stem <- forward_stem (scale_factor net) (conv_in net) condition ;;
  let '(bs, video_length, embedding) := stem in
  drive_embedding <- emo_drive_embedding (exp_embedding net) (emo_proj net)
                       (cross_attention_dim net) bs video_length emo_embedding ;;
  run_blocks (key_of "down2_") video_length (blocks_down net) 0 embedding drive_embedding [].
End Fwd.
End HMControlNet2.

Module HMV2ControlNet.
Section State.
Context `{K : Kernels}.

(** Lines 158-180: the attributes of [HMV2ControlNet]. *)
Record t := {
  scale_factor : nat; embedding_channels : nat; cross_attention_dim : nat;
  conv_in : Conv2d K; exp_embedding : TimestepsCfg;
  exp_proj : TimestepEmbedding K; face_proj : TimestepEmbedding K;
  blocks_down : list (SKCrossAttention K) }.

(** Lines 150-180 (fusion blocks with 1024 hidden positional embeddings). *)
Definition init (cfg : ControlNetConfig) (w : Weights K) : res t :=
  c0 <- list_getitem (cfg_block_out_channels cfg) 0 ;;
  let cad := cfg_cross_attention_dim cfg in
  Ok {| scale_factor := cfg_scale_factor cfg;
        embedding_channels := cfg_embedding_channels cfg;
        cross_attention_dim := cad;
        conv_in := mk_conv w "conv_in" (cfg_input_channels cfg) c0 3 1;
        exp_embedding := mk_timesteps cad;
        exp_proj := mk_te w "exp_proj" cad cad;
        face_proj := mk_te w "face_proj" 1024 cad;
        blocks_down := make_blocks w cad 1024 (cfg_block_out_channels cfg) |}.
End State.
Arguments t : clear implicits.

Section Fwd.
Context `{K : Kernels} {T : Type} `{!TensorOps T}.

(** Lines 182-213: stage [idx] is stored under [f'up_v2_{n - idx - 1}']. *)
Definition forward (net : t K) (condition drive_coeff face_parts : T) : res (pydict T) :=
  stem <- forward_stem (scale_factor net) (conv_in net) condition ;;
  let '(bs, video_length, embedding) := stem in
  drive_embedding <- exp_drive_embedding (exp_embedding net) (face_proj net) (exp_proj net)
                       (cross_attention_dim net) bs video_length drive_coeff face_parts ;;
  run_blocks (fun idx => key_of "up_v2_" (length (blocks_down net) - idx - 1))
             video_length (blocks_down net) 0 embedding drive_embedding [].
End Fwd.
End HMV2ControlNet.

Module HMV2ControlNet2.
Section State.
Context `{K : Kernels}.

(** Lines 317-339: the attributes of [HMV2ControlNet2]. *)
Record t := {
  scale_factor : nat; embedding_channels : nat; cross_attention_dim : nat;
  conv_in : Conv2d K; exp_embedding : TimestepsCfg; emo_proj : TimestepEmbedding K;
  blocks_down : list (SKCrossAttention K) }.

(** Lines 309-339. *)
Definition init (cfg : ControlNetConfig) (w : Weights K) : res t :=
  c0 <- list_getitem (cfg_block_out_channels cfg) 0 ;;
  let cad := cfg_cross_attention_dim cfg in
  Ok {| scale_factor := cfg_scale_factor cfg;
        embedding_channels := cfg_embedding_channels cfg;
        cross_attention_dim := cad;
        conv_in := mk_conv w "conv_in" (cfg_input_channels cfg) c0 3 1;
        exp_embedding := mk_timesteps cad;
        emo_proj := mk_te w "emo_proj" cad cad;
        blocks_down := make_blocks w cad 1024 (cfg_block_out_channels cfg) |}.
End State.
Arguments t : clear implicits.

Section Fwd.
Context `{K : Kernels} {T : Type} `{!TensorOps T}.

(** Lines 341-364: stage [idx] is stored under [f'up2_v2_{n - idx - 1}']. *)
Definition forward (net : t K) (condition emo_embedding : T) : res (pydict T) :=
  stem <- forward_stem (scale_factor net) (conv_in net) condition ;;
  let '(bs, video_length, embedding) := stem in
  drive_embedding <- emo_drive_embedding (exp_embedding net) (emo_proj net)
                       (cross_attention_dim net) bs video_length emo_embedding ;;
  run_blocks (fun idx => key_of "up2_v2_" (length (blocks_down net) - idx - 1))
             video_length (blocks_down net) 0 embedding drive_embedding [].
End Fwd.
End HMV2ControlNet2.

(** ** Refinement: each forward is simulated by its shape semantics *)

Section Refinement.
Context `{K : Kernels}.

(** Related results of [forward_stem]: same [bs] and [video_length],
    related feature maps. *)
Definition stem_rel (a : nat * nat * stensor) (b : nat * nat * list nat) : Prop :=
  a.1.1 = b.1.1 /\ a.1.2 = b.1.2 /\ has_shape a.2 b.2.

Lemma forward_stem_refines sf conv c sc :
  has_shape c sc -> res_rel stem_rel (forward_stem sf conv c) (forward_stem sf conv sc).
Proof.
  intros Hc. unfold forward_stem. rewrite (ops_shape_rel c sc Hc).
  rel_solve. unfold stem_rel; simpl; auto.
Qed.

Lemma run_blocks_refines key fr blocks idx e se de sde d sd :
  has_shape e se -> has_shape de sde -> dict_rel has_shape d sd ->
  res_rel (dict_rel has_shape) (run_blocks key fr blocks idx e de d)
                               (run_blocks key fr blocks idx se sde sd).
Proof.
  revert idx e se d sd. induction blocks as [|b blocks IH]; intros; cbn [run_blocks];
    rel_solve.
Qed.
End Refinement.

#[export] Hint Resolve forward_stem_refines run_blocks_refines : hm.

(** [fwd_rel] extends [rel_solve] with the components of [stem_rel]. *)
Ltac fwd_rel :=
  repeat (rel_solve;
          try match goal with H : stem_rel _ _ |- _ => unfold stem_rel in H; simpl in H end).

(** ** Output keys *)

Section Keys.
Context `{K : Kernels} {T : Type} `{!TensorOps T}.

(** The loop appends one fresh key per block, in block order. *)
Lemma run_blocks_keys key fr blocks idx e de (d d' : pydict T) :
  run_blocks key fr blocks idx e de d = Ok d' ->
  NoDup (map key (seq idx (length blocks))) ->
  (forall i, idx <= i < idx + length blocks -> key i ∉ dict_keys d) ->
  dict_keys d' = dict_keys d ++ map key (seq idx (length blocks)).
Proof.
  revert idx e d. induction blocks as [|b blocks IH]; intros idx e d Hrun Hnd Hfresh;
    cbn [run_blocks] in Hrun.
  - injection Hrun as <-. by rewrite app_nil_r.
  - apply res_bind_Ok_inv in Hrun as (e' & _ & Hrun).
    apply res_bind_Ok_inv in Hrun as (out & _ & Hrun).
    cbn [length seq map] in *. apply NoDup_cons in Hnd as [Hnotin Hnd].
    rewrite (IH _ _ _ Hrun Hnd).
    + rewrite dict_keys_set_fresh by (apply Hfresh; lia). by rewrite <- app_assoc.
    + intros i Hi. rewrite dict_keys_set_fresh by (apply Hfresh; lia).
      intros [Hin | Heq%list_elem_of_singleton]%elem_of_app.
      * revert Hin. apply Hfresh. lia.
      * apply Hnotin. apply list_elem_of_In, in_map_iff. exists i.
        split; [exact Heq | apply in_seq; lia].
Qed.

Lemma key_of_NoDup p a n : NoDup (map (key_of p) (seq a n)).
Proof. apply NoDup_map_seq. intros i j _ _. apply key_of_inj. Qed.

(** The descending keys [f'{p}{n - idx - 1}'] of the V2 classes. *)
Lemma key_of_rev_NoDup p n : NoDup (map (fun idx => key_of p (n - idx - 1)) (seq 0 n)).
Proof. apply NoDup_map_seq. intros i j Hi Hj ?%key_of_inj. lia. Qed.
End Keys.

Section KeysTheorems.
Context `{K : Kernels} {T : Type} `{!TensorOps T}.

(** a successful [HMControlNet] forward returns exactly the keys
    [down_0], ..., [down_{n-1}], in this order, one per fusion block. *)
Theorem HMControlNet_forward_keys (net : HMControlNet.t K) (c dc fp : T) d :
  HMControlNet.forward net c dc fp = Ok d ->
  dict_keys d = map (key_of "down_") (seq 0 (length (HMControlNet.blocks_down net))).
Proof.
  unfold HMControlNet.forward. intros H.
  apply res_bind_Ok_inv in H as ([[bs fr] e] & _ & H).
  apply res_bind_Ok_inv in H as (de & _ & H).
  eapply run_blocks_keys in H; [exact H | apply key_of_NoDup | intros; apply not_elem_of_nil].
Qed.

Lemma HMControlNet2_forward_keys (net : HMControlNet2.t K) (c e : T) d :
  HMControlNet2.forward net c e = Ok d ->
  dict_keys d = map (key_of "down2_") (seq 0 (length (HMControlNet2.blocks_down net))).
Proof.
  unfold HMControlNet2.forward. intros H.
  apply res_bind_Ok_inv in H as ([[bs fr] e'] & _ & H).
  apply res_bind_Ok_inv in H as (de & _ & H).
  eapply run_blocks_keys in H; [exact H | apply key_of_NoDup | intros; apply not_elem_of_nil].
Qed.

(** C21: [HMV2ControlNet] stores its stages in descending key order:
    [up_v2_{n-1}], ..., [up_v2_0]. *)
Theorem HMV2ControlNet_forward_keys (net : HMV2ControlNet.t K) (c dc fp : T) d :
  HMV2ControlNet.forward net c dc fp = Ok d ->
  dict_keys d = rev (map (key_of "up_v2_") (seq 0 (length (HMV2ControlNet.blocks_down net)))).
Proof.
  unfold HMV2ControlNet.forward. intros H.
  apply res_bind_Ok_inv in H as ([[bs fr] e] & _ & H).
  apply res_bind_Ok_inv in H as (de & _ & H).
  rewrite <- map_seq_rev.
  eapply run_blocks_keys in H;
    [exact H | apply key_of_rev_NoDup | intros; apply not_elem_of_nil].
Qed.

Lemma HMV2ControlNet2_forward_keys (net : HMV2ControlNet2.t K) (c e : T) d :
  HMV2ControlNet2.forward net c e = Ok d ->
  dict_keys d = rev (map (key_of "up2_v2_") (seq 0 (length (HMV2ControlNet2.blocks_down net)))).
Proof.
  unfold HMV2ControlNet2.forward. intros H.
  apply res_bind_Ok_inv in H as ([[bs fr] e'] & _ & H).
  apply res_bind_Ok_inv in H as (de & _ & H).
  rewrite <- map_seq_rev.
  eapply run_blocks_keys in H;
    [exact H | apply key_of_rev_NoDup | intros; apply not_elem_of_nil].
Qed.
End KeysTheorems.

(** ** The face parts are matched to frames by position only *)

Section FaceParts.
Context `{K : Kernels} {T : Type} `{!TensorOps T}.

(** The stem returns the batch size and frame count read from the
    condition's shape. *)
Lemma forward_stem_dims sf conv (c : T) bs fr e :
  forward_stem sf conv c = Ok (bs, fr, e) ->
  exists x h w, t_shape c = [bs; x; fr; h; w].
Proof.
  unfold forward_stem, unpack5. destruct (t_shape c) as [|? [|? [|? [|? [|? [|]]]]]];
    cbn [res_bind]; try done.
  intros (? & _ & H)%res_bind_Ok_inv. apply res_bind_Ok_inv in H as (? & _ & H).
  apply res_bind_Ok_inv in H as (? & _ & H). apply res_bind_Ok_inv in H as (? & _ & H).
  apply res_bind_Ok_inv in H as (? & _ & [= <- <- _]). eauto.
Qed.
End FaceParts.

Section FacePartsData.
Context `{K : Kernels}.

(** C14: [HMControlNet.forward] never compares the batch and frame axes of
    [face_parts] with the condition's: a [(b', f', p, 1024)] tensor with
    [b' * f' = b * f] is silently re-split into [b] videos of [f] frames
    and paired with the frames in that order. *)
Theorem HMControlNet_face_parts_regroup (net : HMControlNet.t K) (c dc fp : stensor)
        b x f h w b' f' p :
  shape c = [b; x; f; h; w] -> shape fp = [b'; f'; p; 1024] -> b' * f' = b * f ->
  HMControlNet.forward net c dc fp = HMControlNet.forward net c dc (mkT [b; f; p; 1024] (data fp)).
Proof.
  intros Hc Hfp Hbf. unfold HMControlNet.forward.
  destruct (forward_stem _ _ c) as [[[bs fr] e]|] eqn:Hs; cbn [res_bind]; [|done].
  destruct (forward_stem_dims _ _ _ _ _ _ Hs) as (? & ? & ? & Hc'). cbn in Hc'.
  rewrite Hc in Hc'. simplify_eq. by rewrite (exp_drive_embedding_face_regroup _ _ _ _ _ _ b' f' p).
Qed.
End FacePartsData.

(** ** Construction *)

Section Init.
Context `{K : Kernels}.

Lemma length_make_blocks w cad h boc : length (make_blocks w cad h boc) = length boc - 1.
Proof. unfold make_blocks. by rewrite length_map, length_seq. Qed.

(** C16: [__init__] builds [len(block_out_channels) - 1] fusion blocks;
    block [i] maps [block_out_channels[i]] channels to
    [block_out_channels[i+1]], attends with [cross_attention_dim], and
    takes the parameters stored under [blocks_down.i]. *)
Theorem make_blocks_spec (w : Weights K) cad h boc i :
  i < length boc - 1 ->
  exists b, make_blocks w cad h boc !! i = Some b
    /\ boc !! i = Some (sk_channel_in (sk_cfg b))
    /\ boc !! S i = Some (sk_channel_out (sk_cfg b))
    /\ sk_cross_attention_dim (sk_cfg b) = cad
    /\ sk_num_positional_embeddings_hidden (sk_cfg b) = h
    /\ sk_weight b = w_sk w (key_of "blocks_down." i).
Proof.
  intros Hi. unfold make_blocks. rewrite list_lookup_fmap, lookup_seq_lt by lia.
  eexists; split; [reflexivity|]; cbn.
  rewrite ?Nat.sub_0_r.
  repeat split; try done; apply lookup_nth_lt; lia.
Qed.

(** C18: [__init__] raises [IndexError] exactly when [block_out_channels]
    is empty ([block_out_channels[0]] at line 37). *)
Theorem HMControlNet_init_error (cfg : ControlNetConfig) (w : Weights K) :
  HMControlNet.init cfg w = Err IndexError <-> cfg_block_out_channels cfg = [].
Proof.
  unfold HMControlNet.init, list_getitem.
  destruct (cfg_block_out_channels cfg); simpl; split; congruence.
Qed.

Lemma HMControlNet_init_blocks cfg (w : Weights K) net :
  HMControlNet.init cfg w = Ok net ->
  HMControlNet.blocks_down net =
    make_blocks w (cfg_cross_attention_dim cfg) 64 (cfg_block_out_channels cfg).
Proof.
  unfold HMControlNet.init. intros H.
  apply res_bind_Ok_inv in H as (c0 & _ & H). by injection H as <-.
Qed.
End Init.

Section InitForward.
Context `{K : Kernels} {T : Type} `{!TensorOps T}.

(** C15: built by [__init__] and run, [HMControlNet] returns exactly
    [len(block_out_channels) - 1] outputs, [down_0] ... in order. *)
Theorem HMControlNet_outputs_count cfg (w : Weights K) net (c dc fp : T) d :
  HMControlNet.init cfg w = Ok net -> HMControlNet.forward net c dc fp = Ok d ->
  dict_keys d = map (key_of "down_") (seq 0 (length (cfg_block_out_channels cfg) - 1)).
Proof.
  intros Hi Hf. rewrite (HMControlNet_forward_keys _ _ _ _ _ Hf).
  by rewrite (HMControlNet_init_blocks _ _ _ Hi), length_make_blocks.
Qed.
End InitForward.

(** ** Examples on the reference instance *)

From Stdlib Require Import ZArith.

Section Examples.
#[local] Existing Instance int_kernels.

Definition ex_weights : Weights int_kernels :=
  {| w_conv := fun _ => tt; w_te := fun _ => tt; w_sk := fun _ => tt |}.

(** A small [HMControlNet]: one input channel, no downsampling,
    [cross_attention_dim = 2], block widths 1, 2, 3. *)
Definition ex_cfg : ControlNetConfig :=
  {| cfg_embedding_channels := 4; cfg_input_channels := 1; cfg_scale_factor := 1;
     cfg_cross_attention_dim := 2; cfg_block_out_channels := [1; 2; 3] |}.

Definition ex_net : HMControlNet.t int_kernels :=
  {| HMControlNet.scale_factor := 1; HMControlNet.embedding_channels := 4;
     HMControlNet.cross_attention_dim := 2;
     HMControlNet.conv_in := mk_conv ex_weights "conv_in" 1 1 3 1;
     HMControlNet.exp_embedding := mk_timesteps 2;
     HMControlNet.exp_proj := mk_te ex_weights "exp_proj" 2 2;
     HMControlNet.face_proj := mk_te ex_weights "face_proj" 1024 2;
     HMControlNet.blocks_down := make_blocks ex_weights 2 64 [1; 2; 3] |}.

Lemma ex_net_init : HMControlNet.init ex_cfg ex_weights = Ok ex_net.
Proof. reflexivity. Qed.

(** One video of two frames of 2x2 pixels, three expression coefficients
    and one face region per frame. *)
Definition ex_cond : stensor := mkT [1; 1; 2; 2; 2] (map Z.of_nat (seq 0 8)).
Definition ex_coeff : stensor := mkT [1; 2; 3] [1; 2; 3; 4; 5; 6]%Z.
Definition ex_face : stensor := mkT [1; 2; 1; 1024] (replicate 2048 1%Z).

Definition res_get {A} (d : A) (r : res A) : A := match r with Ok a => a | Err _ => d end.

Definition ex_out : pydict stensor := res_get [] (HMControlNet.forward ex_net ex_cond ex_coeff ex_face).

Lemma ex_forward : HMControlNet.forward ex_net ex_cond ex_coeff ex_face = Ok ex_out.
Proof. vm_compute. reflexivity. Qed.

Lemma HMControlNet_outputs_count_witness :
  dict_keys ex_out = map (key_of "down_") (seq 0 (length (cfg_block_out_channels ex_cfg) - 1)).
Proof.
  exact (HMControlNet_outputs_count ex_cfg ex_weights ex_net ex_cond ex_coeff ex_face ex_out
           ex_net_init ex_forward).
Defined.

Lemma make_blocks_spec_witness :
  1 < length [1; 2; 3] - 1 /\
  exists b, make_blocks ex_weights 2 64 [1; 2; 3] !! 1 = Some b
    /\ [1; 2; 3] !! 1 = Some (sk_channel_in (sk_cfg b))
    /\ [1; 2; 3] !! 2 = Some (sk_channel_out (sk_cfg b))
    /\ sk_cross_attention_dim (sk_cfg b) = 2
    /\ sk_num_positional_embeddings_hidden (sk_cfg b) = 64
    /\ sk_weight b = w_sk ex_weights (key_of "blocks_down." 1).
Proof. split; [simpl; lia | apply make_blocks_spec; simpl; lia]. Defined.
(** The same configuration for the other three classes; their
    [__init__] differ from [HMControlNet]'s only in the heads they build
    and the hidden positional embeddings of the blocks. *)
Definition ex_net2 : HMControlNet2.t int_kernels :=
  {| HMControlNet2.scale_factor := 1; HMControlNet2.embedding_channels := 4;
     HMControlNet2.cross_attention_dim := 2;
     HMControlNet2.conv_in := mk_conv ex_weights "conv_in" 1 1 3 1;
     HMControlNet2.exp_embedding := mk_timesteps 2;
     HMControlNet2.emo_proj := mk_te ex_weights "emo_proj" 2 2;
     HMControlNet2.blocks_down := make_blocks ex_weights 2 1024 [1; 2; 3] |}.

Definition ex_v2_net : HMV2ControlNet.t int_kernels :=
  {| HMV2ControlNet.scale_factor := 1; HMV2ControlNet.embedding_channels := 4;
     HMV2ControlNet.cross_attention_dim := 2;
     HMV2ControlNet.conv_in := mk_conv ex_weights "conv_in" 1 1 3 1;
     HMV2ControlNet.exp_embedding := mk_timesteps 2;
     HMV2ControlNet.exp_proj := mk_te ex_weights "exp_proj" 2 2;
     HMV2ControlNet.face_proj := mk_te ex_weights "face_proj" 1024 2;
     HMV2ControlNet.blocks_down := make_blocks ex_weights 2 1024 [1; 2; 3] |}.

Definition ex_v2_net2 : HMV2ControlNet2.t int_kernels :=
  {| HMV2ControlNet2.scale_factor := 1; HMV2ControlNet2.embedding_channels := 4;
     HMV2ControlNet2.cross_attention_dim := 2;
     HMV2ControlNet2.conv_in := mk_conv ex_weights "conv_in" 1 1 3 1;
     HMV2ControlNet2.exp_embedding := mk_timesteps 2;
     HMV2ControlNet2.emo_proj := mk_te ex_weights "emo_proj" 2 2;
     HMV2ControlNet2.blocks_down := make_blocks ex_weights 2 1024 [1; 2; 3] |}.

Lemma ex_inits :
  HMControlNet2.init ex_cfg ex_weights = Ok ex_net2 /\
  HMV2ControlNet.init ex_cfg ex_weights = Ok ex_v2_net /\
  HMV2ControlNet2.init ex_cfg ex_weights = Ok ex_v2_net2.
Proof. repeat split. Qed.

Definition ex_v2_out : pydict stensor :=
  res_get [] (HMV2ControlNet.forward ex_v2_net ex_cond ex_coeff ex_face).

Lemma ex_v2_forward : HMV2ControlNet.forward ex_v2_net ex_cond ex_coeff ex_face = Ok ex_v2_out.
Proof. vm_compute. reflexivity. Qed.

Lemma ex_shapes :
  has_shape ex_cond [1; 1; 2; 2; 2] /\ has_shape ex_coeff [1; 2; 3]
  /\ has_shape ex_face [1; 2; 1; 1024].
Proof. repeat split; vm_compute; reflexivity. Qed.

Lemma HMV2ControlNet_forward_keys_witness :
  dict_keys ex_v2_out = rev (map (key_of "up_v2_") (seq 0 (length (HMV2ControlNet.blocks_down ex_v2_net)))).
Proof. exact (HMV2ControlNet_forward_keys ex_v2_net ex_cond ex_coeff ex_face ex_v2_out ex_v2_forward). Defined.

(** The face parts of the two frames given as two videos of one frame. *)
Definition ex_face_swapped : stensor := mkT [2; 1; 1; 1024] (replicate 2048 1%Z).

Lemma HMControlNet_face_parts_regroup_witness :
  HMControlNet.forward ex_net ex_cond ex_coeff ex_face_swapped
  = HMControlNet.forward ex_net ex_cond ex_coeff (mkT [1; 2; 1; 1024] (data ex_face_swapped)).
Proof. apply (HMControlNet_face_parts_regroup _ _ _ _ 1 1 2 2 2 2 1 1); reflexivity. Defined.
End Examples.
