(* ===== verification/Shapes.v ===== *)
(** * Output shapes of the four [blocks_down] networks

    Spec section 8 asks that every variant, on a condition of shape
    [(B, C, F, H, W)], return tensors of shape [(B, C', F, H'', W'')]: the
    frame axis restored exactly and the widths of the stages.  This file
    proves it for [HMControlNet], [HMControlNet2], [HMV2ControlNet] and
    [HMV2ControlNet2] (src/hellomeme/models/hm_control.py lines 57-88,
    123-146, 182-213, 341-364): on the shape semantics the forward of a
    network built by [__init__] returns exactly [stage_shapes] (one entry
    per block, in key order), and by the refinement of [Interp] the tensor
    forward succeeds with well-formed tensors of those shapes.
    [blocks_chain] and [sk_chain_ok] state the agreement of consecutive
    fusion blocks and the blocks' own shape condition; [forward_pipeline_shape]
    is the common skeleton of the four forwards. *)

From S2P Require Import Prelude Layout PyDict Tensor Torch Interp Embedding ControlNet.
From stdpp Require Import strings.
Local Open Scope res_scope.

(** ** Output shapes

    What the spec's section 8 promises: on inputs of the documented shapes
    every stage's output has the batch and frame axes of the condition,
    the stage's channel width, and the spatial size the fusion blocks
    produce.  [blocks_chain] is the channel and attention-width agreement
    of consecutive blocks (always true for blocks built by [__init__]),
    [sk_chain_ok] the fusion blocks' own shape condition along the chain,
    and [stage_shapes] the dict of output shapes the loop builds. *)

Section Shapes.
Context `{K : Kernels}.

Fixpoint blocks_chain (blocks : list (SKCrossAttention K)) (c d : nat) : bool :=
  match blocks with
  | [] => true
  | blk :: rest =>
      (sk_channel_in (sk_cfg blk) =? c) && (sk_cross_attention_dim (sk_cfg blk) =? d)
      && blocks_chain rest (sk_channel_out (sk_cfg blk)) d
  end.

Fixpoint sk_chain_ok (blocks : list (SKCrossAttention K)) (h w L : nat) : bool :=
  match blocks with
  | [] => true
  | blk :: rest =>
      sk_ok (sk_cfg blk) h w L
      && sk_chain_ok rest (sk_hw (sk_cfg blk) h w).1 (sk_hw (sk_cfg blk) h w).2 L
  end.

Fixpoint stage_shapes (key : nat -> string) (b f : nat) (blocks : list (SKCrossAttention K))
         (idx h w : nat) : pydict (list nat) :=
  match blocks with
  | [] => []
  | blk :: rest =>
      let hw := sk_hw (sk_cfg blk) h w in
      (key idx, [b; sk_channel_out (sk_cfg blk); f; hw.1; hw.2])
        :: stage_shapes key b f rest (S idx) hw.1 hw.2
  end.

Lemma stage_shapes_keys key b f blocks idx h w :
  dict_keys (stage_shapes key b f blocks idx h w) = map key (seq idx (length blocks)).
Proof.
  revert idx h w. induction blocks as [|blk rest IH]; intros; [done|].
  cbn. f_equal. apply IH.
Qed.

(** The stem on a condition [(b, cin, f, h, w)]: the frames folded into
    the batch, resized to [(h // sf, w // sf)] and convolved to [c0]
    channels (kernel 3, padding 1 keep the size). *)
Lemma forward_stem_shape sf (conv : Conv2d K) b cin f h w c0 :
  conv_cfg conv = {| conv_in_channels := cin; conv_out_channels := c0;
                     conv_kernel_size := 3; conv_padding := 1 |} ->
  0 < sf -> 0 < cin -> 0 < h / sf -> 0 < w / sf ->
  forward_stem (T:=list nat) sf conv [b; cin; f; h; w] = Ok (b, f, [b * f; c0; h / sf; w / sf]).
Proof.
  intros Hc Hsf Hcin Hh Hw. pose proof (div_pos_num _ _ Hh). pose proof (div_pos_num _ _ Hw).
  unfold forward_stem, py_floordiv. cbn -[Nat.mul Nat.div Nat.modulo].
  rewrite Hc. shape_simpl. unfold conv_out_dim. repeat f_equal; lia.
Qed.

(** The fusion loop on shapes: with [f > 0] and the blocks agreeing, it
    assigns the stage shapes in order. *)
Lemma run_blocks_shape key f blocks idx b c d h w L d0 :
  0 < f -> blocks_chain blocks c d = true -> sk_chain_ok blocks h w L = true ->
  run_blocks (T:=list nat) key f blocks idx [b * f; c; h; w] [b * f; L; d] d0
  = Ok (foldl (fun acc kv => dict_set kv.1 kv.2 acc) d0 (stage_shapes key b f blocks idx h w)).
Proof.
  revert idx c h w d0. induction blocks as [|blk rest IH]; intros idx c h w d0 Hf Hc Hs; [done|].
  cbn [blocks_chain sk_chain_ok] in Hc, Hs.
  apply andb_prop in Hc as [[Hin Hd]%andb_prop Hc]. apply andb_prop in Hs as [Hok Hs].
  apply Nat.eqb_eq in Hin, Hd.
  cbn -[Nat.mul Nat.div Nat.modulo Nat.leb]. rewrite Hin, Hd, Hok. shape_simpl.
  by apply IH.
Qed.

(** Blocks built by [__init__] agree in channels and attention width. *)
Lemma make_blocks_chain (w : Weights K) cad hd boc :
  blocks_chain (make_blocks w cad hd boc) (nth 0 boc 0) cad = true.
Proof.
  unfold make_blocks. generalize (length boc - 1) as n. intros n.
  cut (forall s, blocks_chain (map (make_block w cad hd boc) (seq (S s) n)) (nth s boc 0) cad = true);
    [intros H; apply (H 0)|].
  induction n as [|n IH]; intros s; [done|].
  cbn [seq map blocks_chain make_block sk_cfg sk_channel_in sk_channel_out sk_cross_attention_dim].
  replace (S s - 1) with s by lia. rewrite !Nat.eqb_refl. apply IH.
Qed.

(** The shape of every forward of the file: the stem, a driving embedding
    [E bs video_length] of [L] tokens of width [d], and the fusion loop
    from an empty dict with pairwise different keys. *)
Lemma forward_pipeline_shape sf (conv : Conv2d K) (E : nat -> nat -> res (list nat))
      key blocks b cin f h w c0 L d :
  conv_cfg conv = {| conv_in_channels := cin; conv_out_channels := c0;
                     conv_kernel_size := 3; conv_padding := 1 |} ->
  0 < f -> 0 < cin -> 0 < h / sf -> 0 < w / sf ->
  E b f = Ok [b * f; L; d] ->
  blocks_chain blocks c0 d = true -> sk_chain_ok blocks (h / sf) (w / sf) L = true ->
  NoDup (map key (seq 0 (length blocks))) ->
  (stem <- forward_stem sf conv [b; cin; f; h; w] ;;
   let '(bs, video_length, embedding) := stem in
   drive_embedding <- E bs video_length ;;
   run_blocks key video_length blocks 0 embedding drive_embedding [])
  = Ok (stage_shapes key b f blocks 0 (h / sf) (w / sf)).
Proof.
  intros Hc Hf Hcin Hh Hw HE Hch Hs Hk.
  rewrite (forward_stem_shape sf conv b cin f h w c0) by (done || eapply div_pos_den; eauto).
  cbn [res_bind]. rewrite HE. cbn [res_bind]. rewrite (run_blocks_shape _ _ _ _ _ c0 d) by done.
  rewrite foldl_dict_set_fresh; [done|]. by rewrite app_nil_l, stage_shapes_keys.
Qed.

(** [init_shape_tac] opens a network built by [__init__] from a non-empty
    [block_out_channels] and reduces to [forward_pipeline_shape]. *)
Tactic Notation "init_shape_tac" reference(init) reference(fwd) :=
  unfold init, list_getitem; intros Hi ? ? ? ? ? ?;
  destruct (cfg_block_out_channels _) as [|c0 rest] eqn:Hboc; [done|];
  injection Hi as <-; unfold fwd;
  cbn -[forward_stem run_blocks exp_drive_embedding emo_drive_embedding make_blocks] in *;
  eapply forward_pipeline_shape;
  [ done | done | done | done | done
  | try apply exp_drive_embedding_shape; try apply emo_drive_embedding_shape; done
  | apply (make_blocks_chain _ _ _ (c0 :: rest)) | done | ].

(** [HMControlNet] on shapes: built by [__init__] and given a condition
    [(b, input_channels, f, h, w)], [k] expression coefficients and [p]
    face regions of 1024 features per frame, the forward returns one
    [(b, c_i, f, h_i, w_i)] entry per stage. *)
Lemma HMControlNet_forward_shape cfg (wt : Weights K) net b f h w k p :
  HMControlNet.init cfg wt = Ok net ->
  0 < b -> 0 < f -> 0 < cfg_input_channels cfg ->
  0 < h / cfg_scale_factor cfg -> 0 < w / cfg_scale_factor cfg ->
  sk_chain_ok (HMControlNet.blocks_down net)
    (h / cfg_scale_factor cfg) (w / cfg_scale_factor cfg) (p + k) = true ->
  HMControlNet.forward (T:=list nat) net [b; cfg_input_channels cfg; f; h; w] [b; f; k] [b; f; p; 1024]
  = Ok (stage_shapes (key_of "down_") b f (HMControlNet.blocks_down net) 0
          (h / cfg_scale_factor cfg) (w / cfg_scale_factor cfg)).
Proof. init_shape_tac HMControlNet.init HMControlNet.forward. apply key_of_NoDup. Qed.

Lemma HMControlNet2_forward_shape cfg (wt : Weights K) net b f h w k :
  HMControlNet2.init cfg wt = Ok net ->
  0 < b -> 0 < f -> 0 < cfg_input_channels cfg ->
  0 < h / cfg_scale_factor cfg -> 0 < w / cfg_scale_factor cfg ->
  sk_chain_ok (HMControlNet2.blocks_down net)
    (h / cfg_scale_factor cfg) (w / cfg_scale_factor cfg) k = true ->
  HMControlNet2.forward (T:=list nat) net [b; cfg_input_channels cfg; f; h; w] [b; f; k]
  = Ok (stage_shapes (key_of "down2_") b f (HMControlNet2.blocks_down net) 0
          (h / cfg_scale_factor cfg) (w / cfg_scale_factor cfg)).
Proof. init_shape_tac HMControlNet2.init HMControlNet2.forward. apply key_of_NoDup. Qed.

Lemma HMV2ControlNet_forward_shape cfg (wt : Weights K) net b f h w k p :
  HMV2ControlNet.init cfg wt = Ok net ->
  0 < b -> 0 < f -> 0 < cfg_input_channels cfg ->
  0 < h / cfg_scale_factor cfg -> 0 < w / cfg_scale_factor cfg ->
  sk_chain_ok (HMV2ControlNet.blocks_down net)
    (h / cfg_scale_factor cfg) (w / cfg_scale_factor cfg) (p + k) = true ->
  HMV2ControlNet.forward (T:=list nat) net [b; cfg_input_channels cfg; f; h; w] [b; f; k]
    [b; f; p; 1024]
  = Ok (stage_shapes (fun idx => key_of "up_v2_" (length (HMV2ControlNet.blocks_down net) - idx - 1))
          b f (HMV2ControlNet.blocks_down net) 0
          (h / cfg_scale_factor cfg) (w / cfg_scale_factor cfg)).
Proof. init_shape_tac HMV2ControlNet.init HMV2ControlNet.forward. apply key_of_rev_NoDup. Qed.

Lemma HMV2ControlNet2_forward_shape cfg (wt : Weights K) net b f h w k :
  HMV2ControlNet2.init cfg wt = Ok net ->
  0 < b -> 0 < f -> 0 < cfg_input_channels cfg ->
  0 < h / cfg_scale_factor cfg -> 0 < w / cfg_scale_factor cfg ->
  sk_chain_ok (HMV2ControlNet2.blocks_down net)
    (h / cfg_scale_factor cfg) (w / cfg_scale_factor cfg) k = true ->
  HMV2ControlNet2.forward (T:=list nat) net [b; cfg_input_channels cfg; f; h; w] [b; f; k]
  = Ok (stage_shapes (fun idx => key_of "up2_v2_" (length (HMV2ControlNet2.blocks_down net) - idx - 1))
          b f (HMV2ControlNet2.blocks_down net) 0
          (h / cfg_scale_factor cfg) (w / cfg_scale_factor cfg)).
Proof. init_shape_tac HMV2ControlNet2.init HMV2ControlNet2.forward. apply key_of_rev_NoDup. Qed.
End Shapes.

Section OutputShapes.
Context `{K : Kernels}.

(** A tensor computation simulated by a shape computation that succeeds
    succeeds, with tensors of those shapes. *)
Lemma output_shapes_of (m : res (pydict stensor)) (ms : res (pydict (list nat))) s :
  res_rel (dict_rel has_shape) m ms -> ms = Ok s -> exists d, m = Ok d /\ dict_rel has_shape d s.
Proof. intros H ->. by apply res_rel_Ok_inv. Qed.

(** C1: The forward of an [HMControlNet] built by [__init__], on tensors of
    the documented shapes (condition [(b, input_channels, f, h, w)], [k]
    coefficients and [p] face regions of 1024 features per frame, [b] and
    [f] positive, a non-empty resized frame), succeeds whenever the fusion
    blocks accept their inputs, and returns the keys [down_0], [down_1],
    ... holding well-formed tensors of shape [(b, c_i, f, h_i, w_i)]: the
    batch and frame axes of the condition, the width
    [block_out_channels[i+1]] of the stage, and the spatial size the
    blocks produce from [(h // scale_factor, w // scale_factor)]. *)
Theorem HMControlNet_forward_output_shapes cfg (wt : Weights K) net (c dc fp : stensor) b f h w k p :
  HMControlNet.init cfg wt = Ok net ->
  has_shape c [b; cfg_input_channels cfg; f; h; w] -> has_shape dc [b; f; k] ->
  has_shape fp [b; f; p; 1024] ->
  0 < b -> 0 < f -> 0 < cfg_input_channels cfg ->
  0 < h / cfg_scale_factor cfg -> 0 < w / cfg_scale_factor cfg ->
  sk_chain_ok (HMControlNet.blocks_down net)
    (h / cfg_scale_factor cfg) (w / cfg_scale_factor cfg) (p + k) = true ->
  exists d, HMControlNet.forward net c dc fp = Ok d /\
    dict_rel has_shape d (stage_shapes (key_of "down_") b f (HMControlNet.blocks_down net) 0
                            (h / cfg_scale_factor cfg) (w / cfg_scale_factor cfg)).
Proof.
  intros Hi **. eapply output_shapes_of; [| by apply (HMControlNet_forward_shape cfg wt net b f h w k p)].
  unfold HMControlNet.forward. fwd_rel.
Qed.

(** C23: The same for [HMControlNet2] with [k] emotion coefficients per frame:
    keys [down2_0], [down2_1], .... *)
Theorem HMControlNet2_forward_output_shapes cfg (wt : Weights K) net (c e : stensor) b f h w k :
  HMControlNet2.init cfg wt = Ok net ->
  has_shape c [b; cfg_input_channels cfg; f; h; w] -> has_shape e [b; f; k] ->
  0 < b -> 0 < f -> 0 < cfg_input_channels cfg ->
  0 < h / cfg_scale_factor cfg -> 0 < w / cfg_scale_factor cfg ->
  sk_chain_ok (HMControlNet2.blocks_down net)
    (h / cfg_scale_factor cfg) (w / cfg_scale_factor cfg) k = true ->
  exists d, HMControlNet2.forward net c e = Ok d /\
    dict_rel has_shape d (stage_shapes (key_of "down2_") b f (HMControlNet2.blocks_down net) 0
                            (h / cfg_scale_factor cfg) (w / cfg_scale_factor cfg)).
Proof.
  intros Hi **. eapply output_shapes_of; [| by apply (HMControlNet2_forward_shape cfg wt net b f h w k)].
  unfold HMControlNet2.forward. fwd_rel.
Qed.

(** C20: The same for [HMV2ControlNet]: stage [idx] under [up_v2_{n-idx-1}]. *)
Theorem HMV2ControlNet_forward_output_shapes cfg (wt : Weights K) net (c dc fp : stensor) b f h w k p :
  HMV2ControlNet.init cfg wt = Ok net ->
  has_shape c [b; cfg_input_channels cfg; f; h; w] -> has_shape dc [b; f; k] ->
  has_shape fp [b; f; p; 1024] ->
  0 < b -> 0 < f -> 0 < cfg_input_channels cfg ->
  0 < h / cfg_scale_factor cfg -> 0 < w / cfg_scale_factor cfg ->
  sk_chain_ok (HMV2ControlNet.blocks_down net)
    (h / cfg_scale_factor cfg) (w / cfg_scale_factor cfg) (p + k) = true ->
  exists d, HMV2ControlNet.forward net c dc fp = Ok d /\
    dict_rel has_shape d
      (stage_shapes (fun idx => key_of "up_v2_" (length (HMV2ControlNet.blocks_down net) - idx - 1))
         b f (HMV2ControlNet.blocks_down net) 0
         (h / cfg_scale_factor cfg) (w / cfg_scale_factor cfg)).
Proof.
  intros Hi **. eapply output_shapes_of; [| by apply (HMV2ControlNet_forward_shape cfg wt net b f h w k p)].
  unfold HMV2ControlNet.forward. fwd_rel.
Qed.

(** C24: The same for [HMV2ControlNet2]: stage [idx] under [up2_v2_{n-idx-1}]. *)
Theorem HMV2ControlNet2_forward_output_shapes cfg (wt : Weights K) net (c e : stensor) b f h w k :
  HMV2ControlNet2.init cfg wt = Ok net ->
  has_shape c [b; cfg_input_channels cfg; f; h; w] -> has_shape e [b; f; k] ->
  0 < b -> 0 < f -> 0 < cfg_input_channels cfg ->
  0 < h / cfg_scale_factor cfg -> 0 < w / cfg_scale_factor cfg ->
  sk_chain_ok (HMV2ControlNet2.blocks_down net)
    (h / cfg_scale_factor cfg) (w / cfg_scale_factor cfg) k = true ->
  exists d, HMV2ControlNet2.forward net c e = Ok d /\
    dict_rel has_shape d
      (stage_shapes (fun idx => key_of "up2_v2_" (length (HMV2ControlNet2.blocks_down net) - idx - 1))
         b f (HMV2ControlNet2.blocks_down net) 0
         (h / cfg_scale_factor cfg) (w / cfg_scale_factor cfg)).
Proof.
  intros Hi **. eapply output_shapes_of; [| by apply (HMV2ControlNet2_forward_shape cfg wt net b f h w k)].
  unfold HMV2ControlNet2.forward. fwd_rel.
Qed.
End OutputShapes.

(** ** Examples on the reference instance *)

From Stdlib Require Import ZArith.

Section Examples.
#[local] Existing Instance int_kernels.

Lemma HMControlNet_forward_output_shapes_witness :
  exists d, HMControlNet.forward ex_net ex_cond ex_coeff ex_face = Ok d /\
    dict_rel has_shape d (stage_shapes (key_of "down_") 1 2 (HMControlNet.blocks_down ex_net) 0
                            (2 / 1) (2 / 1)).
Proof.
  apply (HMControlNet_forward_output_shapes ex_cfg ex_weights ex_net ex_cond ex_coeff ex_face
           1 2 2 2 3 1);
    first [reflexivity | split; vm_compute; reflexivity | simpl; lia].
Defined.
Lemma HMControlNet2_forward_output_shapes_witness :
  exists d, HMControlNet2.forward ex_net2 ex_cond ex_coeff = Ok d /\
    dict_rel has_shape d (stage_shapes (key_of "down2_") 1 2 (HMControlNet2.blocks_down ex_net2) 0
                            (2 / 1) (2 / 1)).
Proof.
  apply (HMControlNet2_forward_output_shapes ex_cfg ex_weights ex_net2 ex_cond ex_coeff 1 2 2 2 3);
    first [reflexivity | split; vm_compute; reflexivity | simpl; lia].
Defined.

Lemma HMV2ControlNet_forward_output_shapes_witness :
  exists d, HMV2ControlNet.forward ex_v2_net ex_cond ex_coeff ex_face = Ok d /\
    dict_rel has_shape d
      (stage_shapes (fun idx => key_of "up_v2_" (length (HMV2ControlNet.blocks_down ex_v2_net) - idx - 1))
         1 2 (HMV2ControlNet.blocks_down ex_v2_net) 0 (2 / 1) (2 / 1)).
Proof.
  apply (HMV2ControlNet_forward_output_shapes ex_cfg ex_weights ex_v2_net ex_cond ex_coeff ex_face
           1 2 2 2 3 1);
    first [reflexivity | split; vm_compute; reflexivity | simpl; lia].
Defined.

Lemma HMV2ControlNet2_forward_output_shapes_witness :
  exists d, HMV2ControlNet2.forward ex_v2_net2 ex_cond ex_coeff = Ok d /\
    dict_rel has_shape d
      (stage_shapes (fun idx => key_of "up2_v2_" (length (HMV2ControlNet2.blocks_down ex_v2_net2) - idx - 1))
         1 2 (HMV2ControlNet2.blocks_down ex_v2_net2) 0 (2 / 1) (2 / 1)).
Proof.
  apply (HMV2ControlNet2_forward_output_shapes ex_cfg ex_weights ex_v2_net2 ex_cond ex_coeff
           1 2 2 2 3);
    first [reflexivity | split; vm_compute; reflexivity | simpl; lia].
Defined.
End Examples.
