(* ===== verification/V3.v ===== *)
(** * HMV3ControlNet: dispatch, cross-wired outputs and aliasing

    [HMV3ControlNet] (src/hellomeme/models/hm_control.py, lines 216-305)
    owns the sub-modules of both driving paths.  [forward] takes three
    optional driving inputs: when [drive_coeff] or [face_parts] is [None]
    (line 264) it embeds [emo_embedding] (which raises [TypeError] if it is
    [None] too), otherwise it uses the expression path.  Its output loop
    stores stage [idx] under [up3_{n - idx - 1}]; the stages with
    [up_idx = 2] and [up_idx = 1] also go through the 1x1 convolutions
    [conv_up2_down0] / [conv_up1_down1] into [down3_0] / [down3_1], and the
    last stage's object is stored again, as the same object, under
    [down3_2] and [down3_3].  Dict values are references ([pyref]) so that
    this aliasing is visible. *)

From S2P Require Import Prelude Layout PyDict Tensor Torch Interp Embedding ControlNet.
From stdpp Require Import strings.
Local Open Scope res_scope.

Module HMV3ControlNet.
Section State.
Context `{K : Kernels}.

(** The attributes set by [__init__] (lines 225-252). *)
Record t := {
  scale_factor : nat; embedding_channels : nat; cross_attention_dim : nat;
  conv_in : Conv2d K; conv_up2_down0 : Conv2d K; conv_up1_down1 : Conv2d K;
  emo_embedding : TimestepsCfg; exp_embedding : TimestepsCfg;
  exp_proj : TimestepEmbedding K; face_proj : TimestepEmbedding K;
  emo_proj : TimestepEmbedding K;
  blocks_down : list (SKCrossAttention K) }.

(** Lines 217-252. *)
Definition init (cfg : ControlNetConfig) (w : Weights K) : res t :=
  c0 <- list_getitem (cfg_block_out_channels cfg) 0 ;;
  let cad := cfg_cross_attention_dim cfg in
  Ok {| scale_factor := cfg_scale_factor cfg;
        embedding_channels := cfg_embedding_channels cfg;
        cross_attention_dim := cad;
        conv_in := mk_conv w "conv_in" (cfg_input_channels cfg) c0 3 1;
        conv_up2_down0 := mk_conv w "conv_up2_down0" 1280 320 1 0;
        conv_up1_down1 := mk_conv w "conv_up1_down1" 1280 640 1 0;
        emo_embedding := mk_timesteps cad;
        exp_embedding := mk_timesteps cad;
        exp_proj := mk_te w "exp_proj" cad cad;
        face_proj := mk_te w "face_proj" 1024 cad;
        emo_proj := mk_te w "emo_proj" cad cad;
        blocks_down := make_blocks w cad 1024 (cfg_block_out_channels cfg) |}.
End State.
Arguments t : clear implicits.

Section Fwd.
Context `{K : Kernels} {T : Type} `{!TensorOps T}.

(** [x * 20.] with [x = None] raises [TypeError]. *)
Definition not_none (x : option T) : res T :=
  match x with Some v => Ok v | None => Err TypeError end.

(** Lines 264-285: the driving embedding, by the branch the optional
    arguments select. *)
Definition drive_embedding_of (net : t K) (bs fr : nat)
           (drive_coeff face_parts emo : option T) : res T :=
  match drive_coeff, face_parts with
  | Some dc, Some fp =>
      exp_drive_embedding (exp_embedding net) (face_proj net) (exp_proj net)
                          (cross_attention_dim net) bs fr dc fp
  | _, _ =>
      e <- not_none emo ;;
      emo_drive_embedding (emo_embedding net) (emo_proj net)
                          (cross_attention_dim net) bs fr e
  end.

(** Lines 290-304: what one stage stores, given the block's output
    [embedding] and [up_idx = len(self.blocks_down) - idx - 1]. *)
Definition stage3 (up_idx video_length : nat) (up2 up1 : Conv2d K) (embedding : T)
           (st : store T) : res (store T) :=
  out <- ops_from_frames_batch video_length embedding ;;
  let st := py_store_new (key_of "up3_" up_idx) out st in
  st <- (if up_idx =? 2 then
           o <- ops_conv2d up2 embedding ;;
           o <- ops_from_frames_batch video_length o ;;
           Ok (py_store_new "down3_0" o st)
         else Ok st) ;;
  st <- (if up_idx =? 1 then
           o <- ops_conv2d up1 embedding ;;
           o <- ops_from_frames_batch video_length o ;;
           Ok (py_store_new "down3_1" o st)
         else Ok st) ;;
  if up_idx =? 0 then
    st <- py_store_alias "down3_2" "up3_0" st ;;
    py_store_alias "down3_3" "up3_0" st
  else Ok st.

(** Lines 287-304; [n] is [len(self.blocks_down)]. *)
Fixpoint run_blocks3 (n video_length : nat) (up2 up1 : Conv2d K)
         (blocks : list (SKCrossAttention K)) (idx : nat) (embedding drive_embedding : T)
         (st : store T) : res (store T) :=
  match blocks with
  | [] => Ok st
  | block :: rest =>
      embedding <- ops_sk block embedding drive_embedding ;;
      st <- stage3 (n - idx - 1) video_length up2 up1 embedding st ;;
      run_blocks3 n video_length up2 up1 rest (S idx) embedding drive_embedding st
  end.

(** Lines 254-305. *)
Definition forward (net : t K) (condition : T) (drive_coeff face_parts emo : option T)
  : res (pydict (pyref T)) :=
  stem <- forward_stem (scale_factor net) (conv_in net) condition ;;
  let '(bs, video_length, embedding) := stem in
  drive_embedding <- drive_embedding_of net bs video_length drive_coeff face_parts emo ;;
  st <- run_blocks3 (length (blocks_down net)) video_length (conv_up2_down0 net)
                    (conv_up1_down1 net) (blocks_down net) 0 embedding drive_embedding ([], 0) ;;
  Ok st.1.
End Fwd.
End HMV3ControlNet.

(** ** Dispatch: the two driving paths use disjoint parameters *)

Section Dispatch.
Context `{K : Kernels} {T : Type} `{!TensorOps T}.

(** What the emotion path reads of the network, and what the expression
    path reads. *)
Definition emo_view (net : HMV3ControlNet.t K) :=
  (HMV3ControlNet.scale_factor net, HMV3ControlNet.cross_attention_dim net,
   HMV3ControlNet.conv_in net, HMV3ControlNet.conv_up2_down0 net,
   HMV3ControlNet.conv_up1_down1 net, HMV3ControlNet.blocks_down net,
   HMV3ControlNet.emo_embedding net, HMV3ControlNet.emo_proj net).

Definition exp_view (net : HMV3ControlNet.t K) :=
  (HMV3ControlNet.scale_factor net, HMV3ControlNet.cross_attention_dim net,
   HMV3ControlNet.conv_in net, HMV3ControlNet.conv_up2_down0 net,
   HMV3ControlNet.conv_up1_down1 net, HMV3ControlNet.blocks_down net,
   HMV3ControlNet.exp_embedding net, HMV3ControlNet.face_proj net,
   HMV3ControlNet.exp_proj net).

Lemma forward_drive_congr (net net' : HMV3ControlNet.t K) c dc fp e dc' fp' e' :
  HMV3ControlNet.scale_factor net = HMV3ControlNet.scale_factor net' ->
  HMV3ControlNet.conv_in net = HMV3ControlNet.conv_in net' ->
  HMV3ControlNet.conv_up2_down0 net = HMV3ControlNet.conv_up2_down0 net' ->
  HMV3ControlNet.conv_up1_down1 net = HMV3ControlNet.conv_up1_down1 net' ->
  HMV3ControlNet.blocks_down net = HMV3ControlNet.blocks_down net' ->
  (forall bs fr, HMV3ControlNet.drive_embedding_of net bs fr dc fp e
                 = HMV3ControlNet.drive_embedding_of net' bs fr dc' fp' e') ->
  HMV3ControlNet.forward net c dc fp e = HMV3ControlNet.forward net' c dc' fp' e'.
Proof.
  intros H1 H2 H3 H4 H5 Hd. unfold HMV3ControlNet.forward.
  rewrite H1, H2, H3, H4, H5. destruct (forward_stem _ _ c) as [[[bs fr] emb]|]; [|done].
  cbn [res_bind]. by rewrite Hd.
Qed.

Lemma drive_embedding_of_emo (net : HMV3ControlNet.t K) bs fr dc fp (e : option T) :
  (dc = None \/ fp = None) ->
  HMV3ControlNet.drive_embedding_of net bs fr dc fp e =
    (e0 <- HMV3ControlNet.not_none e ;;
     emo_drive_embedding (HMV3ControlNet.emo_embedding net) (HMV3ControlNet.emo_proj net)
                         (HMV3ControlNet.cross_attention_dim net) bs fr e0).
Proof. by intros [-> | ->]; [|destruct dc]. Qed.

(** C9: when [drive_coeff] or [face_parts] is [None], the forward reads
    only the emotion-path modules: networks that agree on them, called
    with any other [None]-pattern of the expression inputs, give the same
    result (the expression modules [exp_embedding], [face_proj],
    [exp_proj] and the present expression input are never used). *)
Theorem V3_emo_branch_independent (net net' : HMV3ControlNet.t K) c dc fp dc' fp' e :
  emo_view net = emo_view net' ->
  (dc = None \/ fp = None) -> (dc' = None \/ fp' = None) ->
  HMV3ControlNet.forward net c dc fp e = HMV3ControlNet.forward net' c dc' fp' e.
Proof.
  destruct net, net'. unfold emo_view. simpl. intros Hv Hn Hn'. simplify_eq.
  apply forward_drive_congr; try done.
  intros bs fr. by rewrite !drive_embedding_of_emo.
Qed.

(** C22: with both expression inputs present, the forward
    reads only the expression-path modules and ignores [emo_embedding]
    (the argument and the module) and [emo_proj]. *)
Theorem V3_exp_branch_independent (net net' : HMV3ControlNet.t K) c dc fp e e' :
  exp_view net = exp_view net' ->
  HMV3ControlNet.forward net c (Some dc) (Some fp) e
  = HMV3ControlNet.forward net' c (Some dc) (Some fp) e'.
Proof.
  destruct net, net'. unfold exp_view. simpl. intros Hv. simplify_eq.
  by apply forward_drive_congr.
Qed.

(** C17: in the emotion branch a missing [emo_embedding] raises
    [TypeError] ([None * 20.], line 265), once the stem has run. *)
Theorem V3_missing_emo_error (net : HMV3ControlNet.t K) c dc fp bs fr emb :
  forward_stem (HMV3ControlNet.scale_factor net) (HMV3ControlNet.conv_in net) c
    = Ok (bs, fr, emb) ->
  (dc = None \/ fp = None) ->
  HMV3ControlNet.forward net c dc fp None = Err TypeError.
Proof.
  intros Hs Hn. unfold HMV3ControlNet.forward. rewrite Hs. cbn [res_bind].
  unfold HMV3ControlNet.drive_embedding_of.
  by destruct Hn as [-> | ->]; [|destruct dc].
Qed.
End Dispatch.

(** ** Object identity: the aliases and nothing else *)

Definition alias_keys : list string := ["up3_0"; "down3_2"; "down3_3"].

Lemma key_up3_0 : key_of "up3_" 0 = "up3_0".
Proof. reflexivity. Qed.

Section Identity.
Context `{K : Kernels} {T : Type} `{!TensorOps T}.
Implicit Types (st : store T).

(** The invariant of the output store: every object id was allocated
    before [st.2], and two keys hold the same object only if they are
    equal or both among [up3_0], [down3_2], [down3_3]. *)
Definition ids_ok st : Prop :=
  (forall k r, dict_get st.1 k = Some r -> ref_id r < st.2) /\
  (forall k1 k2 r1 r2, dict_get st.1 k1 = Some r1 -> dict_get st.1 k2 = Some r2 ->
     ref_id r1 = ref_id r2 -> k1 = k2 \/ (k1 ∈ alias_keys /\ k2 ∈ alias_keys)).

Lemma ids_ok_nil : ids_ok ([], 0).
Proof. split; intros *; simpl; discriminate. Qed.

Lemma py_store_new_ids_ok k v st : ids_ok st -> ids_ok (py_store_new k v st).
Proof.
  intros [Hlt Hal]. unfold py_store_new. split; simpl.
  - intros k' r. rewrite dict_get_set. case_decide; [intros [= <-]; simpl; lia|].
    intros Hr. specialize (Hlt _ _ Hr). lia.
  - intros k1 k2 r1 r2. rewrite !dict_get_set.
    repeat case_decide; subst; try (left; done);
      intros H1 H2 Hid; simplify_eq/=; eauto.
    + specialize (Hlt _ _ H2). lia.
    + specialize (Hlt _ _ H1). lia.
Qed.

Lemma py_store_alias_ids_ok k src st st' :
  ids_ok st -> k ∈ alias_keys -> src ∈ alias_keys ->
  py_store_alias k src st = Ok st' -> ids_ok st'.
Proof.
  intros [Hlt Hal] Hk Hsrc. unfold py_store_alias, dict_getitem.
  destruct (dict_get st.1 src) as [r|] eqn:Hr; intros [= <-]. split; simpl.
  - intros k' r'. rewrite dict_get_set. case_decide; [intros [= <-]|]; eauto.
  - intros k1 k2 r1 r2. rewrite !dict_get_set.
    repeat case_decide; subst; try (left; done); intros H1 H2 Hid; simplify_eq/=.
    + destruct (Hal _ _ _ _ Hr H2 Hid) as [<- | [_ ?]]; auto.
    + destruct (Hal _ _ _ _ H1 Hr Hid) as [-> | [? _]]; auto.
    + eauto.
Qed.

Lemma stage3_ids_ok u fr up2 up1 e st st' :
  ids_ok st -> HMV3ControlNet.stage3 u fr up2 up1 e st = Ok st' -> ids_ok st'.
Proof.
  intros Hst. unfold HMV3ControlNet.stage3.
  intros (out & _ & H)%res_bind_Ok_inv.
  apply py_store_new_ids_ok with (k := key_of "up3_" u) (v := out) in Hst.
  revert H. set (st1 := py_store_new _ _ st) in *. clearbody st1.
  intros (st2 & H2 & H)%res_bind_Ok_inv.
  assert (ids_ok st2).
  { destruct (u =? 2); [|by injection H2 as <-].
    apply res_bind_Ok_inv in H2 as (o & _ & H2). apply res_bind_Ok_inv in H2 as (o' & _ & H2).
    injection H2 as <-. by apply py_store_new_ids_ok. }
  apply res_bind_Ok_inv in H as (st3 & H3 & H).
  assert (ids_ok st3).
  { destruct (u =? 1); [|by injection H3 as <-].
    apply res_bind_Ok_inv in H3 as (o & _ & H3). apply res_bind_Ok_inv in H3 as (o' & _ & H3).
    injection H3 as <-. by apply py_store_new_ids_ok. }
  destruct (u =? 0); [|by injection H as <-].
  apply res_bind_Ok_inv in H as (st4 & H4 & H).
  eapply py_store_alias_ids_ok; [ | | | exact H]; [ | repeat constructor.. ].
  eapply py_store_alias_ids_ok; [ | | | exact H4]; [ done | repeat constructor.. ].
Qed.

Lemma run_blocks3_ids_ok n fr up2 up1 blocks idx e de st st' :
  ids_ok st -> HMV3ControlNet.run_blocks3 n fr up2 up1 blocks idx e de st = Ok st' -> ids_ok st'.
Proof.
  revert idx e st. induction blocks as [|b blocks IH]; intros idx e st Hst; cbn [HMV3ControlNet.run_blocks3].
  - by intros [= <-].
  - intros (e' & _ & H)%res_bind_Ok_inv. apply res_bind_Ok_inv in H as (st1 & H1 & H).
    eapply IH; [eapply stage3_ids_ok|]; eauto.
Qed.

(** C6: in the output of [HMV3ControlNet.forward], two keys hold the
    same tensor object only if they are among [up3_0], [down3_2] and
    [down3_3]: every other output is a distinct object. *)
Theorem V3_distinct_objects (net : HMV3ControlNet.t K) c dc fp e d k1 k2 r1 r2 :
  HMV3ControlNet.forward net c dc fp e = Ok d ->
  dict_get d k1 = Some r1 -> dict_get d k2 = Some r2 -> ref_id r1 = ref_id r2 ->
  k1 = k2 \/ (k1 ∈ alias_keys /\ k2 ∈ alias_keys).
Proof.
  unfold HMV3ControlNet.forward.
  intros (stem & _ & H)%res_bind_Ok_inv. destruct stem as [[bs fr] emb].
  apply res_bind_Ok_inv in H as (de & _ & H).
  apply res_bind_Ok_inv in H as (st & Hrun & [= <-]).
  eapply run_blocks3_ids_ok in Hrun; [|apply ids_ok_nil]. apply Hrun.
Qed.
End Identity.

(** ** The aliased outputs *)

Section Alias.
Context `{K : Kernels} {T : Type} `{!TensorOps T}.

Lemma stage3_last fr up2 up1 (e : T) st st' :
  HMV3ControlNet.stage3 0 fr up2 up1 e st = Ok st' ->
  exists r, dict_get st'.1 "up3_0" = Some r /\ dict_get st'.1 "down3_2" = Some r
            /\ dict_get st'.1 "down3_3" = Some r.
Proof.
  unfold HMV3ControlNet.stage3. intros (out & _ & H)%res_bind_Ok_inv.
  cbn [Nat.eqb res_bind] in H. rewrite key_up3_0 in H.
  unfold py_store_alias, py_store_new, dict_getitem in H. cbn [fst snd] in H.
  rewrite dict_get_set_eq in H. cbn [res_bind fst snd] in H.
  rewrite dict_get_set_ne, dict_get_set_eq in H by done.
  injection H as <-. eexists. cbn [fst].
  rewrite dict_get_set_ne, dict_get_set_ne, dict_get_set_eq by done.
  rewrite dict_get_set_ne, dict_get_set_eq by done.
  rewrite dict_get_set_eq. done.
Qed.

Lemma run_blocks3_alias n fr up2 up1 blocks idx (e de : T) st st' :
  HMV3ControlNet.run_blocks3 n fr up2 up1 blocks idx e de st = Ok st' ->
  idx + length blocks = n -> blocks <> [] ->
  exists r, dict_get st'.1 "up3_0" = Some r /\ dict_get st'.1 "down3_2" = Some r
            /\ dict_get st'.1 "down3_3" = Some r.
Proof.
  revert idx e st. induction blocks as [|b blocks IH]; intros idx e st; [done|].
  cbn [HMV3ControlNet.run_blocks3]. intros (e' & _ & H)%res_bind_Ok_inv Hn _.
  apply res_bind_Ok_inv in H as (st1 & H1 & H). simpl in Hn.
  destruct blocks as [|b' blocks].
  - injection H as <-. simpl in Hn. replace (n - idx - 1) with 0 in H1 by lia.
    by apply stage3_last in H1.
  - eapply IH; [exact H | simpl in *; lia | done].
Qed.

(** C5: the outputs [down3_2] and [down3_3] of [HMV3ControlNet] are the
    very object stored under [up3_0] (line 303-304: the same Python
    object, not a copy), whenever the fusion chain is not empty. *)
Theorem V3_aliases (net : HMV3ControlNet.t K) c dc fp e d :
  HMV3ControlNet.forward net c dc fp e = Ok d -> HMV3ControlNet.blocks_down net <> [] ->
  exists r, dict_get d "up3_0" = Some r /\ dict_get d "down3_2" = Some r
            /\ dict_get d "down3_3" = Some r.
Proof.
  unfold HMV3ControlNet.forward.
  intros (stem & _ & H)%res_bind_Ok_inv Hne. destruct stem as [[bs fr] emb].
  apply res_bind_Ok_inv in H as (de & _ & H).
  apply res_bind_Ok_inv in H as (st & Hrun & [= <-]).
  eapply run_blocks3_alias; [exact Hrun | lia | done].
Qed.
End Alias.

(** ** Output keys *)

(** The keys stage [up_idx] stores, in order. *)
Definition stage_keys (u : nat) : list string :=
  key_of "up3_" u :: (if u =? 2 then ["down3_0"] else []) ++ (if u =? 1 then ["down3_1"] else [])
  ++ (if u =? 0 then ["down3_2"; "down3_3"] else []).

Lemma up3_not_down3 u j : key_of "up3_" u <> String.append "down3_" j.
Proof. unfold key_of. simpl. discriminate. Qed.

Lemma elem_of_stage_keys b u :
  b ∈ stage_keys u ->
  b = key_of "up3_" u \/ (u = 2 /\ b = "down3_0") \/ (u = 1 /\ b = "down3_1")
  \/ (u = 0 /\ (b = "down3_2" \/ b = "down3_3")).
Proof.
  intros Hb. destruct u as [|[|[|u]]]; cbn [stage_keys Nat.eqb app] in Hb;
    repeat (apply elem_of_cons in Hb as [->|Hb]; [tauto|]); by apply not_elem_of_nil in Hb.
Qed.

Lemma stage_keys_NoDup u : NoDup (stage_keys u).
Proof.
  destruct u as [|[|[|u]]]; cbn [stage_keys Nat.eqb app];
    [apply (bool_decide_unpack _); vm_compute; reflexivity ..| apply NoDup_singleton].
Qed.

Lemma stage_keys_disjoint u u' b : b ∈ stage_keys u -> b ∈ stage_keys u' -> u = u'.
Proof.
  intros H1 H2. apply elem_of_stage_keys in H1, H2.
  destruct H1 as [->|[[-> ->]|[[-> ->]|[-> [-> | ->]]]]];
  destruct H2 as [H|[[-> H]|[[-> H]|[-> [H | H]]]]];
    try done; try (by apply key_of_inj in H);
    unfold key_of in *; simpl in *; discriminate.
Qed.

Section Keys.
Context `{K : Kernels} {T : Type} `{!TensorOps T}.

(** [fresh_key H] proves [k ∉ dict_keys st ++ added] for a key [k] of the
    current stage, from [H : ∀ b ∈ stage_keys u, b ∉ dict_keys st] and
    the distinctness of literal keys. *)
Ltac fresh_key H :=
  let Hin := fresh "Hin" in
  rewrite ?elem_of_app, ?elem_of_cons; intros Hin;
  repeat match goal with Hd : _ \/ _ |- _ => destruct Hd as [Hd|Hd] end;
  match goal with
  | Hd : ?b ∈ dict_keys _ |- False =>
      exact (H b ltac:(cbn [stage_keys Nat.eqb app]; repeat constructor) Hd)
  | Hd : _ ∈ [] |- False => by apply not_elem_of_nil in Hd
  | Hd : _ = _ |- False => unfold key_of in Hd; simpl in Hd; discriminate Hd
  end.

Lemma stage3_keys u fr up2 up1 (e : T) st st' :
  HMV3ControlNet.stage3 u fr up2 up1 e st = Ok st' ->
  (forall b, b ∈ stage_keys u -> b ∉ dict_keys st.1) ->
  dict_keys st'.1 = dict_keys st.1 ++ stage_keys u.
Proof.
  unfold HMV3ControlNet.stage3. intros (out & _ & H)%res_bind_Ok_inv Hfresh.
  assert (H1 : dict_keys (py_store_new (key_of "up3_" u) out st).1
               = dict_keys st.1 ++ [key_of "up3_" u]) by (apply py_store_new_keys; fresh_key Hfresh).
  revert H H1. generalize (py_store_new (key_of "up3_" u) out st) as st1. intros st1 H H1.
  destruct u as [|[|[|u]]]; cbn [Nat.eqb res_bind] in H.
  - apply res_bind_Ok_inv in H as (st2 & H2 & H).
    rewrite (py_store_alias_keys _ _ _ _ H), (py_store_alias_keys _ _ _ _ H2), H1;
      [by rewrite <- !app_assoc | rewrite H1; fresh_key Hfresh |].
    rewrite (py_store_alias_keys _ _ _ _ H2), H1 by (rewrite H1; fresh_key Hfresh).
    fresh_key Hfresh.
  - apply res_bind_Ok_inv in H as (st2 & H2 & [= <-]).
    apply res_bind_Ok_inv in H2 as (o & _ & H2). apply res_bind_Ok_inv in H2 as (o' & _ & [= <-]).
    rewrite py_store_new_keys, H1; [by rewrite <- app_assoc|].
    rewrite H1. fresh_key Hfresh.
  - apply res_bind_Ok_inv in H as (st2 & H2 & [= <-]).
    apply res_bind_Ok_inv in H2 as (o & _ & H2). apply res_bind_Ok_inv in H2 as (o' & _ & [= <-]).
    rewrite py_store_new_keys, H1; [by rewrite <- app_assoc|].
    rewrite H1. fresh_key Hfresh.
  - injection H as <-. done.
Qed.
Lemma run_blocks3_keys n fr up2 up1 blocks idx (e de : T) st st' :
  HMV3ControlNet.run_blocks3 n fr up2 up1 blocks idx e de st = Ok st' ->
  idx + length blocks <= n ->
  (forall b i, idx <= i < idx + length blocks -> b ∈ stage_keys (n - i - 1) ->
               b ∉ dict_keys st.1) ->
  dict_keys st'.1 = dict_keys st.1
                    ++ concat (map (fun i => stage_keys (n - i - 1)) (seq idx (length blocks))).
Proof.
  revert idx e st. induction blocks as [|b blocks IH]; intros idx e st; cbn [HMV3ControlNet.run_blocks3].
  - intros [= <-] _ _. by rewrite app_nil_r.
  - intros (e' & _ & H)%res_bind_Ok_inv Hn Hfresh.
    apply res_bind_Ok_inv in H as (st1 & H1 & H). simpl in Hn.
    assert (Hk1 : dict_keys st1.1 = dict_keys st.1 ++ stage_keys (n - idx - 1)).
    { apply (stage3_keys (n - idx - 1) fr up2 up1 e' st st1 H1).
      intros b' Hb. apply (Hfresh b' idx); [simpl; lia | done]. }
    rewrite (IH _ _ _ H), Hk1; [by rewrite <- app_assoc | lia |].
    intros b' i Hi Hb'. rewrite Hk1, elem_of_app. intros [Hin | Hin].
    + revert Hin. apply (Hfresh b' i); [simpl; lia | done].
    + pose proof (stage_keys_disjoint _ _ b' Hb' Hin). lia.
Qed.
End Keys.

(** The keys of any V3 output: the stage keys of the blocks, stage
    [n - 1] first. *)
Lemma V3_forward_stage_keys `{K : Kernels} {T : Type} `{!TensorOps T}
      (net : HMV3ControlNet.t K) (c : T) dc fp e d :
  HMV3ControlNet.forward net c dc fp e = Ok d ->
  dict_keys d = concat (rev (map stage_keys (seq 0 (length (HMV3ControlNet.blocks_down net))))).
Proof.
  unfold HMV3ControlNet.forward.
  intros (stem & _ & H)%res_bind_Ok_inv. destruct stem as [[bs fr] emb].
  apply res_bind_Ok_inv in H as (de & _ & H).
  apply res_bind_Ok_inv in H as (st & Hrun & [= <-]).
  rewrite (run_blocks3_keys _ _ _ _ _ _ _ _ _ _ Hrun) by (try lia; intros; apply not_elem_of_nil).
  by rewrite map_seq_rev.
Qed.

(** C7: with at least three fusion blocks, [HMV3ControlNet.forward]
    returns the keys [up3_{n-1}], ..., [up3_3], then [up3_2], [down3_0],
    [up3_1], [down3_1], [up3_0], [down3_2], [down3_3]: [n + 4] outputs for
    [n] blocks, no key written twice. *)
Theorem V3_keys `{K : Kernels} {T : Type} `{!TensorOps T}
        (net : HMV3ControlNet.t K) (c : T) dc fp e d :
  HMV3ControlNet.forward net c dc fp e = Ok d -> 3 <= length (HMV3ControlNet.blocks_down net) ->
  dict_keys d = rev (map (key_of "up3_") (seq 3 (length (HMV3ControlNet.blocks_down net) - 3)))
                ++ ["up3_2"; "down3_0"; "up3_1"; "down3_1"; "up3_0"; "down3_2"; "down3_3"].
Proof.
  intros Hd%V3_forward_stage_keys Hn. rewrite Hd. set (n := length _) in *.
  replace n with (3 + (n - 3)) at 1 by lia.
  rewrite seq_app, map_app, rev_app_distr, concat_app.
  rewrite (map_ext_in stage_keys (fun u => [key_of "up3_" u])).
  - by rewrite concat_rev_singletons.
  - intros u Hu%in_seq. unfold stage_keys.
    destruct (Nat.eqb_spec u 2), (Nat.eqb_spec u 1), (Nat.eqb_spec u 0); try lia. done.
Qed.

(** C8: with fewer than three fusion blocks [HMV3ControlNet.forward]
    never stores [down3_0] (and with one block not [down3_1] either): the
    stages [up_idx = 2] and [up_idx = 1] do not exist and the adapters are
    skipped silently.  Two blocks give [up3_1], [down3_1], [up3_0],
    [down3_2], [down3_3]; one block gives [up3_0], [down3_2], [down3_3];
    no block gives an empty dict. *)
Theorem V3_keys_few_blocks `{K : Kernels} {T : Type} `{!TensorOps T}
        (net : HMV3ControlNet.t K) (c : T) dc fp e d :
  HMV3ControlNet.forward net c dc fp e = Ok d -> length (HMV3ControlNet.blocks_down net) <= 2 ->
  dict_keys d = (if length (HMV3ControlNet.blocks_down net) =? 2 then ["up3_1"; "down3_1"] else [])
                ++ (if 1 <=? length (HMV3ControlNet.blocks_down net)
                    then ["up3_0"; "down3_2"; "down3_3"] else []).
Proof.
  intros Hd%V3_forward_stage_keys Hn. rewrite Hd.
  destruct (length _) as [|[|[|n]]]; [reflexivity .. | lia].
Qed.

(** ** Refinement: the V3 forward is simulated by its shape semantics

    The store relation keeps object identities: related stores hold, key
    by key, objects with the same id and related values, so the shape run
    predicts the aliasing of the tensor run as well as its shapes. *)

Section Refinement.
Context `{K : Kernels}.

Lemma stage3_refines u fr up2 up1 e se st sst :
  has_shape e se -> store_rel has_shape st sst ->
  res_rel (store_rel has_shape) (HMV3ControlNet.stage3 u fr up2 up1 e st)
                                (HMV3ControlNet.stage3 u fr up2 up1 se sst).
Proof.
  intros He Hst. unfold HMV3ControlNet.stage3.
  eapply res_rel_bind; [by apply ops_from_frames_batch_rel|]. intros o so Ho. cbv beta zeta.
  eapply (res_rel_bind (store_rel has_shape)); [destruct (u =? 2); rel_solve|].
  intros st1 sst1 H1. cbv beta.
  eapply (res_rel_bind (store_rel has_shape)); [destruct (u =? 1); rel_solve|].
  intros st2 sst2 H2. cbv beta.
  destruct (u =? 0); rel_solve.
Qed.

Lemma run_blocks3_refines n fr up2 up1 blocks idx e se de sde st sst :
  has_shape e se -> has_shape de sde -> store_rel has_shape st sst ->
  res_rel (store_rel has_shape) (HMV3ControlNet.run_blocks3 n fr up2 up1 blocks idx e de st)
                                (HMV3ControlNet.run_blocks3 n fr up2 up1 blocks idx se sde sst).
Proof.
  revert idx e se st sst. induction blocks as [|b blocks IH]; intros; cbn [HMV3ControlNet.run_blocks3];
    [by apply res_rel_Ok|].
  eapply res_rel_bind; [by apply ops_sk_rel|]. intros e1 se1 He1. cbv beta.
  eapply res_rel_bind; [by apply stage3_refines|]. intros st1 sst1 Hst1. by apply IH.
Qed.

Lemma drive_embedding_of_refines (net : HMV3ControlNet.t K) bs fr dc sdc fp sfp e se :
  option_Forall2 has_shape dc sdc -> option_Forall2 has_shape fp sfp ->
  option_Forall2 has_shape e se ->
  res_rel has_shape (HMV3ControlNet.drive_embedding_of net bs fr dc fp e)
                    (HMV3ControlNet.drive_embedding_of net bs fr sdc sfp se).
Proof.
  unfold HMV3ControlNet.drive_embedding_of, HMV3ControlNet.not_none.
  intros [] [] []; cbn [res_bind]; eauto with hm.
Qed.
End Refinement.

#[export] Hint Resolve run_blocks3_refines drive_embedding_of_refines : hm.

(** [v3_fwd_rel] relates the two runs of [HMV3ControlNet.forward]. *)
Ltac v3_fwd_rel :=
  unfold HMV3ControlNet.forward; fwd_rel;
  match goal with H : store_rel _ _ _ |- _ => apply H end.

(** ** Examples on the reference instance *)

From Stdlib Require Import ZArith.

Section Examples.
#[local] Existing Instance int_kernels.

(** The V3 block schedule shrunk to three blocks: [1, 1280, 1280, 1280],
    so that the stages [up3_2] and [up3_1] feed the 1x1 convolutions. *)
Definition ex_v3_cfg : ControlNetConfig :=
  {| cfg_embedding_channels := 1280; cfg_input_channels := 1; cfg_scale_factor := 1;
     cfg_cross_attention_dim := 2; cfg_block_out_channels := [1; 1280; 1280; 1280] |}.

Definition ex_v3_net : HMV3ControlNet.t int_kernels :=
  {| HMV3ControlNet.scale_factor := 1; HMV3ControlNet.embedding_channels := 1280;
     HMV3ControlNet.cross_attention_dim := 2;
     HMV3ControlNet.conv_in := mk_conv ex_weights "conv_in" 1 1 3 1;
     HMV3ControlNet.conv_up2_down0 := mk_conv ex_weights "conv_up2_down0" 1280 320 1 0;
     HMV3ControlNet.conv_up1_down1 := mk_conv ex_weights "conv_up1_down1" 1280 640 1 0;
     HMV3ControlNet.emo_embedding := mk_timesteps 2;
     HMV3ControlNet.exp_embedding := mk_timesteps 2;
     HMV3ControlNet.exp_proj := mk_te ex_weights "exp_proj" 2 2;
     HMV3ControlNet.face_proj := mk_te ex_weights "face_proj" 1024 2;
     HMV3ControlNet.emo_proj := mk_te ex_weights "emo_proj" 2 2;
     HMV3ControlNet.blocks_down := make_blocks ex_weights 2 1024 [1; 1280; 1280; 1280] |}.

Lemma ex_v3_init : HMV3ControlNet.init ex_v3_cfg ex_weights = Ok ex_v3_net.
Proof. reflexivity. Qed.

Definition ex_v3_cond : stensor := mkT [1; 1; 1; 1; 1] [3%Z].
Definition ex_v3_emo : stensor := mkT [1; 1; 1] [2%Z].

Definition ex_v3_out : pydict (pyref stensor) :=
  res_get [] (HMV3ControlNet.forward ex_v3_net ex_v3_cond None None (Some ex_v3_emo)).

Lemma ex_v3_forward :
  HMV3ControlNet.forward ex_v3_net ex_v3_cond None None (Some ex_v3_emo) = Ok ex_v3_out.
Proof. vm_compute. reflexivity. Qed.

Lemma V3_aliases_witness :
  exists r, dict_get ex_v3_out "up3_0" = Some r /\ dict_get ex_v3_out "down3_2" = Some r
            /\ dict_get ex_v3_out "down3_3" = Some r.
Proof. apply (V3_aliases ex_v3_net _ _ _ _ _ ex_v3_forward). discriminate. Defined.

Lemma V3_keys_witness :
  dict_keys ex_v3_out =
    rev (map (key_of "up3_") (seq 3 (length (HMV3ControlNet.blocks_down ex_v3_net) - 3)))
    ++ ["up3_2"; "down3_0"; "up3_1"; "down3_1"; "up3_0"; "down3_2"; "down3_3"].
Proof. apply (V3_keys ex_v3_net _ _ _ _ _ ex_v3_forward). simpl. lia. Defined.

Lemma V3_distinct_objects_witness :
  dict_get ex_v3_out "up3_0" = Some (mkref 4 (mkT [1; 1280; 1; 1; 1] (replicate 1280 0%Z)))
  /\ dict_get ex_v3_out "down3_2" = Some (mkref 4 (mkT [1; 1280; 1; 1; 1] (replicate 1280 0%Z)))
  /\ ("up3_0" = "down3_2" \/ ("up3_0" ∈ alias_keys /\ "down3_2" ∈ alias_keys)).
Proof.
  assert (H1 : dict_get ex_v3_out "up3_0" = Some (mkref 4 (mkT [1; 1280; 1; 1; 1] (replicate 1280 0%Z))))
    by (vm_compute; reflexivity).
  assert (H2 : dict_get ex_v3_out "down3_2" = Some (mkref 4 (mkT [1; 1280; 1; 1; 1] (replicate 1280 0%Z))))
    by (vm_compute; reflexivity).
  split; [exact H1|]. split; [exact H2|].
  exact (V3_distinct_objects ex_v3_net _ _ _ _ _ "up3_0" "down3_2" _ _ ex_v3_forward H1 H2 eq_refl).
Defined.

Lemma V3_emo_branch_independent_witness :
  HMV3ControlNet.forward ex_v3_net ex_v3_cond None (Some ex_v3_emo) (Some ex_v3_emo)
  = HMV3ControlNet.forward ex_v3_net ex_v3_cond (Some ex_v3_cond) None (Some ex_v3_emo).
Proof. apply V3_emo_branch_independent; [reflexivity | by left | by right]. Defined.

Lemma V3_exp_branch_independent_witness :
  HMV3ControlNet.forward ex_v3_net ex_v3_cond (Some ex_v3_emo) (Some ex_v3_cond) None
  = HMV3ControlNet.forward ex_v3_net ex_v3_cond (Some ex_v3_emo) (Some ex_v3_cond) (Some ex_v3_emo).
Proof. apply V3_exp_branch_independent. reflexivity. Defined.

Lemma V3_missing_emo_error_witness :
  HMV3ControlNet.forward ex_v3_net ex_v3_cond None (Some ex_v3_emo) None = Err TypeError.
Proof.
  apply (V3_missing_emo_error _ _ _ _ 1 1 (mkT [1; 1; 1; 1] [0%Z])); [vm_compute; reflexivity | by left].
Defined.
(** A two-block schedule [1, 1280, 1280]: no [down3_0]. *)
Definition ex_v3_short_cfg : ControlNetConfig :=
  {| cfg_embedding_channels := 1280; cfg_input_channels := 1; cfg_scale_factor := 1;
     cfg_cross_attention_dim := 2; cfg_block_out_channels := [1; 1280; 1280] |}.

Definition ex_v3_short_net : HMV3ControlNet.t int_kernels :=
  res_get ex_v3_net (HMV3ControlNet.init ex_v3_short_cfg ex_weights).

Definition ex_v3_short_out : pydict (pyref stensor) :=
  res_get [] (HMV3ControlNet.forward ex_v3_short_net ex_v3_cond None None (Some ex_v3_emo)).

Lemma V3_keys_few_blocks_witness :
  dict_keys ex_v3_short_out = ["up3_1"; "down3_1"; "up3_0"; "down3_2"; "down3_3"].
Proof.
  refine (eq_trans (V3_keys_few_blocks ex_v3_short_net ex_v3_cond None None (Some ex_v3_emo)
                      ex_v3_short_out _ _) _); [vm_compute; reflexivity | vm_compute; lia | reflexivity].
Defined.
End Examples.
