(* ===== verification/V3Shapes.v ===== *)
(** * HMV3ControlNet on shapes: the adapters and the outputs

    The shape semantics of [HMV3ControlNet.forward]
    (src/hellomeme/models/hm_control.py lines 254-305), run on a network
    built by [__init__] (lines 217-252).  The 1x1 adapters
    [conv_up2_down0] and [conv_up1_down1] are hard-wired to 1280 input
    channels: [V3_adapter_channel_error] shows that any schedule whose stage
    [up3_2] has another width raises [RuntimeError]; with the widths the
    adapters expect, [V3_forward_output_shapes] gives the shape of every
    output, [down3_*] included. *)

From S2P Require Import Prelude Layout PyDict Tensor Torch Interp Embedding ControlNet Shapes V3.
From stdpp Require Import strings.
Local Open Scope res_scope.

(** ** The hard-wired adapters

    [conv_up2_down0] and [conv_up1_down1] are built with 1280 input
    channels whatever [block_out_channels] says (lines 230-231).  The
    stage with [up_idx = 2] is the output of block [n - 3], which has
    [block_out_channels[n - 2]] channels; when that width is not 1280 the
    1x1 convolution rejects it. *)

Section Adapters.
Context `{K : Kernels}.

(** A stage with [up_idx > 2] only stores its unfolded output. *)
Lemma stage3_plain u fr up2 up1 b c h w st :
  0 < fr -> 2 < u ->
  HMV3ControlNet.stage3 (T:=list nat) u fr up2 up1 [b * fr; c; h; w] st
  = Ok (py_store_new (key_of "up3_" u) [b; c; fr; h; w] st).
Proof.
  intros Hf Hu. unfold HMV3ControlNet.stage3. shape_simpl.
  destruct (Nat.eqb_spec u 2), (Nat.eqb_spec u 1), (Nat.eqb_spec u 0); try lia. done.
Qed.

Lemma stage3_adapter_error fr up2 up1 b c h w st :
  0 < fr -> c <> conv_in_channels (conv_cfg up2) ->
  HMV3ControlNet.stage3 (T:=list nat) 2 fr up2 up1 [b * fr; c; h; w] st = Err RuntimeError.
Proof.
  intros Hf Hc. unfold HMV3ControlNet.stage3. shape_simpl.
  by rewrite (proj2 (Nat.eqb_neq _ _) Hc).
Qed.

(** The loop reaches block [n - 3] and fails there. *)
Lemma run_blocks3_adapter_error n fr up2 up1 blocks idx b c d h w L st :
  0 < fr -> blocks_chain blocks c d = true -> sk_chain_ok blocks h w L = true ->
  idx + length blocks = n -> idx + 3 <= n ->
  nth (n - 3 - idx) (map (fun blk => sk_channel_out (sk_cfg blk)) blocks) 0
    <> conv_in_channels (conv_cfg up2) ->
  HMV3ControlNet.run_blocks3 (T:=list nat) n fr up2 up1 blocks idx [b * fr; c; h; w] [b * fr; L; d] st
  = Err RuntimeError.
Proof.
  revert idx c h w st. induction blocks as [|blk rest IH]; intros idx c h w st Hf Hc Hs Hn Hi Hch;
    cbn [length] in Hn; [lia|].
  cbn [blocks_chain sk_chain_ok] in Hc, Hs.
  apply andb_prop in Hc as [[Hin Hd]%andb_prop Hc]. apply andb_prop in Hs as [Hok Hs].
  apply Nat.eqb_eq in Hin, Hd.
  cbn [HMV3ControlNet.run_blocks3]. cbn -[Nat.mul Nat.div Nat.modulo Nat.leb HMV3ControlNet.stage3].
  rewrite Hin, Hd, Hok. shape_simpl.
  destruct (decide (idx + 3 = n)) as [<-|Hlt].
  - replace (idx + 3 - idx - 1) with 2 by lia.
    rewrite stage3_adapter_error; [done | done |].
    by replace (idx + 3 - 3 - idx) with 0 in Hch by lia.
  - rewrite stage3_plain by lia. cbn [res_bind]. apply IH; try done; try lia.
    by replace (n - 3 - idx) with (S (n - 3 - S idx)) in Hch by lia.
Qed.

(** Output channels of the blocks [__init__] builds. *)
Lemma nth_make_blocks_out (wt : Weights K) cad hd boc j :
  j < length boc - 1 ->
  nth j (map (fun blk => sk_channel_out (sk_cfg blk)) (make_blocks wt cad hd boc)) 0 = nth (S j) boc 0.
Proof.
  intros Hj. apply nth_lookup_Some. unfold make_blocks.
  rewrite !list_lookup_fmap, lookup_seq_lt by lia. done.
Qed.

(** On shapes: an [HMV3ControlNet] built by [__init__] with at least three
    blocks whose stage [up3_2] does not have 1280 channels raises
    [RuntimeError] at [conv_up2_down0], once the stem, the driving
    embedding and the blocks before it succeed. *)
Lemma V3_adapter_error_shape cfg (wt : Weights K) net sdc sfp se b f h w L :
  HMV3ControlNet.init cfg wt = Ok net ->
  0 < f -> 0 < cfg_input_channels cfg ->
  0 < h / cfg_scale_factor cfg -> 0 < w / cfg_scale_factor cfg ->
  HMV3ControlNet.drive_embedding_of (T:=list nat) net b f sdc sfp se
    = Ok [b * f; L; cfg_cross_attention_dim cfg] ->
  sk_chain_ok (HMV3ControlNet.blocks_down net)
    (h / cfg_scale_factor cfg) (w / cfg_scale_factor cfg) L = true ->
  4 <= length (cfg_block_out_channels cfg) ->
  nth (length (cfg_block_out_channels cfg) - 3) (cfg_block_out_channels cfg) 0 <> 1280 ->
  HMV3ControlNet.forward (T:=list nat) net [b; cfg_input_channels cfg; f; h; w] sdc sfp se
  = Err RuntimeError.
Proof.
  unfold HMV3ControlNet.init, list_getitem. intros Hi Hf Hcin Hh Hw Hde Hs Hlen Hch.
  destruct (cfg_block_out_channels cfg) as [|c0 rest] eqn:Hboc; [done|].
  injection Hi as <-. unfold HMV3ControlNet.forward.
  cbn [HMV3ControlNet.scale_factor HMV3ControlNet.conv_in HMV3ControlNet.blocks_down
       HMV3ControlNet.conv_up2_down0 HMV3ControlNet.conv_up1_down1] in *.
  rewrite (forward_stem_shape _ _ _ _ _ _ _ c0) by (done || eapply div_pos_den; eauto).
  cbn [res_bind]. rewrite Hde. cbn [res_bind].
  rewrite (run_blocks3_adapter_error _ _ _ _ _ _ _ c0 (cfg_cross_attention_dim cfg)); try done.
  - apply (make_blocks_chain wt _ 1024 (c0 :: rest)).
  - rewrite length_make_blocks. cbn [length] in *. lia.
  - rewrite length_make_blocks, nth_make_blocks_out by (cbn [length] in *; lia).
    cbn [length conv_cfg conv_in_channels mk_conv] in *.
    by replace (S (S (length rest) - 1 - 3 - 0)) with (S (length rest) - 3) by lia.
Qed.

(** The driving inputs the V3 forward accepts, on shapes: both expression
    inputs ([k] coefficients and [p] face regions per frame, [L = p + k]
    tokens), or one of them missing and [k] emotion coefficients per
    frame ([L = k] tokens). *)
Definition v3_drive_inputs (sdc sfp se : option (list nat)) (b f L : nat) : Prop :=
  (exists k p, sdc = Some [b; f; k] /\ sfp = Some [b; f; p; 1024] /\ L = p + k)
  \/ ((sdc = None \/ sfp = None) /\ exists k, se = Some [b; f; k] /\ L = k).

Lemma V3_drive_embedding_shape cfg (wt : Weights K) net sdc sfp se b f L :
  HMV3ControlNet.init cfg wt = Ok net -> 0 < b -> 0 < f -> v3_drive_inputs sdc sfp se b f L ->
  HMV3ControlNet.drive_embedding_of (T:=list nat) net b f sdc sfp se
    = Ok [b * f; L; cfg_cross_attention_dim cfg].
Proof.
  unfold HMV3ControlNet.init. intros Hi Hb Hf Hin.
  apply res_bind_Ok_inv in Hi as (c0 & _ & [= <-]).
  destruct Hin as [(k & p & -> & -> & ->) | (Hnone & k & -> & ->)].
  - by apply exp_drive_embedding_shape.
  - rewrite drive_embedding_of_emo by done. cbn [HMV3ControlNet.not_none res_bind].
    by apply emo_drive_embedding_shape.
Qed.
End Adapters.

(** ** The outputs when the adapters fit

    With [block_out_channels[n - 2]] and [block_out_channels[n - 1]] equal
    to 1280 (the default schedule [(128, 640, 1280, 1280, 1280)] of line
    223 has them), every stage succeeds.  [v3_stage_entries] is what one
    stage assigns (lines 292-304): the unfolded block output under
    [up3_{up_idx}], the adapters' outputs under [down3_0] (320 channels)
    and [down3_1] (640 channels), and the two aliases of [up3_0];
    [v3_stage_shapes] concatenates them along the loop.  [sk_hw_pos] asks
    the fusion blocks to keep a non-empty map, which the 1x1 adapters
    need. *)

Section Outputs.
Context `{K : Kernels}.

Definition v3_stage_entries (u b c f h w c2 c1 : nat) : pydict (list nat) :=
  (key_of "up3_" u, [b; c; f; h; w])
  :: (if u =? 2 then [("down3_0", [b; c2; f; h; w])] else [])
  ++ (if u =? 1 then [("down3_1", [b; c1; f; h; w])] else [])
  ++ (if u =? 0 then [("down3_2", [b; c; f; h; w]); ("down3_3", [b; c; f; h; w])] else []).

Definition dict_assign_all {V} (d : pydict V) (l : pydict V) : pydict V :=
  foldl (fun acc kv => dict_set kv.1 kv.2 acc) d l.

Lemma stage3_shape u fr (up2 up1 : Conv2d K) a2 c2 a1 c1 b c h w st :
  conv_cfg up2 = {| conv_in_channels := a2; conv_out_channels := c2;
                    conv_kernel_size := 1; conv_padding := 0 |} ->
  conv_cfg up1 = {| conv_in_channels := a1; conv_out_channels := c1;
                    conv_kernel_size := 1; conv_padding := 0 |} ->
  0 < fr -> 0 < h -> 0 < w -> (u = 2 -> c = a2) -> (u = 1 -> c = a1) ->
  exists st', HMV3ControlNet.stage3 (T:=list nat) u fr up2 up1 [b * fr; c; h; w] st = Ok st'
    /\ store_vals st'.1 = dict_assign_all (store_vals st.1) (v3_stage_entries u b c fr h w c2 c1).
Proof.
  intros H2 H1 Hf Hh Hw Hu2 Hu1. unfold HMV3ControlNet.stage3. shape_simpl.
  destruct u as [|[|[|u]]]; cbn -[Nat.mul Nat.div Nat.modulo Nat.leb key_of dict_set].
  - replace (key_of "up3_" 0) with "up3_0" by reflexivity.
    unfold py_store_alias, dict_getitem, py_store_new. cbn [fst snd].
    rewrite dict_get_set_eq. cbn [res_bind fst snd].
    rewrite dict_get_set_ne, dict_get_set_eq by done. eexists; split; [reflexivity|].
    cbn [fst snd]. by rewrite !store_vals_set.
  - rewrite H1, (Hu1 eq_refl). shape_simpl. unfold conv_out_dim.
    replace (h + 2 * 0 + 1 - 1) with h by lia. replace (w + 2 * 0 + 1 - 1) with w by lia.
    shape_simpl. eexists; split; [reflexivity|]. unfold py_store_new. cbn [fst snd]. by rewrite !store_vals_set.
  - rewrite H2, (Hu2 eq_refl). shape_simpl. unfold conv_out_dim.
    replace (h + 2 * 0 + 1 - 1) with h by lia. replace (w + 2 * 0 + 1 - 1) with w by lia.
    shape_simpl. eexists; split; [reflexivity|]. unfold py_store_new. cbn [fst snd]. by rewrite !store_vals_set.
  - eexists; split; [reflexivity|]. unfold py_store_new. cbn [fst snd]. by rewrite !store_vals_set.
Qed.

Fixpoint sk_hw_pos (blocks : list (SKCrossAttention K)) (h w : nat) : bool :=
  match blocks with
  | [] => true
  | blk :: rest =>
      let hw := sk_hw (sk_cfg blk) h w in
      (0 <? hw.1) && (0 <? hw.2) && sk_hw_pos rest hw.1 hw.2
  end.

Fixpoint v3_stage_shapes (n b f c2 c1 : nat) (blocks : list (SKCrossAttention K))
         (idx h w : nat) : pydict (list nat) :=
  match blocks with
  | [] => []
  | blk :: rest =>
      let hw := sk_hw (sk_cfg blk) h w in
      v3_stage_entries (n - idx - 1) b (sk_channel_out (sk_cfg blk)) f hw.1 hw.2 c2 c1
        ++ v3_stage_shapes n b f c2 c1 rest (S idx) hw.1 hw.2
  end.

Lemma dict_assign_all_app {V} (d l1 l2 : pydict V) :
  dict_assign_all d (l1 ++ l2) = dict_assign_all (dict_assign_all d l1) l2.
Proof. apply foldl_app. Qed.

Lemma run_blocks3_shape n fr (up2 up1 : Conv2d K) a2 c2 a1 c1 blocks idx b c d h w L st :
  conv_cfg up2 = {| conv_in_channels := a2; conv_out_channels := c2;
                    conv_kernel_size := 1; conv_padding := 0 |} ->
  conv_cfg up1 = {| conv_in_channels := a1; conv_out_channels := c1;
                    conv_kernel_size := 1; conv_padding := 0 |} ->
  0 < fr -> blocks_chain blocks c d = true -> sk_chain_ok blocks h w L = true ->
  sk_hw_pos blocks h w = true -> idx + length blocks = n ->
  (idx + 3 <= n -> nth (n - 3 - idx) (map (fun blk => sk_channel_out (sk_cfg blk)) blocks) 0 = a2) ->
  (idx + 2 <= n -> nth (n - 2 - idx) (map (fun blk => sk_channel_out (sk_cfg blk)) blocks) 0 = a1) ->
  exists st', HMV3ControlNet.run_blocks3 (T:=list nat) n fr up2 up1 blocks idx
                [b * fr; c; h; w] [b * fr; L; d] st = Ok st'
    /\ store_vals st'.1 = dict_assign_all (store_vals st.1) (v3_stage_shapes n b fr c2 c1 blocks idx h w).
Proof.
  intros H2 H1 Hf. revert idx c h w st.
  induction blocks as [|blk rest IH]; intros idx c h w st Hc Hs Hp Hn Ha2 Ha1; [by eexists|].
  cbn [blocks_chain sk_chain_ok sk_hw_pos length] in Hc, Hs, Hp, Hn.
  apply andb_prop in Hc as [[Hin Hd]%andb_prop Hc]. apply andb_prop in Hs as [Hok Hs].
  apply andb_prop in Hp as [[Hh Hw]%andb_prop Hp]. apply Nat.eqb_eq in Hin, Hd.
  apply Nat.ltb_lt in Hh, Hw.
  cbn [HMV3ControlNet.run_blocks3]. cbn -[Nat.mul Nat.div Nat.modulo Nat.leb HMV3ControlNet.stage3].
  rewrite Hin, Hd, Hok. shape_simpl.
  edestruct (stage3_shape (n - idx - 1) fr up2 up1 a2 c2 a1 c1 b (sk_channel_out (sk_cfg blk))
               _ _ st H2 H1 Hf Hh Hw) as (st1 & -> & Hst1).
  { intros Hu. rewrite <- Ha2 by lia. by replace (n - 3 - idx) with 0 by lia. }
  { intros Hu. rewrite <- Ha1 by lia. by replace (n - 2 - idx) with 0 by lia. }
  cbn [res_bind]. edestruct (IH (S idx)) as (st' & -> & Hst'); try done; try lia.
  - intros Hi. rewrite <- Ha2 by lia. by replace (n - 3 - idx) with (S (n - 3 - S idx)) by lia.
  - intros Hi. rewrite <- Ha1 by lia. by replace (n - 2 - idx) with (S (n - 2 - S idx)) by lia.
  - eexists; split; [done|]. by rewrite Hst', Hst1, <- dict_assign_all_app.
Qed.

Lemma v3_stage_entries_keys u b c f h w c2 c1 :
  dict_keys (v3_stage_entries u b c f h w c2 c1) = stage_keys u.
Proof. by destruct u as [|[|[|u]]]. Qed.

Lemma v3_stage_shapes_keys n b f c2 c1 blocks idx h w :
  dict_keys (v3_stage_shapes n b f c2 c1 blocks idx h w)
  = concat (map (fun i => stage_keys (n - i - 1)) (seq idx (length blocks))).
Proof.
  revert idx h w. induction blocks as [|blk rest IH]; intros; [done|].
  cbn [v3_stage_shapes length seq map concat]. unfold dict_keys in *.
  rewrite map_app, IH. f_equal. apply v3_stage_entries_keys.
Qed.

Lemma v3_stage_keys_NoDup n idx len :
  idx + len <= n -> NoDup (concat (map (fun i => stage_keys (n - i - 1)) (seq idx len))).
Proof.
  revert idx. induction len as [|len IH]; intros idx Hn; [constructor|].
  cbn [seq map concat]. apply NoDup_app. split; [apply stage_keys_NoDup|]. split; [|apply IH; lia].
  intros k Hk (ks & Hks & Hin)%list_elem_of_In%in_concat.
  apply in_map_iff in Hks as (i & <- & Hi%in_seq).
  apply list_elem_of_In in Hin. pose proof (stage_keys_disjoint _ _ _ Hk Hin). lia.
Qed.

Lemma HMV3ControlNet_forward_shape cfg (wt : Weights K) net sdc sfp se b f h w L :
  HMV3ControlNet.init cfg wt = Ok net ->
  0 < b -> 0 < f -> 0 < cfg_input_channels cfg ->
  0 < h / cfg_scale_factor cfg -> 0 < w / cfg_scale_factor cfg ->
  v3_drive_inputs sdc sfp se b f L ->
  sk_chain_ok (HMV3ControlNet.blocks_down net)
    (h / cfg_scale_factor cfg) (w / cfg_scale_factor cfg) L = true ->
  sk_hw_pos (HMV3ControlNet.blocks_down net)
    (h / cfg_scale_factor cfg) (w / cfg_scale_factor cfg) = true ->
  (4 <= length (cfg_block_out_channels cfg) ->
   nth (length (cfg_block_out_channels cfg) - 3) (cfg_block_out_channels cfg) 0 = 1280) ->
  (3 <= length (cfg_block_out_channels cfg) ->
   nth (length (cfg_block_out_channels cfg) - 2) (cfg_block_out_channels cfg) 0 = 1280) ->
  exists d, HMV3ControlNet.forward (T:=list nat) net [b; cfg_input_channels cfg; f; h; w] sdc sfp se = Ok d
    /\ store_vals d = v3_stage_shapes (length (HMV3ControlNet.blocks_down net)) b f 320 640
                        (HMV3ControlNet.blocks_down net) 0
                        (h / cfg_scale_factor cfg) (w / cfg_scale_factor cfg).
Proof.
  intros Hi Hb Hf Hcin Hh Hw Hin Hs Hp H2 H1.
  pose proof (V3_drive_embedding_shape cfg wt net sdc sfp se b f L Hi Hb Hf Hin) as Hde.
  unfold HMV3ControlNet.init, list_getitem in Hi.
  destruct (cfg_block_out_channels cfg) as [|c0 rest] eqn:Hboc; [done|].
  injection Hi as <-. unfold HMV3ControlNet.forward.
  cbn [HMV3ControlNet.scale_factor HMV3ControlNet.conv_in HMV3ControlNet.blocks_down
       HMV3ControlNet.conv_up2_down0 HMV3ControlNet.conv_up1_down1] in *.
  rewrite (forward_stem_shape _ _ _ _ _ _ _ c0) by (done || eapply div_pos_den; eauto).
  cbn [res_bind]. rewrite Hde. cbn [res_bind].
  edestruct (run_blocks3_shape (length (make_blocks wt (cfg_cross_attention_dim cfg) 1024 (c0 :: rest)))
               f (mk_conv wt "conv_up2_down0" 1280 320 1 0) (mk_conv wt "conv_up1_down1" 1280 640 1 0)
               1280 320 1280 640 (make_blocks wt (cfg_cross_attention_dim cfg) 1024 (c0 :: rest)) 0 b c0 (cfg_cross_attention_dim cfg)) as (st' & -> & Hst);
    try done; try apply (make_blocks_chain wt _ 1024 (c0 :: rest)).
  - rewrite length_make_blocks. cbn [length]. intros Hn.
    rewrite nth_make_blocks_out by (cbn [length]; lia). rewrite <- H2 by (cbn [length]; lia).
    f_equal. cbn [length]. lia.
  - rewrite length_make_blocks. cbn [length]. intros Hn.
    rewrite nth_make_blocks_out by (cbn [length]; lia). rewrite <- H1 by (cbn [length]; lia).
    f_equal. cbn [length]. lia.
  - eexists; split; [done|]. rewrite Hst. apply (foldl_dict_set_fresh _ []).
    rewrite app_nil_l, v3_stage_shapes_keys. apply v3_stage_keys_NoDup. lia.
Qed.
End Outputs.

Section AdapterError.
Context `{K : Kernels}.

(** C10: An [HMV3ControlNet] built by [__init__] with at least three blocks,
    run on tensors of the documented shapes, raises [RuntimeError] when
    [block_out_channels[n - 2]] (the width of stage [up3_2], fed to
    [conv_up2_down0]) is not 1280, whatever the driving inputs: the
    adapters are hard-wired to the default schedule. *)
Theorem V3_adapter_channel_error cfg (wt : Weights K) net (c : stensor) dc fp e sdc sfp se
        b f h w L :
  HMV3ControlNet.init cfg wt = Ok net ->
  has_shape c [b; cfg_input_channels cfg; f; h; w] ->
  option_Forall2 has_shape dc sdc -> option_Forall2 has_shape fp sfp ->
  option_Forall2 has_shape e se -> v3_drive_inputs sdc sfp se b f L ->
  0 < b -> 0 < f -> 0 < cfg_input_channels cfg ->
  0 < h / cfg_scale_factor cfg -> 0 < w / cfg_scale_factor cfg ->
  sk_chain_ok (HMV3ControlNet.blocks_down net)
    (h / cfg_scale_factor cfg) (w / cfg_scale_factor cfg) L = true ->
  4 <= length (cfg_block_out_channels cfg) ->
  nth (length (cfg_block_out_channels cfg) - 3) (cfg_block_out_channels cfg) 0 <> 1280 ->
  HMV3ControlNet.forward net c dc fp e = Err RuntimeError.
Proof.
  intros Hi Hc Hdc Hfp He Hin Hb **.
  assert (Hr : res_rel (dict_rel (ref_rel has_shape)) (HMV3ControlNet.forward net c dc fp e)
                 (HMV3ControlNet.forward net [b; cfg_input_channels cfg; f; h; w] sdc sfp se))
    by v3_fwd_rel.
  assert (Hde := V3_drive_embedding_shape cfg wt net sdc sfp se b f L Hi Hb ltac:(done) Hin).
  rewrite (V3_adapter_error_shape cfg wt net _ _ _ b f h w L) in Hr by done.
  by apply res_rel_Err_inv in Hr.
Qed.
End AdapterError.

Section OutputShapes.
Context `{K : Kernels}.

(** C2: An [HMV3ControlNet] built by [__init__] whose stages [up3_2] and
    [up3_1] have the 1280 channels the adapters expect, run on tensors of
    the documented shapes with either driving path, succeeds whenever the
    fusion blocks accept their inputs and keep a non-empty map, and
    returns exactly the entries of [v3_stage_shapes], in order: per block,
    [up3_{n-1-idx}] of shape [(b, c_i, f, h_i, w_i)], then [down3_0] of
    320 channels after [up3_2], [down3_1] of 640 channels after [up3_1],
    and [down3_2], [down3_3] with the shape of [up3_0]. *)
Theorem V3_forward_output_shapes cfg (wt : Weights K) net (c : stensor) dc fp e sdc sfp se
        b f h w L :
  HMV3ControlNet.init cfg wt = Ok net ->
  has_shape c [b; cfg_input_channels cfg; f; h; w] ->
  option_Forall2 has_shape dc sdc -> option_Forall2 has_shape fp sfp ->
  option_Forall2 has_shape e se -> v3_drive_inputs sdc sfp se b f L ->
  0 < b -> 0 < f -> 0 < cfg_input_channels cfg ->
  0 < h / cfg_scale_factor cfg -> 0 < w / cfg_scale_factor cfg ->
  sk_chain_ok (HMV3ControlNet.blocks_down net)
    (h / cfg_scale_factor cfg) (w / cfg_scale_factor cfg) L = true ->
  sk_hw_pos (HMV3ControlNet.blocks_down net)
    (h / cfg_scale_factor cfg) (w / cfg_scale_factor cfg) = true ->
  (4 <= length (cfg_block_out_channels cfg) ->
   nth (length (cfg_block_out_channels cfg) - 3) (cfg_block_out_channels cfg) 0 = 1280) ->
  (3 <= length (cfg_block_out_channels cfg) ->
   nth (length (cfg_block_out_channels cfg) - 2) (cfg_block_out_channels cfg) 0 = 1280) ->
  exists d, HMV3ControlNet.forward net c dc fp e = Ok d
    /\ dict_rel has_shape (store_vals d)
         (v3_stage_shapes (length (HMV3ControlNet.blocks_down net)) b f 320 640
            (HMV3ControlNet.blocks_down net) 0
            (h / cfg_scale_factor cfg) (w / cfg_scale_factor cfg)).
Proof.
  intros Hi Hc Hdc Hfp He Hin Hb **.
  assert (Hr : res_rel (dict_rel (ref_rel has_shape)) (HMV3ControlNet.forward net c dc fp e)
                 (HMV3ControlNet.forward net [b; cfg_input_channels cfg; f; h; w] sdc sfp se))
    by v3_fwd_rel.
  destruct (HMV3ControlNet_forward_shape cfg wt net sdc sfp se b f h w L) as (sd & Hsd & Hv); try done.
  rewrite Hsd in Hr. apply res_rel_Ok_inv in Hr as (d & -> & Hd).
  exists d. split; [done|]. rewrite <- Hv. by apply dict_rel_store_vals.
Qed.
End OutputShapes.

(** ** Examples on the reference instance *)

From Stdlib Require Import ZArith.

Section Examples.
#[local] Existing Instance int_kernels.

(** A schedule [1, 2, 3, 4] whose stage [up3_2] has 2 channels. *)
Definition ex_v3_bad_cfg : ControlNetConfig :=
  {| cfg_embedding_channels := 1280; cfg_input_channels := 1; cfg_scale_factor := 1;
     cfg_cross_attention_dim := 2; cfg_block_out_channels := [1; 2; 3; 4] |}.

Definition ex_v3_bad_net : HMV3ControlNet.t int_kernels :=
  res_get ex_v3_net (HMV3ControlNet.init ex_v3_bad_cfg ex_weights).

Lemma V3_adapter_channel_error_witness :
  HMV3ControlNet.forward ex_v3_bad_net ex_v3_cond None None (Some ex_v3_emo) = Err RuntimeError.
Proof.
  apply (V3_adapter_channel_error ex_v3_bad_cfg ex_weights ex_v3_bad_net ex_v3_cond None None
           (Some ex_v3_emo) None None (Some [1; 1; 1]) 1 1 1 1 1);
    try first [reflexivity | split; reflexivity | constructor; split; reflexivity
              | match goal with |- option_Forall2 _ None None => constructor end | simpl; lia].
  unfold v3_drive_inputs. right. split; [by left | by exists 1].
Defined.
(** The three-block schedule of [ex_v3_cfg] has 1280 channels at the
    adapters: the emotion path returns [up3_2], [down3_0], [up3_1],
    [down3_1], [up3_0], [down3_2], [down3_3] with their shapes. *)
Lemma V3_forward_output_shapes_witness :
  exists d, HMV3ControlNet.forward ex_v3_net ex_v3_cond None None (Some ex_v3_emo) = Ok d
    /\ dict_rel has_shape (store_vals d)
         (v3_stage_shapes 3 1 1 320 640 (HMV3ControlNet.blocks_down ex_v3_net) 0 1 1).
Proof.
  apply (V3_forward_output_shapes ex_v3_cfg ex_weights ex_v3_net ex_v3_cond None None
           (Some ex_v3_emo) None None (Some [1; 1; 1]) 1 1 1 1 1);
    try first [reflexivity | split; reflexivity | constructor; split; reflexivity
              | match goal with |- option_Forall2 _ None None => constructor end | simpl; lia
              | intros; reflexivity].
  unfold v3_drive_inputs. right. split; [by left | by exists 1].
Defined.
End Examples.
