(* ===== verification/V3Modes.v ===== *)
(** * HMV3ControlNet as the union of two single-mode networks

    Spec section 4.4 describes [HMV3ControlNet] as the dual-signal network
    of 4.1/4.3 and the emotion network of 4.2 behind a runtime branch, with
    cross-wired extra outputs.  This file proves it of the code: built by
    [__init__] from the same configuration and the same state dict
    ([Weights]),
    - in the emotion mode ([drive_coeff] or [face_parts] is [None]) the
      [up3_k] outputs of [HMV3ControlNet.forward] are exactly the
      [up2_v2_k] outputs of [HMV2ControlNet2.forward] (lines 341-364): the
      V3 [emo_embedding] is the V2-2 [exp_embedding] (both
      [Timesteps(cross_attention_dim, True, 0)]), and the parameters
      [conv_in], [emo_proj] and [blocks_down.*] are read under the same
      names;
    - in the expression mode its [up3_k] outputs are exactly the
      [up_v2_k] outputs of [HMV2ControlNet.forward] (lines 182-213).
    Both hold on every [TensorOps] instance, so on tensors and on shapes.
    Whenever V3 succeeds the single-mode network succeeds; the converse
    fails only at the 1x1 adapters ([V3Shapes]).

    [up3_view pre st d] relates the V3 store to a single-mode dict: for
    every [k], the value under [up3_k] is the value under [pre ++ str k],
    absent on both sides or present and equal. *)

From S2P Require Import Prelude Layout PyDict Tensor Torch Interp Embedding ControlNet V3.
From stdpp Require Import strings.
Local Open Scope res_scope.

Section View.
Context {T : Type}.

Definition up3_view (pre : string) (st : pydict (pyref T)) (d : pydict T) : Prop :=
  forall k, dict_get (store_vals st) (key_of "up3_" k) = dict_get d (key_of pre k).

Lemma up3_view_nil pre : up3_view pre [] [].
Proof. done. Qed.

(** Storing stage [u] on both sides keeps the view. *)
Lemma up3_view_new pre u v st d :
  up3_view pre st.1 d ->
  up3_view pre (py_store_new (key_of "up3_" u) v st).1 (dict_set (key_of pre u) v d).
Proof.
  intros H k. unfold py_store_new. cbn [fst]. rewrite store_vals_set.
  destruct (decide (k = u)) as [->|Hne]; [by rewrite !dict_get_set_eq|].
  rewrite !dict_get_set_ne; [apply H | ..]; intros Heq%key_of_inj; congruence.
Qed.

(** A [down3_*] key is never an [up3_*] key. *)
Lemma up3_view_down pre j r st d :
  up3_view pre st d -> up3_view pre (dict_set (String.append "down3_" j) r st) d.
Proof. intros H k. rewrite store_vals_set, dict_get_set_ne; [apply H | apply up3_not_down3]. Qed.
End View.

#[export] Hint Resolve up3_view_nil up3_view_new : hm.

Section Stages.
Context `{K : Kernels} {T : Type} `{!TensorOps T}.

(** A V3 stage that returns has unfolded its input as the single-mode loop
    does, and only added [down3_*] keys besides [up3_u]. *)
Lemma stage3_up3_view pre u fr up2 up1 (e : T) st st' d :
  HMV3ControlNet.stage3 u fr up2 up1 e st = Ok st' -> up3_view pre st.1 d ->
  exists out, ops_from_frames_batch fr e = Ok out
    /\ up3_view pre st'.1 (dict_set (key_of pre u) out d).
Proof.
  unfold HMV3ControlNet.stage3. intros (out & Hout & H)%res_bind_Ok_inv Hv.
  exists out. split; [done|].
  pose proof (up3_view_new pre u out st d Hv) as H1. revert H H1.
  generalize (py_store_new (key_of "up3_" u) out st) as st1. intros st1 H H1.
  destruct u as [|[|[|u]]]; cbn [Nat.eqb res_bind] in H.
  - apply res_bind_Ok_inv in H as (st2 & H2 & H). unfold py_store_alias in H, H2.
    destruct (dict_getitem st1.1 "up3_0") as [r|]; [injection H2 as <-|done].
    destruct (dict_getitem _ "up3_0") as [r'|]; [injection H as <-|done].
    apply (up3_view_down pre "3"), (up3_view_down pre "2"), H1.
  - apply res_bind_Ok_inv in H as (st2 & H2 & [= <-]).
    apply res_bind_Ok_inv in H2 as (o & _ & H2). apply res_bind_Ok_inv in H2 as (o' & _ & [= <-]).
    apply (up3_view_down pre "1"), H1.
  - apply res_bind_Ok_inv in H as (st2 & H2 & [= <-]).
    apply res_bind_Ok_inv in H2 as (o & _ & H2). apply res_bind_Ok_inv in H2 as (o' & _ & [= <-]).
    apply (up3_view_down pre "0"), H1.
  - by injection H as <-.
Qed.

(** The V3 loop that returns is simulated by the single-mode loop keyed
    [pre ++ str (n - idx - 1)]. *)
Lemma run_blocks3_up3_view pre n fr up2 up1 blocks idx (e de : T) st st' d :
  HMV3ControlNet.run_blocks3 n fr up2 up1 blocks idx e de st = Ok st' -> up3_view pre st.1 d ->
  exists d', run_blocks (fun i => key_of pre (n - i - 1)) fr blocks idx e de d = Ok d'
    /\ up3_view pre st'.1 d'.
Proof.
  revert idx e st d. induction blocks as [|blk rest IH]; intros idx e st d;
    cbn [HMV3ControlNet.run_blocks3 run_blocks]; [intros [= <-]; eauto|].
  intros (e' & He & H)%res_bind_Ok_inv Hv. apply res_bind_Ok_inv in H as (st1 & H1 & H).
  destruct (stage3_up3_view pre _ _ _ _ _ _ _ d H1 Hv) as (out & Hout & Hv1).
  rewrite He. cbn [res_bind]. rewrite Hout. cbn [res_bind]. exact (IH _ _ _ _ H Hv1).
Qed.
End Stages.

(** [init_agree] solves the goals that the two [__init__]s, run on the
    same configuration and weights, built the same sub-module. *)
Ltac init_agree Hi3 Hi :=
  unfold HMV3ControlNet.init, HMV2ControlNet2.init, HMV2ControlNet.init, list_getitem in Hi3, Hi;
  destruct (cfg_block_out_channels _) as [|? ?]; [done|];
  injection Hi3 as <-; injection Hi as <-.

Section Modes.
Context `{K : Kernels} {T : Type} `{!TensorOps T}.

(** C11: Built by [__init__] from the same configuration and weights, an
    [HMV3ControlNet] run in the emotion mode ([drive_coeff] or
    [face_parts] is [None]) that returns agrees with [HMV2ControlNet2]:
    the latter returns too, and for every [k] the V3 output [up3_k] is
    exactly its output [up2_v2_k] (both absent or both the same tensor). *)
Theorem V3_emo_mode_as_HMV2ControlNet2 cfg (w : Weights K) net3 net22 (c e : T) dc fp d :
  HMV3ControlNet.init cfg w = Ok net3 -> HMV2ControlNet2.init cfg w = Ok net22 ->
  (dc = None \/ fp = None) ->
  HMV3ControlNet.forward net3 c dc fp (Some e) = Ok d ->
  exists d2, HMV2ControlNet2.forward net22 c e = Ok d2
    /\ forall k, dict_get (store_vals d) (key_of "up3_" k) = dict_get d2 (key_of "up2_v2_" k).
Proof.
  intros Hi3 Hi Hnone. unfold HMV3ControlNet.forward, HMV2ControlNet2.forward.
  intros ([[bs fr] emb] & Hstem & H)%res_bind_Ok_inv. revert H.
  rewrite (drive_embedding_of_emo _ _ _ _ _ _ Hnone). revert Hstem. init_agree Hi3 Hi.
  cbn [HMV3ControlNet.scale_factor HMV3ControlNet.conv_in HMV3ControlNet.blocks_down
       HMV3ControlNet.emo_embedding HMV3ControlNet.emo_proj HMV3ControlNet.cross_attention_dim
       HMV3ControlNet.not_none HMV2ControlNet2.scale_factor HMV2ControlNet2.conv_in
       HMV2ControlNet2.blocks_down HMV2ControlNet2.exp_embedding HMV2ControlNet2.emo_proj
       HMV2ControlNet2.cross_attention_dim].
  intros -> H. cbn [res_bind] in *.
  apply res_bind_Ok_inv in H as (de & -> & H). apply res_bind_Ok_inv in H as (st & Hrun & [= <-]).
  exact (run_blocks3_up3_view "up2_v2_" _ _ _ _ _ _ _ _ _ _ [] Hrun (up3_view_nil _)).
Qed.

(** C12: Built by [__init__] from the same configuration and weights, an
    [HMV3ControlNet] run in the expression mode (both [drive_coeff] and
    [face_parts] given) that returns agrees with [HMV2ControlNet]: the
    latter returns too, and for every [k] the V3 output [up3_k] is exactly
    its output [up_v2_k]; [emo_embedding] plays no part. *)
Theorem V3_exp_mode_as_HMV2ControlNet cfg (w : Weights K) net3 net2 (c dc fp : T) e d :
  HMV3ControlNet.init cfg w = Ok net3 -> HMV2ControlNet.init cfg w = Ok net2 ->
  HMV3ControlNet.forward net3 c (Some dc) (Some fp) e = Ok d ->
  exists d2, HMV2ControlNet.forward net2 c dc fp = Ok d2
    /\ forall k, dict_get (store_vals d) (key_of "up3_" k) = dict_get d2 (key_of "up_v2_" k).
Proof.
  intros Hi3 Hi. unfold HMV3ControlNet.forward, HMV2ControlNet.forward.
  init_agree Hi3 Hi.
  cbn [HMV3ControlNet.scale_factor HMV3ControlNet.conv_in HMV3ControlNet.blocks_down
       HMV3ControlNet.exp_embedding HMV3ControlNet.face_proj HMV3ControlNet.exp_proj
       HMV3ControlNet.cross_attention_dim HMV3ControlNet.drive_embedding_of
       HMV2ControlNet.scale_factor HMV2ControlNet.conv_in HMV2ControlNet.blocks_down
       HMV2ControlNet.exp_embedding HMV2ControlNet.face_proj HMV2ControlNet.exp_proj
       HMV2ControlNet.cross_attention_dim].
  intros ([[bs fr] emb] & -> & H)%res_bind_Ok_inv. cbn [res_bind] in *.
  apply res_bind_Ok_inv in H as (de & -> & H). apply res_bind_Ok_inv in H as (st & Hrun & [= <-]).
  exact (run_blocks3_up3_view "up_v2_" _ _ _ _ _ _ _ _ _ _ [] Hrun (up3_view_nil _)).
Qed.
End Modes.

(** ** Examples on the reference instance *)

Section Examples.
#[local] Existing Instance int_kernels.

Definition ex_v3_v22 : HMV2ControlNet2.t int_kernels :=
  res_get ex_v2_net2 (HMV2ControlNet2.init ex_v3_cfg ex_weights).
Definition ex_v3_v2 : HMV2ControlNet.t int_kernels :=
  res_get ex_v2_net (HMV2ControlNet.init ex_v3_cfg ex_weights).

(** The expression mode of [ex_v3_net] on a two-frame condition. *)
Definition ex_v3_exp_out : pydict (pyref stensor) :=
  res_get [] (HMV3ControlNet.forward ex_v3_net ex_cond (Some ex_coeff) (Some ex_face) None).

Lemma ex_v3_exp_forward :
  HMV3ControlNet.forward ex_v3_net ex_cond (Some ex_coeff) (Some ex_face) None = Ok ex_v3_exp_out.
Proof. vm_compute. reflexivity. Qed.

Lemma V3_emo_mode_as_HMV2ControlNet2_witness :
  exists d2, HMV2ControlNet2.forward ex_v3_v22 ex_v3_cond ex_v3_emo = Ok d2
    /\ forall k, dict_get (store_vals ex_v3_out) (key_of "up3_" k) = dict_get d2 (key_of "up2_v2_" k).
Proof.
  apply (V3_emo_mode_as_HMV2ControlNet2 ex_v3_cfg ex_weights ex_v3_net ex_v3_v22 ex_v3_cond ex_v3_emo
           None None ex_v3_out); [reflexivity | reflexivity | by left | apply ex_v3_forward].
Defined.

Lemma V3_exp_mode_as_HMV2ControlNet_witness :
  exists d2, HMV2ControlNet.forward ex_v3_v2 ex_cond ex_coeff ex_face = Ok d2
    /\ forall k, dict_get (store_vals ex_v3_exp_out) (key_of "up3_" k) = dict_get d2 (key_of "up_v2_" k).
Proof.
  apply (V3_exp_mode_as_HMV2ControlNet ex_v3_cfg ex_weights ex_v3_net ex_v3_v2 ex_cond ex_coeff
           ex_face None ex_v3_exp_out); [reflexivity | reflexivity | apply ex_v3_exp_forward].
Defined.
End Examples.
